(** * Tanita BC-601 export parser: decoding, normalization, ordering

    A shallow embedding of [tanita_parser.py].  The development follows the
    source top-down: the Python library routines the parser leans on
    ([str.strip], [str.lower], [str.replace], [float], [datetime.strptime],
    [sorted]) are modelled first, then the code table and the methods of
    [TanitaParser], and finally the properties.

    Conventions.
    - A Python [str] is a Rocq [string]; non-ASCII text (the accented field
      names) is its UTF-8 encoding.  The library routines that classify
      characters (whitespace, digits, letter case) are modelled on the ASCII
      range, where a byte is a character; a byte above 127 is an ordinary
      character for them.
    - A Python [float] is a binary64 number, [spec_float] at precision 53.
    - A measurement is a Python [dict] keyed by strings: [gmap string pyval].
    - A raised exception is [None]. *)

From Stdlib Require Import ZArith NArith List String Ascii Bool Lia.
From Stdlib Require Import Floats.SpecFloat.
From stdpp Require Import base strings gmap list sorting pretty.

Local Open Scope Z_scope.

(** ** Python strings *)

Module PyStr.

Definition code (c : ascii) : N := N_of_ascii c.

(** [str.isspace] on the ASCII range: TAB..CR, FS..US and SPACE. *)
Definition isspace (c : ascii) : bool :=
  let n := code c in
  (((9 <=? n) && (n <=? 13)) || ((28 <=? n) && (n <=? 32)))%N.

(** C [isspace] in the C locale (used by [float]): TAB..CR and SPACE. *)
Definition c_isspace (c : ascii) : bool :=
  let n := code c in
  (((9 <=? n) && (n <=? 13)) || (n =? 32))%N.

Definition isdigit (c : ascii) : bool :=
  let n := code c in ((48 <=? n) && (n <=? 57))%N.

Definition digit_value (c : ascii) : N := (code c - 48)%N.

(** The run of digits at the head of [s]: its value appended to [acc],
    its length added to [cnt], and the text after it. *)
Fixpoint digits (s : string) (acc : N) (cnt : nat) : N * nat * string :=
  match s with
  | String c s' =>
      if isdigit c
      then digits s' (acc * 10 + digit_value c)%N (S cnt)
      else (acc, cnt, s)
  | EmptyString => (acc, cnt, s)
  end.

Section Strip.
Variable sp : ascii -> bool.

Fixpoint lstrip_with (s : string) : string :=
  match s with
  | String c s' => if sp c then lstrip_with s' else s
  | EmptyString => EmptyString
  end.

Fixpoint rstrip_with (s : string) : string :=
  match s with
  | EmptyString => EmptyString
  | String c s' =>
      match rstrip_with s' with
      | EmptyString => if sp c then EmptyString else String c EmptyString
      | r => String c r
      end
  end.

Definition strip_with (s : string) : string := rstrip_with (lstrip_with s).
End Strip.

(** [s.strip()] *)
Definition strip : string -> string := strip_with isspace.

Definition lower_char (c : ascii) : ascii :=
  let n := code c in
  if ((65 <=? n) && (n <=? 90))%N then ascii_of_N (n + 32) else c.

(** [s.lower()] *)
Fixpoint lower (s : string) : string :=
  match s with
  | EmptyString => EmptyString
  | String c s' => String (lower_char c) (lower s')
  end.

(** [s.replace(old, new)] for a one-character [old]. *)
Fixpoint replace (old : ascii) (new : string) (s : string) : string :=
  match s with
  | EmptyString => EmptyString
  | String c s' =>
      if Ascii.eqb c old then new +:+ replace old new s'
      else String c (replace old new s')
  end.

(** [old in s] for a one-character [old]. *)
Fixpoint contains (old : ascii) (s : string) : bool :=
  match s with
  | EmptyString => false
  | String c s' => Ascii.eqb c old || contains old s'
  end.

(** [s.startswith(p)] *)
Definition startswith (p s : string) : bool := String.prefix p s.

(** [os.path.basename]: the text after the last slash. *)
Fixpoint basename (p : string) : string :=
  match p with
  | EmptyString => EmptyString
  | String c p' =>
      if contains "/" p' then basename p'
      else if Ascii.eqb c "/" then p' else p
  end.

Definition upper_char (c : ascii) : ascii :=
  let n := code c in
  if ((97 <=? n) && (n <=? 122))%N then ascii_of_N (n - 32) else c.

(** [s.upper()] *)
Fixpoint upper (s : string) : string :=
  match s with
  | EmptyString => EmptyString
  | String c s' => String (upper_char c) (upper s')
  end.

(** [sub in s] *)
Fixpoint isin (sub s : string) : bool :=
  String.prefix sub s
  || match s with
     | EmptyString => false
     | String _ s' => isin sub s'
     end.

(** Every character of the text is in the ASCII range. *)
Fixpoint is_ascii (s : string) : bool :=
  match s with
  | EmptyString => true
  | String c s' => (code c <? 128)%N && is_ascii s'
  end.

End PyStr.

(** ** Python floats: [float(s)], subtraction, comparison, [format(x, "+.1f")] *)

Module PyFloat.

Definition prec : Z := 53.
Definition emax : Z := 1024.

Definition of_Z (z : Z) : spec_float := binary_normalize prec emax z 0 false.

(** The binary64 number nearest to [(-1)^neg * m * 10^e], ties to even. *)
Definition of_decimal (neg : bool) (m : N) (e : Z) : spec_float :=
  match m with
  | N0 => S754_zero neg
  | Npos p =>
      if 0 <=? e
      then binary_round prec emax neg (p * Z.to_pos (10 ^ e)) 0
      else SFdiv prec emax (S754_finite neg p 0)
                 (S754_finite false (Z.to_pos (10 ^ (- e))) 0)
  end.

Definition sub : spec_float -> spec_float -> spec_float := SFsub prec emax.
Definition abs : spec_float -> spec_float := SFabs.
Definition ltb : spec_float -> spec_float -> bool := SFltb.
Definition leb : spec_float -> spec_float -> bool := SFleb.

(** *** The grammar of [float(s)] (CPython: underscore screening, C
    whitespace strip, [strtod] with the inf/nan fallback, and the whole
    text must be consumed). *)

Fixpoint skip (n : nat) (s : string) : string :=
  match n, s with
  | S n', String _ s' => skip n' s'
  | _, _ => s
  end.

Definition sign (s : string) : bool * string :=
  match s with
  | String "-" s' => (true, s')
  | String "+" s' => (false, s')
  | _ => (false, s)
  end.

Definition MAX_ABS_EXP : Z := 19999.

(** An exponent part is taken only when it has a digit. *)
Definition exponent (s : string) : Z * string :=
  match s with
  | String c s1 =>
      if Ascii.eqb c "e" || Ascii.eqb c "E" then
        let '(eneg, s2) := sign s1 in
        let '(v, n, s3) := PyStr.digits s2 0%N 0%nat in
        match n with
        | O => (0, s)
        | S _ =>
            let a := Z.min (Z.of_N v) MAX_ABS_EXP in
            (if eneg then - a else a, s3)
        end
      else (0, s)
  | EmptyString => (0, s)
  end.

Definition strtod (s : string) : option (spec_float * string) :=
  let '(neg, s1) := sign s in
  let '(mi, ni, s2) := PyStr.digits s1 0%N 0%nat in
  let '(m, nf, s3) :=
    match s2 with
    | String "." s2' => PyStr.digits s2' mi 0%nat
    | _ => (mi, 0%nat, s2)
    end in
  match (ni + nf)%nat with
  | O => None
  | S _ =>
      let '(e, s4) := exponent s3 in
      Some (of_decimal neg m (e - Z.of_nat nf), s4)
  end.

Definition parse_inf_or_nan (s : string) : option (spec_float * string) :=
  let '(neg, s1) := sign s in
  let l := PyStr.lower s1 in
  if String.prefix "inf" l then
    if String.prefix "infinity" l
    then Some (S754_infinity neg, skip 8 s1)
    else Some (S754_infinity neg, skip 3 s1)
  else if String.prefix "nan" l then Some (S754_nan, skip 3 s1)
  else None.

Definition ascii_strtod (s : string) : option (spec_float * string) :=
  match strtod s with
  | Some r => Some r
  | None => parse_inf_or_nan s
  end.

Definition float_from_string_inner (s : string) : option spec_float :=
  match PyStr.strip_with PyStr.c_isspace s with
  | EmptyString => None
  | s1 =>
      match ascii_strtod s1 with
      | Some (x, EmptyString) => Some x
      | _ => None
      end
  end.

(** An underscore is allowed only between two digits; it is then dropped. *)
Fixpoint drop_underscores (prev : ascii) (s : string) : option string :=
  match s with
  | EmptyString => if Ascii.eqb prev "_" then None else Some EmptyString
  | String c s' =>
      if Ascii.eqb c "_" then
        if PyStr.isdigit prev then drop_underscores c s' else None
      else if Ascii.eqb prev "_" && negb (PyStr.isdigit c) then None
      else String c <$> drop_underscores c s'
  end.

(** [float(s)]; [None] stands for [ValueError]. *)
Definition of_string (s : string) : option spec_float :=
  if PyStr.contains "_" s then
    match drop_underscores "000" s with
    | Some d => float_from_string_inner d
    | None => None
    end
  else float_from_string_inner s.

(** *** [format(x, "+.1f")] *)

Definition round_half_even (num den : Z) : Z :=
  let q := num / den in
  match 2 * (num mod den) ?= den with
  | Lt => q
  | Gt => q + 1
  | Eq => if Z.even q then q else q + 1
  end.

(** [|x|] in tenths, rounded to the nearest integer, ties to even. *)
Definition tenths (m : positive) (e : Z) : Z :=
  if 0 <=? e then Z.pos m * 2 ^ e * 10
  else round_half_even (Z.pos m * 10) (2 ^ (- e)).

Definition sign_text (s : bool) : string := if s then "-" else "+".

Definition format_plus_1f (x : spec_float) : string :=
  match x with
  | S754_nan => "+nan"
  | S754_infinity s => sign_text s +:+ "inf"
  | S754_zero s => sign_text s +:+ "0.0"
  | S754_finite s m e =>
      let t := tenths m e in
      sign_text s +:+ pretty (t / 10) +:+ "." +:+ pretty (t mod 10)
  end.

Definition add : spec_float -> spec_float -> spec_float := SFadd prec emax.

(** The number is neither an infinity nor a NaN. *)
Definition is_finite (x : spec_float) : bool :=
  match x with
  | S754_zero _ | S754_finite _ _ _ => true
  | _ => false
  end.

(** Truth value of a float: every float but plus and minus zero. *)
Definition truthy (x : spec_float) : bool :=
  match x with
  | S754_zero _ => false
  | _ => true
  end.

End PyFloat.

(** ** Python datetimes: [datetime.strptime(s, "%d/%m/%Y %H:%M:%S")] *)

Module PyDatetime.

Record datetime : Type := Datetime {
  year : Z; month : Z; day : Z; hour : Z; minute : Z; second : Z
}.

Global Instance datetime_eq_dec : EqDecision datetime.
Proof. solve_decision. Defined.

(** [datetime.min] *)
Definition min : datetime := Datetime 1 1 1 0 0 0.

(** Naive datetimes compare as the tuples of their fields. *)
Definition to_tuple (d : datetime) : list Z :=
  [year d; month d; day d; hour d; minute d; second d].

Fixpoint compare_tuple (a b : list Z) : comparison :=
  match a, b with
  | [], [] => Eq
  | [], _ :: _ => Lt
  | _ :: _, [] => Gt
  | x :: a', y :: b' =>
      match x ?= y with
      | Eq => compare_tuple a' b'
      | c => c
      end
  end.

Definition compare (a b : datetime) : comparison :=
  compare_tuple (to_tuple a) (to_tuple b).

(** [a < b] *)
Definition ltb (a b : datetime) : bool :=
  match compare a b with Lt => true | _ => false end.

(** *** The regular expression [strptime] compiles the format to.
    Every directive is a group of alternatives tried in order, each a
    sequence of one-character classes; white space in the format is
    [\s+]; matching backtracks and need not reach the end of the text. *)

Inductive cclass : Type :=
  | Digit                       (* \d *)
  | Range (lo hi : ascii)       (* [lo-hi] *)
  | Char (c : ascii).

Inductive item : Type :=
  | Group (alts : list (list cclass))
  | Lit (c : ascii)
  | Spaces.                     (* \s+ *)

Definition cmatch (k : cclass) (c : ascii) : bool :=
  match k with
  | Digit => PyStr.isdigit c
  | Range lo hi =>
      ((PyStr.code lo <=? PyStr.code c) && (PyStr.code c <=? PyStr.code hi))%N
  | Char c' => Ascii.eqb c c'
  end.

(** The text matched by a sequence of classes, and what follows it. *)
Fixpoint match_seq (ks : list cclass) (s : string) : option (string * string) :=
  match ks, s with
  | [], _ => Some (EmptyString, s)
  | k :: ks', String c s' =>
      if cmatch k c
      then (λ '(g, r), (String c g, r)) <$> match_seq ks' s'
      else None
  | _ :: _, EmptyString => None
  end.

Section Backtracking.
Context {X : Type}.

(** Greedy [\s*] followed by [k]. *)
Fixpoint spaces_then (k : string -> option X) (s : string) : option X :=
  match s with
  | String c s' =>
      if PyStr.isspace c then
        match spaces_then k s' with
        | Some x => Some x
        | None => k s
        end
      else k s
  | EmptyString => k s
  end.

(** The first alternative after which [k] succeeds. *)
Fixpoint first_alt (k : string -> string -> option X)
    (alts : list (list cclass)) (s : string) : option X :=
  match alts with
  | [] => None
  | a :: alts' =>
      match match_seq a s ≫= (λ '(g, r), k g r) with
      | Some x => Some x
      | None => first_alt k alts' s
      end
  end.
End Backtracking.

(** The captured groups, in order, and the unmatched rest. *)
Fixpoint match_items (its : list item) (s : string)
  : option (list string * string) :=
  match its with
  | [] => Some ([], s)
  | Lit c :: its' =>
      match s with
      | String c' s' => if Ascii.eqb c' c then match_items its' s' else None
      | EmptyString => None
      end
  | Spaces :: its' =>
      match s with
      | String c s' =>
          if PyStr.isspace c then spaces_then (match_items its') s' else None
      | EmptyString => None
      end
  | Group alts :: its' =>
      first_alt (λ g r, (λ '(gs, r'), (g :: gs, r')) <$> match_items its' r)
                alts s
  end.

Definition re_d : item :=
  Group [ [Char "3"; Range "0" "1"]; [Range "1" "2"; Digit];
          [Char "0"; Range "1" "9"]; [Range "1" "9"];
          [Char " "; Range "1" "9"] ].
Definition re_m : item :=
  Group [ [Char "1"; Range "0" "2"]; [Char "0"; Range "1" "9"];
          [Range "1" "9"] ].
Definition re_Y : item := Group [ [Digit; Digit; Digit; Digit] ].
Definition re_H : item :=
  Group [ [Char "2"; Range "0" "3"]; [Range "0" "1"; Digit]; [Digit] ].
Definition re_M : item := Group [ [Range "0" "5"; Digit]; [Digit] ].
Definition re_S : item :=
  Group [ [Char "6"; Range "0" "1"]; [Range "0" "5"; Digit]; [Digit] ].

(** ["%d/%m/%Y %H:%M:%S"] *)
Definition format_regex : list item :=
  [ re_d; Lit "/"; re_m; Lit "/"; re_Y; Spaces;
    re_H; Lit ":"; re_M; Lit ":"; re_S ].

(** [int(g)] on a captured group (digits, possibly after a space). *)
Definition int (g : string) : Z :=
  Z.of_N (PyStr.digits (PyStr.strip g) 0%N 0%nat).1.1.

Definition is_leap (y : Z) : bool :=
  (y mod 4 =? 0) && (negb (y mod 100 =? 0) || (y mod 400 =? 0)).

Definition days_in_month (y m : Z) : Z :=
  match m with
  | 2 => if is_leap y then 29 else 28
  | 4 | 6 | 9 | 11 => 30
  | _ => 31
  end.

Definition MINYEAR : Z := 1.
Definition MAXYEAR : Z := 9999.

(** The range checks of the [datetime] constructor. *)
Definition check_fields (dt : datetime) : bool :=
  (MINYEAR <=? year dt) && (year dt <=? MAXYEAR)
  && (1 <=? month dt) && (month dt <=? 12)
  && (1 <=? day dt) && (day dt <=? days_in_month (year dt) (month dt))
  && (0 <=? hour dt) && (hour dt <=? 23)
  && (0 <=? minute dt) && (minute dt <=? 59)
  && (0 <=? second dt) && (second dt <=? 59).

(** [datetime(year, month, day, hour, minute, second)] *)
Definition new (y m d H M S : Z) : option datetime :=
  let dt := Datetime y m d H M S in
  if check_fields dt then Some dt else None.

(** [None] stands for [ValueError]: no match, unconverted text left, or
    fields that [datetime] refuses (year 0, a day the month does not
    have, a leap second). *)
Definition strptime (s : string) : option datetime :=
  match match_items format_regex s with
  | Some ([gd; gm; gY; gH; gM; gS], EmptyString) =>
      new (int gY) (int gm) (int gd) (int gH) (int gM) (int gS)
  | _ => None
  end.

End PyDatetime.

(** ** [sorted(l, key=key)]: a stable sort that only asks [key x < key y] *)

Section Sorted.
Context {A K : Type}.
Variable ltb : K -> K -> bool.
Variable key : A -> K.

Fixpoint insert_by (x : A) (l : list A) : list A :=
  match l with
  | [] => [x]
  | y :: l' => if ltb (key y) (key x) then y :: insert_by x l' else x :: l
  end.

Definition sorted (l : list A) : list A := foldr insert_by [] l.
End Sorted.

(** ** Values stored in a measurement dictionary *)

Inductive pyval : Type :=
  | PStr (s : string)
  | PInt (n : Z)
  | PList (l : list string).

Global Instance pyval_eq_dec : EqDecision pyval.
Proof. solve_decision. Defined.

Abbreviation measurement := (gmap string pyval).

(** ** The code table *)

Definition TANITA_MAPPINGS_items : list (string * string) :=
  [ ("0", "Desconocido: 16");
    ("~0", "Unidad de longitud");
    ("~1", "Unidad de masa");
    ("~2", "Desconocido: 4");
    ("~3", "Desconocido: 3");
    ("Bt", "Modo atleta (0=Normal, 2=Atleta)");
    ("Wk", "Masa corporal (kg)");
    ("MI", "Índice de masa corporal (IMC)");
    ("MO", "Modelo");
    ("DT", "Fecha de medición");
    ("Ti", "Hora de medición");
    ("GE", "Género");
    ("AG", "Edad");
    ("Hm", "Altura (cm)");
    ("AL", "Nivel de actividad");
    ("FW", "Grasa corporal total %");
    ("Fr", "Grasa del brazo (derecho) %");
    ("Fl", "Grasa del brazo (izquierdo) %");
    ("FR", "Grasa de la pierna (derecha) %");
    ("FL", "Grasa de la pierna (izquierda) %");
    ("FT", "Grasa del torso %");
    ("mW", "Músculo corporal total %");
    ("mr", "Músculo del brazo (derecho) %");
    ("ml", "Músculo del brazo (izquierdo) %");
    ("mR", "Músculo de la pierna (derecha) %");
    ("mL", "Músculo de la pierna (izquierda) %");
    ("mT", "Músculo del torso %");
    ("bw", "Masa ósea estimada (kg)");
    ("IF", "Índice de grasa visceral");
    ("rA", "Edad metabólica estimada");
    ("rD", "Ingesta calórica diaria (ICD)");
    ("ww", "Agua corporal total %");
    ("CS", "Desconocido: BC") ].

Definition TANITA_MAPPINGS : gmap string string :=
  list_to_map TANITA_MAPPINGS_items.

(** ** The parser state and the row decoders *)

Record profile : Type := Profile {
  profile_file : string;
  profile_row : Z;
  profile_data : list string
}.

Record TanitaParser : Type := Parser {
  measurements : list measurement;
  profiles : gmap string profile
}.

(** [TanitaParser.__init__] *)
Definition init : TanitaParser := Parser [] ∅.

(** [range(0, stop, 2)] *)
Definition range_by_2 (stop : Z) : list nat :=
  (λ k, 2 * k)%nat <$> seq 0 (Z.to_nat ((stop + 1) / 2)).

(** The key under which [_parse_measurement_row] files a stripped code. *)
Definition field_key (header : string) : string :=
  match TANITA_MAPPINGS !! header with
  | Some name => name
  | None => "Unknown_" +:+ header
  end.

(** One turn of the loop of [_parse_measurement_row].  The index [i] comes
    from [range(0, len(row) - 1, 2)], so [row[i]] and [row[i + 1]] exist. *)
Definition decode_pair (row : list string) (m : measurement) (i : nat)
  : measurement :=
  let header := PyStr.strip (default "" (row !! i)) in
  let value :=
    if bool_decide (i + 1 < length row)%nat
    then PyStr.strip (default "" (row !! (i + 1)%nat)) else "" in
  <[field_key header := PStr value]> m.

(** The dictionary built by [_parse_measurement_row] for one row. *)
Definition decode_row (row : list string) (file_path : string) (row_num : nat)
  : measurement :=
  let m0 : measurement :=
    <["raw_data" := PList row]>
      (<["row" := PInt (Z.of_nat row_num + 1)]>
         (<["file" := PStr (PyStr.basename file_path)]> ∅)) in
  foldl (decode_pair row) m0 (range_by_2 (Z.of_nat (length row) - 1)).

Definition _parse_measurement_row
    (self : TanitaParser) (row : list string) (file_path : string)
    (row_num : nat) : TanitaParser :=
  Parser (measurements self ++ [decode_row row file_path row_num])
         (profiles self).

Definition _parse_profile_row
    (self : TanitaParser) (row : list string) (file_path : string)
    (row_num : nat) : TanitaParser :=
  let profile_key :=
    PyStr.basename file_path +:+ "_row_" +:+ pretty (Z.of_nat row_num) in
  Parser (measurements self)
         (<[profile_key :=
              Profile (PyStr.basename file_path) (Z.of_nat row_num + 1) row]>
            (profiles self)).

Inductive file_type : Type := measurement_file | profile_file_type | other_type.

(** The body of the [for row_num, row in enumerate(reader)] loop. *)
Definition parse_row (file_path : string) (ft : file_type)
    (self : TanitaParser) (numbered : nat * list string) : TanitaParser :=
  let '(row_num, row) := numbered in
  if bool_decide (length row < 2)%nat then self
  else match ft with
       | measurement_file => _parse_measurement_row self row file_path row_num
       | profile_file_type => _parse_profile_row self row file_path row_num
       | other_type => self
       end.

(** [parse_csv_file]: [contents] is [None] when the path does not exist,
    and otherwise the rows the csv reader yields. *)
Definition parse_csv_file (self : TanitaParser) (file_path : string)
    (contents : option (list (list string))) (ft : file_type) : TanitaParser :=
  match contents with
  | None => self
  | Some rows => foldl (parse_row file_path ft) self (imap pair rows)
  end.

(** ** Reading values back from a measurement *)

(** [str(v)].  The text of a list quotes its elements; escapes inside an
    element are not modelled. *)
Definition py_str (v : pyval) : string :=
  match v with
  | PStr s => s
  | PInt n => pretty n
  | PList l => "[" +:+ String.concat ", " ((λ s, "'" +:+ s +:+ "'") <$> l) +:+ "]"
  end.

(** [str(measurement.get(k))]: a missing key reads as the text of [None]. *)
Definition str_get (o : option pyval) : string :=
  match o with
  | Some v => py_str v
  | None => "None"
  end.

(** Truth value of a stored value in a condition. *)
Definition truthy (v : pyval) : bool :=
  match v with
  | PStr s => negb (bool_decide (s = ""))
  | PInt n => negb (n =? 0)
  | PList l => negb (bool_decide (l = []))
  end.

Definition FECHA : string := "Fecha de medición".
Definition HORA : string := "Hora de medición".
Definition GENERO : string := "Género".

(** ** Chronological ordering *)

(** The sort key, [parse_datetime] inside [_get_sorted_measurements]. *)
Definition parse_datetime (m : measurement) : PyDatetime.datetime :=
  match m !! FECHA, m !! HORA with
  | Some fecha, Some hora =>
      if truthy fecha && truthy hora then
        match PyDatetime.strptime (py_str fecha +:+ " " +:+ py_str hora) with
        | Some d => d
        | None => PyDatetime.min
        end
      else PyDatetime.min
  | _, _ => PyDatetime.min
  end.

Definition _get_sorted_measurements (self : TanitaParser) : list measurement :=
  sorted PyDatetime.ltb parse_datetime (measurements self).

(** ** Numeric normalization, as written at each site *)

(** [float(str(grasa).replace("%", "").replace(",", "."))] *)
Definition grasa_number (s : string) : option spec_float :=
  PyFloat.of_string (PyStr.replace "," "." (PyStr.replace "%" "" s)).

(** [float(str(imc).replace(",", "."))] *)
Definition imc_number (s : string) : option spec_float :=
  PyFloat.of_string (PyStr.replace "," "." s).

(** [float(str(musc).replace("%", "").replace(",", "."))] *)
Definition musc_number (s : string) : option spec_float :=
  PyFloat.of_string (PyStr.replace "," "." (PyStr.replace "%" "" s)).

(** [float(str(agua).replace("%", "").replace(",", "."))] *)
Definition agua_number (s : string) : option spec_float :=
  PyFloat.of_string (PyStr.replace "," "." (PyStr.replace "%" "" s)).

(** [float(str(visceral).replace(",", "."))] *)
Definition visceral_number (s : string) : option spec_float :=
  PyFloat.of_string (PyStr.replace "," "." s).

(** [float(str(val1).replace("%", "").replace(",", "."))], comparison table *)
Definition table_number (s : string) : option spec_float :=
  PyFloat.of_string (PyStr.replace "," "." (PyStr.replace "%" "" s)).

(** [float(str(value1).replace("%", "").replace(",", "."))], comparison chart *)
Definition chart_number (s : string) : option spec_float :=
  PyFloat.of_string (PyStr.replace "," "." (PyStr.replace "%" "" s)).

(** ** Sex category and the range tables of a section *)

Inductive sexo : Type := hombre | mujer | otro.

Global Instance sexo_eq_dec : EqDecision sexo.
Proof. solve_decision. Defined.

(** The [if genero in [...]] chain; [genero] is already lower-cased. *)
Definition sexo_for (genero : string) : sexo :=
  if bool_decide (genero ∈ ["1"; "hombre"; "m"; "male"]) then hombre
  else if bool_decide (genero ∈ ["2"; "mujer"; "f"; "female"]) then mujer
  else otro.

(** [measurement.get("Género", "").lower()]; [None] when the stored value
    has no [lower] method. *)
Definition measurement_genero (m : measurement) : option string :=
  match m !! GENERO with
  | None => Some (PyStr.lower "")
  | Some (PStr s) => Some (PyStr.lower s)
  | Some _ => None
  end.

Definition num (z : Z) : spec_float := PyFloat.of_Z z.

Definition ranges_of (bounds : list (Z * Z)) : list (spec_float * spec_float) :=
  (λ '(lo, hi), (num lo, num hi)) <$> bounds.

Definition grasa_ranges (sx : sexo) : list (spec_float * spec_float) :=
  match sx with
  | hombre => ranges_of [(0, 8); (8, 20); (20, 25); (25, 45)]
  | mujer => ranges_of [(0, 21); (21, 33); (33, 39); (39, 55)]
  | otro => ranges_of [(0, 10); (10, 20); (20, 30); (30, 50)]
  end.
Definition grasa_labels : list string := ["Bajo"; "Óptimo"; "Alto"; "Muy alto"].

Definition imc_ranges : list (spec_float * spec_float) :=
  [ (num 0, PyFloat.of_decimal false 185 (-1));
    (PyFloat.of_decimal false 185 (-1), num 25);
    (num 25, num 30); (num 30, num 40) ].
Definition imc_labels : list string :=
  ["Bajo peso"; "Normal"; "Sobrepeso"; "Obesidad"].

Definition musc_ranges (sx : sexo) : list (spec_float * spec_float) :=
  match sx with
  | hombre => ranges_of [(0, 42); (42, 49); (49, 56); (56, 70)]
  | mujer => ranges_of [(0, 30); (30, 36); (36, 42); (42, 60)]
  | otro => ranges_of [(0, 30); (30, 40); (40, 50); (50, 70)]
  end.
Definition musc_labels : list string := ["Muy baja"; "Baja"; "Óptima"; "Alta"].

Definition agua_ranges (sx : sexo) : list (spec_float * spec_float) :=
  match sx with
  | hombre => ranges_of [(0, 50); (50, 65); (65, 80)]
  | mujer => ranges_of [(0, 45); (45, 60); (60, 80)]
  | otro => ranges_of [(0, 45); (45, 60); (60, 80)]
  end.
Definition agua_labels : list string := ["Bajo"; "Normal"; "Alto"].

Definition visceral_ranges : list (spec_float * spec_float) :=
  ranges_of [(1, 10); (10, 15); (15, 30)].
Definition visceral_labels : list string := ["Óptima"; "Alta"; "Muy alta"].

(** ** What [generate_pdf_report] hands to the drawing routines *)

(** The arguments of one [_plot_colored_bar] call. *)
Record bar : Type := Bar {
  bar_value : spec_float;
  bar_ranges : list (spec_float * spec_float);
  bar_labels : list string;
  bar_title : string;
  bar_units : string
}.

(** One "Medición i" block: its heading, the measurement it renders, the
    resolved sex category and the bars drawn for it.  The field table and
    the radar drawings of the block are not modelled. *)
Record section : Type := MkSection {
  sec_heading : string;
  sec_measurement : measurement;
  sec_sexo : sexo;
  sec_bars : list bar
}.

Definition bar_if (v : option spec_float) (ranges : list (spec_float * spec_float))
    (labels : list string) (title units : string) : list bar :=
  match v with
  | Some x => [Bar x ranges labels title units]
  | None => []
  end.

(** The body of [for i, measurement in enumerate(self.measurements)]. *)
Definition measurement_section (i : nat) (m : measurement) : option section :=
  genero ← measurement_genero m;
  let sx := sexo_for genero in
  let grasa := grasa_number (str_get (m !! "Grasa corporal total %")) in
  let imc := imc_number (str_get (m !! "Índice de masa corporal (IMC)")) in
  let musc := musc_number (str_get (m !! "Músculo corporal total %")) in
  let agua := agua_number (str_get (m !! "Agua corporal total %")) in
  let visceral := visceral_number (str_get (m !! "Índice de grasa visceral")) in
  Some (MkSection
    ("Medición " +:+ pretty (Z.of_nat i + 1) +:+ " - " +:+
       py_str (default (PStr "Archivo desconocido") (m !! "file")))
    m sx
    (bar_if grasa (grasa_ranges sx) grasa_labels
            "Análisis de grasa corporal [%]" "%"
     ++ bar_if imc imc_ranges imc_labels "Análisis de IMC [kg/m²]" ""
     ++ bar_if musc (musc_ranges sx) musc_labels
               "Análisis de masa muscular [%]" "%"
     ++ bar_if agua (agua_ranges sx) agua_labels
               "Análisis de agua corporal [%]" "%"
     ++ bar_if visceral visceral_ranges visceral_labels
               "Grasa visceral [nivel]" "")).

(** ** Comparison of the two latest measurements *)

(** The literal [0.1] *)
Definition threshold : spec_float := PyFloat.of_decimal false 1 (-1).

(** What [_plot_comparison_chart] puts on its chart: both values, the
    difference, its caption, and whether the difference is annotated
    ([abs(diff) > 0.1]). *)
Record chart : Type := Chart {
  chart_val1 : spec_float;
  chart_val2 : spec_float;
  chart_diff : spec_float;
  chart_diff_text : string;
  chart_significant : bool
}.

(** The drawing and document libraries lie outside this development.  The
    program depends on them in one way that matters here: a call may raise.
    [chart_drawn] tells whether the matplotlib calls of one
    [_plot_comparison_chart] call, from [plt.subplots] to [plt.savefig], all
    return; [report_built] tells whether every library call that
    [generate_pdf_report] makes outside a [try], on a parser state, returns:
    the paragraphs and tables, the bar and radar drawings, [doc.build]. *)
Record libraries : Type := Libraries {
  chart_drawn : measurement → measurement → string → string → bool;
  report_built : TanitaParser → bool
}.

(** [_plot_comparison_chart].  [None] is one of the three [return None]:
    a value is missing, a value does not read as a number, or a drawing
    call raised and the outer [except] caught it. *)
Definition _plot_comparison_chart (plt : libraries)
    (measurement1 measurement2 : measurement)
    (field_name units : string) : option chart :=
  match measurement1 !! field_name, measurement2 !! field_name with
  | Some value1, Some value2 =>
      match chart_number (py_str value1), chart_number (py_str value2) with
      | Some val1, Some val2 =>
          if chart_drawn plt measurement1 measurement2 field_name units then
            let diff := PyFloat.sub val2 val1 in
            Some (Chart val1 val2 diff
                    ("Diferencia: " +:+ PyFloat.format_plus_1f diff +:+ units)
                    (PyFloat.ltb threshold (PyFloat.abs diff)))
          else None
      | _, _ => None
      end
  | _, _ => None
  end.

(** The last cell of a comparison-table row. *)
Inductive diff_cell : Type :=
  | NA
  | Diff (diff : spec_float) (diff_str : string) (diff_color : string).

Definition comparison_fields : list (string * string) :=
  [ ("Masa corporal (kg)", "kg");
    ("Índice de masa corporal (IMC)", "");
    ("Grasa corporal total %", "%");
    ("Músculo corporal total %", "%");
    ("Agua corporal total %", "%");
    ("Índice de grasa visceral", "");
    ("Edad metabólica estimada", "años");
    ("Ingesta calórica diaria (ICD)", "kcal") ].

(** The body of [for field, unit in comparison_fields]. *)
Definition comparison_cell (prev_measurement last_measurement : measurement)
    (field unit : string) : diff_cell :=
  match prev_measurement !! field, last_measurement !! field with
  | Some val1, Some val2 =>
      match table_number (py_str val1), table_number (py_str val2) with
      | Some num1, Some num2 =>
          let diff := PyFloat.sub num2 num1 in
          let diff_str := PyFloat.format_plus_1f diff +:+ unit in
          let diff_color :=
            if PyFloat.ltb (PyFloat.abs diff) threshold then "gray"
            else if PyFloat.ltb (num 0) diff then "red"
            else "green" in
          Diff diff diff_str diff_color
      | _, _ => NA
      end
  | _, _ => NA
  end.

Definition shown (o : option pyval) : string :=
  match o with
  | Some v => py_str v
  | None => "N/A"
  end.

Definition comparison_row (prev_measurement last_measurement : measurement)
    (fu : string * string) : string * string * string * diff_cell :=
  (fu.1, shown (prev_measurement !! fu.1), shown (last_measurement !! fu.1),
   comparison_cell prev_measurement last_measurement fu.1 fu.2).

Record comparison : Type := MkComparison {
  cmp_last : measurement;
  cmp_prev : measurement;
  cmp_table : list (string * string * string * diff_cell);
  cmp_weight : option chart;
  cmp_imc : option chart
}.

Record report : Type := Report {
  rep_sections : list section;
  rep_comparison : option comparison
}.

(** [generate_pdf_report]: the per-measurement blocks, then the comparison
    of [sorted_measurements[-1]] with [sorted_measurements[-2]] when there
    are two.  [None] is the exception of the sex lookup, which escapes the
    method; the report is what the method hands to the libraries, whose own
    exceptions are accounted for in [main]. *)
Definition generate_pdf_report (plt : libraries) (self : TanitaParser)
  : option report :=
  sections ← mapM (λ '(i, m), measurement_section i m)
                  (imap pair (measurements self));
  let sorted_measurements := _get_sorted_measurements self in
  Some (Report sections
    match reverse sorted_measurements with
    | last_measurement :: prev_measurement :: _ =>
        Some (MkComparison last_measurement prev_measurement
                (comparison_row prev_measurement last_measurement
                   <$> comparison_fields)
                (_plot_comparison_chart plt prev_measurement last_measurement
                   "Masa corporal (kg)" " kg")
                (_plot_comparison_chart plt prev_measurement last_measurement
                   "Índice de masa corporal (IMC)" " kg/m²"))
    | _ => None
    end).

(** ** The specification's reading of two components *)

(** The Numeric Normalizer as the specification words it: strip one
    trailing percent sign if present, turn commas into dots, parse. *)
Fixpoint strip_trailing_percent (s : string) : string :=
  match s with
  | EmptyString => EmptyString
  | String c EmptyString => if Ascii.eqb c "%" then EmptyString else s
  | String c s' => String c (strip_trailing_percent s')
  end.

Definition to_number_spec (raw : string) : option spec_float :=
  PyFloat.of_string (PyStr.replace "," "." (strip_trailing_percent raw)).

Inductive MetricKind : Type :=
  | body_fat | bmi | muscle | body_water | visceral_fat.

Definition metric_ranges (metric : MetricKind) (sx : sexo)
  : list (spec_float * spec_float) :=
  match metric with
  | body_fat => grasa_ranges sx
  | bmi => imc_ranges
  | muscle => musc_ranges sx
  | body_water => agua_ranges sx
  | visceral_fat => visceral_ranges
  end.

Definition metric_labels (metric : MetricKind) : list string :=
  match metric with
  | body_fat => grasa_labels
  | bmi => imc_labels
  | muscle => musc_labels
  | body_water => agua_labels
  | visceral_fat => visceral_labels
  end.

(** Modelled from the spec: the bucket lookup of the Range Classifier.  The
    source builds the range and label tables above and draws them, but has
    no routine that picks a bucket.  Following section 4.5, a value belongs
    to the first bucket with [lo <= value < hi], and a value outside every
    bucket is clamped to the nearest edge bucket. *)
Fixpoint find_bucket (value : spec_float)
    (ranges : list (spec_float * spec_float)) (i : nat) : option nat :=
  match ranges with
  | [] => None
  | (lo, hi) :: rest =>
      if PyFloat.leb lo value && PyFloat.ltb value hi then Some i
      else find_bucket value rest (S i)
  end.

(** Modelled from the spec: [classify(value, metric, sex)] of section 4.5,
    which the source does not contain; it returns the bucket label and the
    bucket index, over the source's own tables. *)
Definition classify (value : spec_float) (metric : MetricKind) (sx : sexo)
  : option (string * nat) :=
  let ranges := metric_ranges metric sx in
  let i :=
    match find_bucket value ranges 0 with
    | Some i => i
    | None =>
        match ranges with
        | (lo, _) :: _ =>
            if PyFloat.ltb value lo then 0%nat else (length ranges - 1)%nat
        | [] => 0%nat
        end
    end in
  (λ label, (label, i)) <$> metric_labels metric !! i.

(** ** The field table of a measurement block *)

Definition important_fields : list string :=
  [ "Fecha de Medición"; "Hora de Medición"; "Género"; "Edad"; "Altura (cm)";
    "Peso (kg)"; "Índice de Masa Corporal (IMC)"; "Grasa Corporal Total (%)";
    "Masa Muscular Total (%)"; "Agua Corporal Total (%)";
    "Masa Ósea Estimada (kg)"; "Nivel de Grasa Visceral";
    "Edad Metabólica Estimada"; "Ingesta Calórica Diaria (ICD)" ].

Definition fat_fields : list string :=
  [ "Grasa del brazo (derecho) %"; "Grasa del brazo (izquierdo) %";
    "Grasa de la pierna (derecha) %"; "Grasa de la pierna (izquierda) %";
    "Grasa del torso %" ].

Definition muscle_fields : list string :=
  [ "Músculo del brazo (derecho) %"; "Músculo del brazo (izquierdo) %";
    "Músculo de la pierna (derecha) %"; "Músculo de la pierna (izquierda) %";
    "Músculo del torso %" ].

(** The body of [for field in important_fields], with the display
    translation of the sex code. *)
Definition important_row (m : measurement) (field : string)
  : option (string * string) :=
  v ← m !! field;
  let value := py_str v in
  Some (field,
        if bool_decide (field = "Género") then
          if bool_decide (value = "1") then "Hombre"
          else if bool_decide (value = "2") then "Mujer"
          else value
        else value).

(** The body of [for field in fat_fields] and [for field in muscle_fields]. *)
Definition plain_row (m : measurement) (field : string)
  : option (string * string) :=
  (λ v, (field, py_str v)) <$> m !! field.

(** The condition of the last loop, [for key, value in measurement.items()]. *)
Definition other_field_shown (key : string) : bool :=
  negb (bool_decide (key ∈ important_fields))
  && negb (bool_decide (key ∈ fat_fields))
  && negb (bool_decide (key ∈ muscle_fields))
  && negb (PyStr.startswith "file" key)
  && negb (PyStr.startswith "row" key)
  && negb (PyStr.startswith "raw_data" key)
  && negb (PyStr.startswith "Unknown_" key)
  && negb (PyStr.startswith "Desconocido:" key)
  && bool_decide (key ∈ (map_to_list TANITA_MAPPINGS).*2).

(** [table_data]: the header and the rows of the three fixed lists, in
    order, and the rows of the last loop.  That loop follows the insertion
    order of the dictionary, which the map does not record: its rows are
    given as a map from field to shown text. *)
Record measurement_table : Type := MkTable {
  listed_rows : list (string * string);
  other_rows : gmap string string
}.

Definition table_data (m : measurement) : measurement_table :=
  MkTable
    (("Campo", "Valor")
       :: omap (important_row m) important_fields
       ++ omap (plain_row m) fat_fields
       ++ omap (plain_row m) muscle_fields)
    (py_str <$> filter (λ kv, other_field_shown kv.1 = true) m).

(** ** The drawings *)

Definition metric_colors (metric : MetricKind) : list string :=
  match metric with
  | body_fat | bmi => ["#b3c6ff"; "#b6fcb6"; "#ffe066"; "#ff9999"]
  | muscle => ["#ff9999"; "#ffe066"; "#b6fcb6"; "#b3c6ff"]
  | body_water => ["#ffe066"; "#b6fcb6"; "#b3c6ff"]
  | visceral_fat => ["#b6fcb6"; "#ffe066"; "#ff9999"]
  end.

(** One coloured rectangle of a bar: where it starts, how wide it is, its
    colour and the label above it. *)
Record rectangle : Type := Rectangle {
  rect_left : spec_float;
  rect_width : spec_float;
  rect_color : string;
  rect_label : string
}.

Record bar_drawing : Type := BarDrawing {
  draw_rectangles : list rectangle;
  draw_marker : spec_float;
  draw_xlim : spec_float * spec_float
}.

(** [_plot_colored_bar]: one rectangle per element of
    [zip(ranges, bar_colors)], labelled [labels[i]], the marker at [value]
    and the axis from [ranges[0][0]] to [ranges[-1][1]].  [None] is the
    [IndexError] of a missing label or of an empty [ranges]. *)
Definition _plot_colored_bar (value : spec_float)
    (ranges : list (spec_float * spec_float)) (bar_colors labels : list string)
  : option bar_drawing :=
  rectangles ←
    mapM (λ '(i, (r, c)),
            label ← labels !! i;
            Some (Rectangle r.1 (PyFloat.sub r.2 r.1) c label))
         (imap pair (zip ranges bar_colors));
  first ← head ranges;
  final ← last ranges;
  Some (BarDrawing rectangles value (first.1, final.2)).

Definition fat_keys : list string :=
  [ "Grasa del torso %"; "Grasa del brazo (derecho) %";
    "Grasa del brazo (izquierdo) %"; "Grasa de la pierna (derecha) %";
    "Grasa de la pierna (izquierda) %" ].

Definition muscle_keys : list string :=
  [ "Músculo del torso %"; "Músculo del brazo (derecho) %";
    "Músculo del brazo (izquierdo) %"; "Músculo de la pierna (derecha) %";
    "Músculo de la pierna (izquierda) %" ].

Definition segment_labels : list string :=
  [ "Tronco"; "Brazo derecho"; "Brazo izquierdo"; "Pierna derecha";
    "Pierna izquierda" ].

(** The number [0] that stands in for a missing or unreadable value. *)
Definition zero : spec_float := S754_zero false.

(** One entry of [fat_values] or [muscle_values]:
    [float(...) if v is not None else 0], and [0] when [float] raises. *)
Definition segment_value (o : option pyval) : spec_float :=
  match o with
  | None => zero
  | Some v =>
      match PyFloat.of_string
              (PyStr.replace "," "." (PyStr.replace "%" "" (py_str v))) with
      | Some x => x
      | None => zero
      end
  end.

(** [_plot_radar]: [values += values[:1]] closes the polygon; the second
    component is the number of angles, [N] from [linspace] and one more from
    [angles += angles[:1]]. *)
Definition _plot_radar (values : list spec_float) (labels : list string)
  : list spec_float * nat :=
  (values ++ take 1 values, (length labels + Nat.min 1 (length labels))%nat).

(** The radar of a measurement block: drawn [if any(values)]. *)
Definition segment_radar (m : measurement) (keys labels : list string)
  : option (list spec_float * nat) :=
  let values := (λ k, segment_value (m !! k)) <$> keys in
  if existsb PyFloat.truthy values then Some (_plot_radar values labels)
  else None.

(** One turn of the loop of [_plot_radar_comparison]: both values are read
    in one [try], so a value that does not parse zeroes both. *)
Definition radar_comparison_pair (v1 v2 : option pyval)
  : spec_float * spec_float :=
  let read (o : option pyval) : option spec_float :=
    match o with
    | None => Some zero
    | Some v =>
        PyFloat.of_string
          (PyStr.replace "," "." (PyStr.replace "%" "" (py_str v)))
    end in
  match read v1, read v2 with
  | Some val1, Some val2 => (val1, val2)
  | _, _ => (zero, zero)
  end.

(** [_plot_radar_comparison] up to the drawing: the two closed polygons, or
    [None] when no value of either measurement is non-zero. *)
Definition _plot_radar_comparison (measurement1 measurement2 : measurement)
    (keys : list string) : option (list spec_float * list spec_float) :=
  let pairs :=
    (λ k, radar_comparison_pair (measurement1 !! k) (measurement2 !! k))
      <$> keys in
  let values1 := pairs.*1 in
  let values2 := pairs.*2 in
  if negb (existsb PyFloat.truthy values1) && negb (existsb PyFloat.truthy values2)
  then None
  else Some (values1 ++ take 1 values1, values2 ++ take 1 values2).

(** One value of the stacked composition chart:
    [float(str(m.get(key, "0")).replace("%", "").replace(",", "."))]. *)
Definition composition_value (m : measurement) (key : string)
  : option spec_float :=
  PyFloat.of_string
    (PyStr.replace "," "."
       (PyStr.replace "%" "" (py_str (default (PStr "0") (m !! key))))).

(** The values of one stacked bar: fat, muscle, water and their total. *)
Record stacked_bar : Type := StackedBar {
  stack_fat : spec_float;
  stack_muscle : spec_float;
  stack_water : spec_float;
  stack_total : spec_float
}.

Definition composition_bar (m : measurement) : option stacked_bar :=
  f ← composition_value m "Grasa corporal total %";
  mu ← composition_value m "Músculo corporal total %";
  w ← composition_value m "Agua corporal total %";
  Some (StackedBar f mu w (PyFloat.add (PyFloat.add f mu) w)).

(** The stacked composition chart: all six values are read in one [try],
    so the chart is left out ([None]) when any of them does not parse. *)
Definition composition_chart (prev_measurement last_measurement : measurement)
  : option (stacked_bar * stacked_bar) :=
  b1 ← composition_bar prev_measurement;
  b2 ← composition_bar last_measurement;
  Some (b1, b2).

(** ** [main], for the files named on the command line *)

(** The test on each path of [args.files]. *)
Definition route (file_path : string) : file_type :=
  if PyStr.isin "DATA" (PyStr.upper file_path) then measurement_file
  else if PyStr.isin "PROF" (PyStr.upper file_path) then profile_file_type
  else other_type.

(** The loop over [args.files]; each file comes with what the file system
    holds for its path. *)
Definition parse_files (self : TanitaParser)
    (files : list (string * option (list (list string)))) : TanitaParser :=
  foldl (λ st '(file_path, contents),
           match route file_path with
           | other_type => st
           | ft => parse_csv_file st file_path contents ft
           end)
        self files.

Inductive outcome : Type :=
  | NoMeasurements                 (* the message of the [else] branch *)
  | Raised                         (* an exception left [generate_pdf_report] *)
  | Generated (r : report).

(** [main] when only [--files] is given.  Nothing catches an exception
    that leaves [generate_pdf_report], be it the one of the sex lookup or
    one raised by a library call. *)
Definition main (plt : libraries)
    (files : list (string * option (list (list string)))) : outcome :=
  let tanita_parser := parse_files init files in
  match measurements tanita_parser with
  | [] => NoMeasurements
  | _ :: _ =>
      match generate_pdf_report plt tanita_parser with
      | Some r => if report_built plt tanita_parser then Generated r else Raised
      | None => Raised
      end
  end.

(** ** Notions used to state the properties *)

(** [row[i]] for an index inside the row. *)
Definition token (row : list string) (i : nat) : string := default "" (row !! i).

(** The key and the value of the pair that starts at index [i] of a row. *)
Definition key_at (row : list string) (i : nat) : string :=
  field_key (PyStr.strip (token row i)).

Definition value_at (row : list string) (i : nat) : string :=
  PyStr.strip (token row (i + 1)).

(** What a measurement file adds for one numbered row. *)
Definition decoded_row (file_path : string) (numbered : nat * list string)
  : option measurement :=
  if bool_decide (2 ≤ length numbered.2)%nat
  then Some (decode_row numbered.2 file_path numbered.1)
  else None.

(** The measurements a file adds: one per row of two tokens or more, in
    file order, numbered by the position of the row in the file. *)
Definition decoded_rows (file_path : string) (rows : list (list string))
  : list measurement :=
  omap (decoded_row file_path) (imap pair rows).

(** The key under which [_parse_profile_row] files row [i] of a file. *)
Definition profile_key (file_path : string) (i : nat) : string :=
  PyStr.basename file_path +:+ "_row_" +:+ pretty (Z.of_nat i).

(** The measurements one file of the command line contributes. *)
Definition file_measurements (file : string * option (list (list string)))
  : list measurement :=
  match route file.1, file.2 with
  | measurement_file, Some rows => decoded_rows file.1 rows
  | _, _ => []
  end.

(** The [ranges], [bar_colors] and [labels] of the five [_plot_colored_bar]
    calls of a block, for a sex category. *)
Definition bar_tables (sx : sexo)
  : list (list (spec_float * spec_float) * list string * list string) :=
  [ (grasa_ranges sx, metric_colors body_fat, grasa_labels);
    (imc_ranges, metric_colors bmi, imc_labels);
    (musc_ranges sx, metric_colors muscle, musc_labels);
    (agua_ranges sx, metric_colors body_water, agua_labels);
    (visceral_ranges, metric_colors visceral_fat, visceral_labels) ].

(** The three fields of the stacked composition chart. *)
Definition composition_keys : list string :=
  [ "Grasa corporal total %"; "Músculo corporal total %";
    "Agua corporal total %" ].

(** A stored value, when there is one, reads as a number once percent signs
    are dropped and commas turned into dots. *)
Definition readable (o : option pyval) : Prop :=
  ∀ v, o = Some v → is_Some (table_number (py_str v)).

(** Where a rectangle ends: its left edge plus its width. *)
Definition rect_right (r : rectangle) : spec_float :=
  PyFloat.add (rect_left r) (rect_width r).

(** Each rectangle starts where the one before it ends. *)
Fixpoint contiguous (rs : list rectangle) : Prop :=
  match rs with
  | r :: rest =>
      match rest with
      | r' :: _ => rect_right r = rect_left r' ∧ contiguous rest
      | [] => True
      end
  | [] => True
  end.

(** The rectangles of a drawing cover its axis from end to end, with no gap
    and no overlap. *)
Definition fills_axis (d : bar_drawing) : Prop :=
  contiguous (draw_rectangles d)
  ∧ rect_left <$> head (draw_rectangles d) = Some (draw_xlim d).1
  ∧ rect_right <$> last (draw_rectangles d) = Some (draw_xlim d).2.

(** How many rows of a block's table have [key] in their first column. *)
Definition rows_for (key : string) (t : measurement_table) : nat :=
  (length (filter (λ r, r.1 = key) (listed_rows t))
   + if other_rows t !! key is Some _ then 1 else 0)%nat.

(** The table has the row [key], [text]. *)
Definition shows (t : measurement_table) (key text : string) : Prop :=
  (key, text) ∈ listed_rows t ∨ other_rows t !! key = Some text.

(** A field name of the code table other than its placeholders for codes
    of unknown meaning. *)
Definition recognised (key : string) : bool :=
  bool_decide (key ∈ (TANITA_MAPPINGS_items.*2))
  && negb (PyStr.startswith "Desconocido:" key).

(** How many times the three fixed lists of the table name a field. *)
Definition listed_count (key : string) : nat :=
  length (filter (λ f, f = key) (important_fields ++ fat_fields ++ muscle_fields)).

(** The text shown for a value: the sex codes 1 and 2 are written out. *)
Definition shown_text (field : string) (v : pyval) : string :=
  if bool_decide (field = "Género") then
    if bool_decide (py_str v = "1") then "Hombre"
    else if bool_decide (py_str v = "2") then "Mujer"
    else py_str v
  else py_str v.

(** The field each bar of a block reads, with the title of the bar. *)
Definition bar_fields : list (string * string) :=
  [ ("Grasa corporal total %", "Análisis de grasa corporal [%]");
    ("Índice de masa corporal (IMC)", "Análisis de IMC [kg/m²]");
    ("Músculo corporal total %", "Análisis de masa muscular [%]");
    ("Agua corporal total %", "Análisis de agua corporal [%]");
    ("Índice de grasa visceral", "Grasa visceral [nivel]") ].

(** The text holds a percent sign. *)
Abbreviation has_percent := (PyStr.contains "%").

(** The three provenance keys of a measurement. *)
Definition provenance_keys : list string := ["file"; "row"; "raw_data"].

(** Every entry other than the provenance entries holds text. *)
Definition fields_are_text (m : measurement) : Prop :=
  ∀ k v, m !! k = Some v → k ∈ provenance_keys ∨ ∃ s, v = PStr s.

(** [a] does not come after [b] in time. *)
Definition not_after (a b : measurement) : Prop :=
  PyDatetime.ltb (parse_datetime b) (parse_datetime a) = false.

(** Both measurements have the sort key [k]. *)
Definition has_key (k : PyDatetime.datetime) (m : measurement) : Prop :=
  parse_datetime m = k.

Global Instance has_key_dec k m : Decision (has_key k m).
Proof. unfold has_key. apply _. Defined.

(** ** Sample inputs *)

(** A row with a repeated code, an unknown code and a trailing token. *)
Definition sample_row : list string :=
  ["Wk"; "83,5"; " zz"; "1 "; "Wk"; "84,0"; "tail"].

(** Two one-row measurement files a week apart, the later one discovered
    first. *)
Definition later_file : list (list string) :=
  [ ["DT"; "08/01/2024"; "Ti"; "10:00:00"; "GE"; "1"; "FW"; "19"; "MI"; "25,2"] ].
Definition earlier_file : list (list string) :=
  [ ["DT"; "01/01/2024"; "Ti"; "10:00:00"; "GE"; "1"; "FW"; "18"; "MI"; "24.0"] ].

(** The decoded readings of those two files. *)
Definition earlier_reading : measurement :=
  decode_row
    ["DT"; "01/01/2024"; "Ti"; "10:00:00"; "GE"; "1"; "FW"; "18"; "MI"; "24.0"]
    "data/DATA1.CSV" 0.
Definition later_reading : measurement :=
  decode_row
    ["DT"; "08/01/2024"; "Ti"; "10:00:00"; "GE"; "1"; "FW"; "19"; "MI"; "25,2"]
    "data/DATA2.CSV" 0.

Definition later_first : TanitaParser :=
  parse_csv_file
    (parse_csv_file init "data/DATA2.CSV" (Some later_file) measurement_file)
    "data/DATA1.CSV" (Some earlier_file) measurement_file.

(** Libraries none of whose calls raises, and libraries whose comparison
    chart always fails to draw. *)
Definition all_calls_return : libraries :=
  Libraries (λ _ _ _ _, true) (λ _, true).

(** Libraries in which some call of the report raises. *)
Definition report_not_built : libraries :=
  Libraries (λ _ _ _ _, true) (λ _, false).

(** * Properties *)

(** ** The code table never produces a provenance key *)

Lemma TANITA_MAPPINGS_value (h name : string) :
  TANITA_MAPPINGS !! h = Some name → name ∈ (TANITA_MAPPINGS_items.*2).
Proof.
  intros H. apply elem_of_list_to_map_2 in H.
  apply list_elem_of_fmap. by exists (h, name).
Qed.

Lemma table_names_not_provenance :
  Forall (λ name, (name ∉ provenance_keys) ∧ (PyStr.startswith "Unknown_" name = false))
         (TANITA_MAPPINGS_items.*2).
Proof. refine (bool_decide_unpack _ _). vm_compute. exact I. Qed.

Lemma unknown_key_head (h : string) :
  "Unknown_" +:+ h = String "U" ("nknown_" +:+ h).
Proof. reflexivity. Qed.

Lemma field_key_cases (h : string) :
  (field_key h ∈ (TANITA_MAPPINGS_items.*2)
   ∧ TANITA_MAPPINGS !! h = Some (field_key h))
  ∨ (field_key h = "Unknown_" +:+ h ∧ TANITA_MAPPINGS !! h = None).
Proof.
  unfold field_key. destruct (TANITA_MAPPINGS !! h) as [name|] eqn:E.
  - left. split; [by eapply TANITA_MAPPINGS_value | done].
  - by right.
Qed.

Lemma field_key_not_provenance (h : string) : field_key h ∉ provenance_keys.
Proof.
  destruct (field_key_cases h) as [[Hin _]|[-> _]].
  - pose proof table_names_not_provenance as HF.
    rewrite Forall_forall in HF. by destruct (HF _ Hin).
  - rewrite unknown_key_head. unfold provenance_keys.
    rewrite !elem_of_cons, elem_of_nil. intros [?|[?|[?|[]]]]; discriminate.
Qed.

Lemma field_key_neq (h k : string) : k ∈ provenance_keys → field_key h ≠ k.
Proof. intros Hk E. apply (field_key_not_provenance h). by rewrite E. Qed.

(** ** The decoding loop *)

Lemma range_by_2_length (n : nat) :
  range_by_2 (Z.of_nat n - 1) = (λ k, 2 * k)%nat <$> seq 0 (n / 2).
Proof.
  unfold range_by_2. do 2 f_equal.
  replace (Z.of_nat n - 1 + 1) with (Z.of_nat n) by lia.
  change 2 with (Z.of_nat 2). rewrite <- Nat2Z.inj_div. apply Nat2Z.id.
Qed.

Lemma pair_index_bound (n q : nat) : (2 * q + 1 < n)%nat ↔ (q < n / 2)%nat.
Proof.
  pose proof (Nat.div_mod_eq n 2) as Hn.
  pose proof (Nat.mod_upper_bound n 2) as Hm. lia.
Qed.

Lemma decode_pair_insert (row : list string) (m : measurement) (i : nat) :
  (i + 1 < length row)%nat →
  decode_pair row m i = <[key_at row i := PStr (value_at row i)]> m.
Proof.
  intros Hi. unfold decode_pair, key_at, value_at, token.
  by rewrite bool_decide_eq_true_2.
Qed.

Lemma decode_pair_key (row : list string) (m : measurement) (i : nat) :
  ∃ v, decode_pair row m i = <[key_at row i := PStr v]> m.
Proof. unfold decode_pair. eauto. Qed.

Lemma decode_fold_other (row : list string) (idx : list nat) (m : measurement)
    (k : string) :
  Forall (λ i, key_at row i ≠ k) idx →
  foldl (decode_pair row) m idx !! k = m !! k.
Proof.
  revert m. induction idx as [|i idx IH]; intros m Hne; [done|].
  apply Forall_cons in Hne as [Hi Hidx]. cbn [foldl]. rewrite IH by done.
  destruct (decode_pair_key row m i) as [v ->]. by rewrite lookup_insert_ne.
Qed.

Lemma decode_fold_is_Some (row : list string) (idx : list nat) (m : measurement)
    (k : string) :
  is_Some (m !! k) → is_Some (foldl (decode_pair row) m idx !! k).
Proof.
  revert m. induction idx as [|i idx IH]; intros m Hm; [done|].
  cbn [foldl]. apply IH. destruct (decode_pair_key row m i) as [v ->].
  rewrite lookup_insert. case_decide; [by eexists | done].
Qed.

Lemma decode_fold_stores (row : list string) (idx : list nat) (m : measurement)
    (i : nat) :
  i ∈ idx → is_Some (foldl (decode_pair row) m idx !! key_at row i).
Proof.
  revert m. induction idx as [|j idx IH]; intros m Hi.
  - by apply elem_of_nil in Hi.
  - cbn [foldl]. apply elem_of_cons in Hi as [->|Hi]; [|by apply IH].
    apply decode_fold_is_Some. destruct (decode_pair_key row m j) as [v ->].
    rewrite lookup_insert_eq. by eexists.
Qed.

Lemma decode_fold_delete (row : list string) (idx : list nat) (m : measurement)
    (k : string) :
  k ∈ provenance_keys →
  delete k (foldl (decode_pair row) m idx) = foldl (decode_pair row) (delete k m) idx.
Proof.
  intros Hk. revert m. induction idx as [|i idx IH]; intros m; [done|].
  cbn [foldl]. rewrite IH. f_equal.
  unfold decode_pair. apply delete_insert_ne.
  intros E. by eapply field_key_neq.
Qed.

Lemma decode_fold_ext (row row' : list string) (idx : list nat) (m : measurement) :
  Forall (λ i, ∀ m', decode_pair row m' i = decode_pair row' m' i) idx →
  foldl (decode_pair row) m idx = foldl (decode_pair row') m idx.
Proof.
  revert m. induction idx as [|i idx IH]; intros m H; [done|].
  apply Forall_cons in H as [Hi Hidx]. cbn [foldl]. rewrite Hi. by apply IH.
Qed.

Lemma decode_row_provenance (row : list string) (file_path : string)
    (row_num : nat) (k : string) :
  k ∈ provenance_keys →
  decode_row row file_path row_num !! k =
    (<["raw_data" := PList row]>
       (<["row" := PInt (Z.of_nat row_num + 1)]>
          (<["file" := PStr (PyStr.basename file_path)]> (∅ : measurement)))) !! k.
Proof.
  intros Hk. unfold decode_row. apply decode_fold_other.
  apply Forall_forall. intros i _. by apply field_key_neq.
Qed.

Lemma elem_of_range_by_2 (n i : nat) :
  i ∈ range_by_2 (Z.of_nat n - 1) ↔ ∃ q, i = (2 * q)%nat ∧ (2 * q + 1 < n)%nat.
Proof.
  rewrite range_by_2_length, list_elem_of_fmap.
  split; intros (q & -> & Hq); exists q; split; try done.
  - apply elem_of_seq in Hq. apply pair_index_bound. lia.
  - apply elem_of_seq. apply pair_index_bound in Hq. lia.
Qed.

Lemma range_by_2_split (n q : nat) :
  (2 * q + 1 < n)%nat →
  range_by_2 (Z.of_nat n - 1) =
    ((λ k, 2 * k)%nat <$> seq 0 q) ++ (2 * q)%nat ::
      ((λ k, 2 * k)%nat <$> seq (S q) (n / 2 - S q)).
Proof.
  intros Hq. apply pair_index_bound in Hq. rewrite range_by_2_length.
  replace (n / 2)%nat with (q + S (n / 2 - S q))%nat at 1 by lia.
  by rewrite seq_app, fmap_app.
Qed.

Lemma decode_pair_app (row : list string) (t : string) (m : measurement)
    (i : nat) :
  (i + 1 < length row)%nat →
  decode_pair (row ++ [t]) m i = decode_pair row m i.
Proof.
  intros Hi. unfold decode_pair.
  rewrite !lookup_app_l by lia.
  rewrite !bool_decide_eq_true_2; [done|lia|rewrite length_app; lia].
Qed.

(** The last pair filed under a key decides the value stored there. *)
Lemma decode_row_last (row : list string) (file_path : string) (row_num q : nat) :
  (2 * q + 1 < length row)%nat →
  (∀ r, (q < r)%nat → (2 * r + 1 < length row)%nat →
        key_at row (2 * r) ≠ key_at row (2 * q)) →
  decode_row row file_path row_num !! key_at row (2 * q)
    = Some (PStr (value_at row (2 * q))).
Proof.
  intros Hq Hlast. unfold decode_row.
  rewrite (range_by_2_split _ q) by done.
  rewrite foldl_app. cbn [foldl].
  rewrite decode_fold_other.
  - rewrite decode_pair_insert by lia. apply lookup_insert_eq.
  - apply Forall_forall. intros i Hi.
    apply list_elem_of_fmap in Hi as (r & -> & Hr). apply elem_of_seq in Hr.
    apply Hlast; [lia|]. apply pair_index_bound. lia.
Qed.

(** C10: decoding never overwrites the provenance entries.  The measurement
    appended by [_parse_measurement_row] still holds the file basename under
    "file", the 1-based row number under "row" and the original tokens under
    "raw_data", because every pair is filed under a name of the code table or
    under a key that starts with "Unknown_", and no such key is one of the
    three provenance keys. *)
Theorem provenance_never_overwritten (self : TanitaParser) (row : list string)
    (file_path : string) (row_num : nat) :
  let m := decode_row row file_path row_num in
  measurements (_parse_measurement_row self row file_path row_num)
    = measurements self ++ [m]
  ∧ m !! "file" = Some (PStr (PyStr.basename file_path))
  ∧ m !! "row" = Some (PInt (Z.of_nat row_num + 1))
  ∧ m !! "raw_data" = Some (PList row)
  ∧ ∀ header,
      (field_key header ∈ (TANITA_MAPPINGS_items.*2)
       ∨ PyStr.startswith "Unknown_" (field_key header) = true)
      ∧ field_key header ∉ provenance_keys.
Proof.
  cbv zeta. split; [done|].
  rewrite !decode_row_provenance
    by (unfold provenance_keys; rewrite !elem_of_cons; auto).
  split; [by rewrite !lookup_insert_ne, lookup_insert_eq by discriminate|].
  split; [by rewrite lookup_insert_ne, lookup_insert_eq by discriminate|].
  split; [by rewrite lookup_insert_eq|].
  intros header. split.
  - destruct (field_key_cases header) as [[Hin _]|[-> _]]; [by left|right].
    by destruct header.
  - apply field_key_not_provenance.
Qed.

(** C6: decoding retains every code/value pair.  In a row, the code of every
    pair (the token at an even index that has a value after it, with the
    surrounding white space trimmed as the decoder does) is a key of the
    decoded measurement: the mapped name when the code is in the code table,
    "Unknown_" followed by the code otherwise.  A row of fewer than two
    tokens is skipped, a row of two or more is decoded, and a trailing
    unpaired token changes nothing but the retained raw row. *)
Theorem decoding_retains_every_pair :
  (∀ (row : list string) (file_path : string) (row_num q : nat),
     (2 * q + 1 < length row)%nat →
     let code := PyStr.strip (token row (2 * q)) in
     is_Some (decode_row row file_path row_num !! field_key code)
     ∧ (∀ name, TANITA_MAPPINGS !! code = Some name → field_key code = name)
     ∧ (TANITA_MAPPINGS !! code = None → field_key code = "Unknown_" +:+ code))
  ∧ (∀ (self : TanitaParser) (file_path : string) (ft : file_type)
       (row_num : nat) (row : list string),
       (length row < 2)%nat → parse_row file_path ft self (row_num, row) = self)
  ∧ (∀ (self : TanitaParser) (file_path : string) (row_num : nat)
       (row : list string),
       (2 ≤ length row)%nat →
       measurements (parse_row file_path measurement_file self (row_num, row))
         = measurements self ++ [decode_row row file_path row_num])
  ∧ (∀ (row : list string) (t file_path : string) (row_num : nat),
       Nat.Even (length row) →
       delete "raw_data" (decode_row (row ++ [t]) file_path row_num)
         = delete "raw_data" (decode_row row file_path row_num)).
Proof.
  repeat split.
  - unfold decode_row. apply (decode_fold_stores row _ _ (2 * q)).
    apply elem_of_range_by_2. eauto.
  - intros name Hn. unfold field_key. by rewrite Hn.
  - intros Hn. unfold field_key. by rewrite Hn.
  - intros self file_path ft row_num row Hlen. unfold parse_row.
    by rewrite bool_decide_eq_true_2.
  - intros self file_path row_num row Hlen. unfold parse_row.
    by rewrite bool_decide_eq_false_2 by lia.
  - intros row t file_path row_num [h Hh]. unfold decode_row.
    assert (Hprov : "raw_data" ∈ provenance_keys)
      by (unfold provenance_keys; rewrite !elem_of_cons; auto).
    rewrite !decode_fold_delete, !delete_insert_eq by done.
    rewrite !range_by_2_length, length_app. cbn [length].
    replace ((length row + 1) / 2)%nat with (length row / 2)%nat.
    + apply decode_fold_ext, Forall_forall. intros i Hi m'.
      apply list_elem_of_fmap in Hi as (r & -> & Hr). apply elem_of_seq in Hr.
      apply decode_pair_app.
      assert (2 * r + 1 < length row)%nat by (apply pair_index_bound; lia). lia.
    + rewrite Hh. replace (2 * h + 1)%nat with (1 + h * 2)%nat by lia.
      rewrite Nat.div_add by done. replace (2 * h)%nat with (h * 2)%nat by lia.
      by rewrite Nat.div_mul.
Qed.

Example sample_row_decoded :
  decode_row sample_row "dir/DATA1.CSV" 1 =
    list_to_map
      [ ("file", PStr "DATA1.CSV"); ("row", PInt 2);
        ("raw_data", PList sample_row);
        ("Masa corporal (kg)", PStr "84,0"); ("Unknown_zz", PStr "1") ].
Proof. vm_compute. reflexivity. Qed.

Lemma decoding_retains_every_pair_witness :
  is_Some (decode_row sample_row "dir/DATA1.CSV" 1
             !! field_key (PyStr.strip (token sample_row (2 * 1))))
  ∧ parse_row "dir/DATA1.CSV" measurement_file init (0%nat, ["Wk"]) = init
  ∧ delete "raw_data" (decode_row (["Wk"; "83,5"] ++ ["tail"]) "DATA1.CSV" 0)
      = delete "raw_data" (decode_row ["Wk"; "83,5"] "DATA1.CSV" 0).
Proof.
  destruct decoding_retains_every_pair as (Hkeys & Hskip & _ & Htail).
  split; [|split].
  - apply (Hkeys sample_row "dir/DATA1.CSV" 1%nat 1%nat). simpl. lia.
  - apply (Hskip init "dir/DATA1.CSV" measurement_file 0%nat ["Wk"]). simpl. lia.
  - apply (Htail ["Wk"; "83,5"] "tail" "DATA1.CSV" 0%nat). by exists 1%nat.
Defined.

(** C9: last write wins.  When two pairs of a row are filed under the same
    field name, the decoded measurement holds under that name the value of
    the later pair (the last pair filed under the name); decoding such a row
    does not fail, [decode_row] being total. *)
Theorem last_write_wins (row : list string) (file_path : string)
    (row_num p q : nat) :
  (p < q)%nat →
  (2 * q + 1 < length row)%nat →
  key_at row (2 * p) = key_at row (2 * q) →
  (∀ r, (q < r)%nat → (2 * r + 1 < length row)%nat →
        key_at row (2 * r) ≠ key_at row (2 * q)) →
  decode_row row file_path row_num !! key_at row (2 * p)
    = Some (PStr (value_at row (2 * q))).
Proof.
  intros _ Hq -> Hlast. by apply decode_row_last.
Qed.

Lemma last_write_wins_witness :
  decode_row sample_row "dir/DATA1.CSV" 1 !! key_at sample_row (2 * 0)
    = Some (PStr (value_at sample_row (2 * 2))).
Proof.
  apply (last_write_wins sample_row "dir/DATA1.CSV" 1%nat 0%nat 2%nat).
  - lia.
  - simpl. lia.
  - by vm_compute.
  - intros r Hr Hlen. simpl in Hlen. lia.
Defined.

(** ** The stable sort *)

Section SortedFacts.
Context {A K : Type}.
Variable ltb : K → K → bool.
Variable key : A → K.

Hypothesis ltb_irrefl : ∀ x, ltb x x = false.
Hypothesis ltb_trans :
  ∀ x y z, ltb x y = true → ltb y z = true → ltb x z = true.
Hypothesis ltb_neg_trans :
  ∀ x y z, ltb x y = false → ltb y z = false → ltb x z = false.

(** [a] may stand before [b]: the key of [b] is not smaller. *)
Let before (a b : A) : Prop := ltb (key b) (key a) = false.

Lemma ltb_asym (x y : K) : ltb x y = true → ltb y x = false.
Proof.
  intros Hxy. destruct (ltb y x) eqn:Hyx; [|done].
  by rewrite <- (ltb_irrefl x), (ltb_trans x y x).
Qed.

Lemma insert_by_perm (x : A) (l : list A) : insert_by ltb key x l ≡ₚ x :: l.
Proof.
  induction l as [|y l IH]; cbn; [done|].
  destruct (ltb (key y) (key x)); [|done].
  by rewrite IH, Permutation_swap.
Qed.

Lemma sorted_perm (l : list A) : sorted ltb key l ≡ₚ l.
Proof.
  induction l as [|x l IH]; cbn; [done|].
  unfold sorted in IH. by rewrite insert_by_perm, IH.
Qed.

Lemma insert_by_sorted (x : A) (l : list A) :
  StronglySorted before l → StronglySorted before (insert_by ltb key x l).
Proof.
  induction 1 as [|y l Hl IH Hy]; cbn.
  - repeat constructor.
  - destruct (ltb (key y) (key x)) eqn:Hyx.
    + constructor; [done|].
      rewrite insert_by_perm. constructor; [|done].
      by apply ltb_asym.
    + constructor; [by constructor|].
      constructor; [done|].
      eapply Forall_impl; [exact Hy|]. intros z Hz.
      by apply (ltb_neg_trans _ (key y)).
Qed.

Lemma sorted_sorted (l : list A) : StronglySorted before (sorted ltb key l).
Proof.
  induction l as [|x l IH]; cbn; [constructor|]. by apply insert_by_sorted.
Qed.

(** Elements picked by [P] have keys that do not order one before another,
    so the sort leaves them in their original order. *)
Lemma insert_by_filter (P : A → Prop) `{!∀ a, Decision (P a)}
    (x : A) (l : list A) :
  (∀ a b, P a → P b → ltb (key a) (key b) = false) →
  filter P (insert_by ltb key x l) = filter P (x :: l).
Proof.
  intros HP. induction l as [|y l IH]; cbn; [done|].
  destruct (ltb (key y) (key x)) eqn:Hyx; [|done].
  rewrite (filter_cons _ y), IH, !filter_cons.
  destruct (decide (P y)) as [Hy|Hy], (decide (P x)) as [Hx|Hx]; try done.
  by rewrite (HP y x) in Hyx.
Qed.

Lemma sorted_stable (P : A → Prop) `{!∀ a, Decision (P a)} (l : list A) :
  (∀ a b, P a → P b → ltb (key a) (key b) = false) →
  filter P (sorted ltb key l) = filter P l.
Proof.
  intros HP. induction l as [|x l IH]; cbn; [done|].
  unfold sorted in IH. rewrite insert_by_filter, !filter_cons by done.
  by rewrite IH.
Qed.

Lemma sorted_fixed (l : list A) : StronglySorted before l → sorted ltb key l = l.
Proof.
  induction 1 as [|x l Hl IH Hx]; cbn; [done|].
  unfold sorted in IH. rewrite IH.
  destruct Hx as [|y l' Hy _]; cbn; [done|]. unfold before in Hy. by rewrite Hy.
Qed.

Lemma sorted_fixed_iff (l : list A) :
  sorted ltb key l = l ↔ StronglySorted before l.
Proof.
  split; [|apply sorted_fixed]. intros <-. apply sorted_sorted.
Qed.

(** Two ascending lists that hold, for every key, the same elements in the
    same order are equal: a stable sort has one possible output, so the
    insertion sort above stands for the sort of the Python runtime. *)
Context `{!EqDecision K}.
Hypothesis ltb_antisym :
  ∀ x y, ltb x y = false → ltb y x = false → x = y.

Lemma same_keys_elem_of (l1 l2 : list A) (x : A) :
  (∀ k, filter (λ a, key a = k) l1 = filter (λ a, key a = k) l2) →
  x ∈ l1 → x ∈ l2.
Proof.
  intros H Hx.
  assert (Hf : x ∈ filter (λ a, key a = key x) l1)
    by by apply list_elem_of_filter.
  rewrite H in Hf. by apply list_elem_of_filter in Hf as [_ ?].
Qed.

Lemma ascending_unique (l1 l2 : list A) :
  StronglySorted before l1 → StronglySorted before l2 →
  (∀ k, filter (λ a, key a = k) l1 = filter (λ a, key a = k) l2) →
  l1 = l2.
Proof.
  intros S1. revert l2.
  induction S1 as [|x l1 S1 IH Hx]; intros l2 S2 H.
  - destruct l2 as [|y l2]; [done|].
    specialize (H (key y)). by rewrite filter_cons_True in H.
  - destruct l2 as [|y l2].
    { specialize (H (key x)). by rewrite filter_cons_True in H. }
    apply StronglySorted_inv in S2 as [S2 Hy].
    assert (Hk : key x = key y).
    { assert (Hxy : x ∈ y :: l2)
        by (apply (same_keys_elem_of (x :: l1)); [done|left]).
      assert (Hyx : y ∈ x :: l1).
      { apply (same_keys_elem_of (y :: l2)); [|left].
        intros k. symmetry. apply H. }
      apply elem_of_cons in Hxy as [->|Hxy]; [done|].
      apply elem_of_cons in Hyx as [->|Hyx]; [done|].
      rewrite Forall_forall in Hx, Hy.
      apply ltb_antisym; [apply (Hy x Hxy)|apply (Hx y Hyx)]. }
    pose proof (H (key x)) as Hhead.
    rewrite filter_cons_True, (filter_cons_True _ y) in Hhead by done.
    injection Hhead as -> Htail. f_equal. apply IH; [done|].
    intros k. destruct (decide (key y = k)) as [<-|Hne]; [done|].
    specialize (H k). by rewrite !filter_cons_False in H.
Qed.

Lemma stable_sort_unique (l out : list A) :
  StronglySorted before out →
  (∀ k, filter (λ a, key a = k) out = filter (λ a, key a = k) l) →
  out = sorted ltb key l.
Proof.
  intros Hs Hk. apply ascending_unique; [done|apply sorted_sorted|].
  intros k. rewrite Hk. symmetry. apply sorted_stable.
  intros a b -> Hb. rewrite Hb. apply ltb_irrefl.
Qed.
End SortedFacts.

(** ** Order of datetimes *)

Lemma compare_tuple_refl (a : list Z) : PyDatetime.compare_tuple a a = Eq.
Proof. induction a as [|x a IH]; cbn; [done|]. by rewrite Z.compare_refl. Qed.

Lemma compare_tuple_lt_trans (a b c : list Z) :
  PyDatetime.compare_tuple a b = Lt → PyDatetime.compare_tuple b c = Lt →
  PyDatetime.compare_tuple a c = Lt.
Proof.
  revert b c. induction a as [|x a IH]; intros [|y b] [|z c]; cbn; try done.
  destruct (Z.compare_spec x y), (Z.compare_spec y z), (Z.compare_spec x z);
    subst; try done; try lia; eauto.
Qed.

Lemma compare_tuple_neg_trans (a b c : list Z) :
  PyDatetime.compare_tuple a b ≠ Lt → PyDatetime.compare_tuple b c ≠ Lt →
  PyDatetime.compare_tuple a c ≠ Lt.
Proof.
  revert b c. induction a as [|x a IH]; intros [|y b] [|z c]; cbn; try done.
  destruct (Z.compare_spec x y), (Z.compare_spec y z), (Z.compare_spec x z);
    subst; try done; try lia; eauto.
Qed.

Lemma datetime_ltb_false (a b : PyDatetime.datetime) :
  PyDatetime.ltb a b = false ↔ PyDatetime.compare a b ≠ Lt.
Proof. unfold PyDatetime.ltb. by destruct (PyDatetime.compare a b). Qed.

Lemma datetime_ltb_true (a b : PyDatetime.datetime) :
  PyDatetime.ltb a b = true ↔ PyDatetime.compare a b = Lt.
Proof. unfold PyDatetime.ltb. by destruct (PyDatetime.compare a b). Qed.

Lemma datetime_ltb_irrefl (a : PyDatetime.datetime) : PyDatetime.ltb a a = false.
Proof.
  apply datetime_ltb_false. unfold PyDatetime.compare.
  by rewrite compare_tuple_refl.
Qed.

Lemma datetime_ltb_trans (a b c : PyDatetime.datetime) :
  PyDatetime.ltb a b = true → PyDatetime.ltb b c = true →
  PyDatetime.ltb a c = true.
Proof. rewrite !datetime_ltb_true. apply compare_tuple_lt_trans. Qed.

Lemma datetime_ltb_neg_trans (a b c : PyDatetime.datetime) :
  PyDatetime.ltb a b = false → PyDatetime.ltb b c = false →
  PyDatetime.ltb a c = false.
Proof. rewrite !datetime_ltb_false. apply compare_tuple_neg_trans. Qed.

(** [datetime.min] is below every datetime the constructor accepts. *)
Lemma datetime_min_least (d : PyDatetime.datetime) :
  PyDatetime.check_fields d = true → PyDatetime.ltb d PyDatetime.min = false.
Proof.
  unfold PyDatetime.check_fields, PyDatetime.MINYEAR. intros H.
  repeat (apply andb_prop in H as [H ?]).
  apply datetime_ltb_false. destruct d as [y m d H' M S]; cbn in *.
  unfold PyDatetime.compare; cbn.
  repeat match goal with
         | |- context [?x ?= ?y] => destruct (Z.compare_spec x y); try done; try lia
         end.
Qed.

Lemma new_checked (y m d H M S : Z) (dt : PyDatetime.datetime) :
  PyDatetime.new y m d H M S = Some dt → PyDatetime.check_fields dt = true.
Proof.
  unfold PyDatetime.new. destruct (PyDatetime.check_fields _) eqn:E; [|done].
  by intros [= <-].
Qed.

Lemma strptime_checked (s : string) (dt : PyDatetime.datetime) :
  PyDatetime.strptime s = Some dt → PyDatetime.check_fields dt = true.
Proof.
  unfold PyDatetime.strptime.
  destruct (PyDatetime.match_items _ s) as [[gs r]|]; [|done].
  do 7 (destruct gs as [|? gs]; try done). destruct r; [|done].
  apply new_checked.
Qed.

Lemma parse_datetime_checked (m : measurement) :
  PyDatetime.check_fields (parse_datetime m) = true.
Proof.
  unfold parse_datetime.
  destruct (m !! FECHA) as [fecha|]; [|done].
  destruct (m !! HORA) as [hora|]; [|done].
  destruct (truthy fecha && truthy hora); [|done].
  destruct (PyDatetime.strptime _) as [d|] eqn:E; [|done].
  by eapply strptime_checked.
Qed.

Lemma compare_tuple_eq (a b : list Z) :
  length a = length b → PyDatetime.compare_tuple a b = Eq → a = b.
Proof.
  revert b. induction a as [|x a IH]; intros [|y b]; cbn; try done.
  intros [= Hl]. destruct (Z.compare_spec x y); try done.
  intros Hab. subst. f_equal. by apply IH.
Qed.

Lemma compare_tuple_antisym (a b : list Z) :
  PyDatetime.compare_tuple b a = CompOpp (PyDatetime.compare_tuple a b).
Proof.
  revert b. induction a as [|x a IH]; intros [|y b]; cbn; try done.
  rewrite (Z.compare_antisym x y). destruct (x ?= y); cbn; auto.
Qed.

Lemma datetime_ltb_antisym (a b : PyDatetime.datetime) :
  PyDatetime.ltb a b = false → PyDatetime.ltb b a = false → a = b.
Proof.
  rewrite !datetime_ltb_false. unfold PyDatetime.compare.
  rewrite (compare_tuple_antisym (PyDatetime.to_tuple a)).
  intros H1 H2.
  assert (E : PyDatetime.compare_tuple (PyDatetime.to_tuple a)
                (PyDatetime.to_tuple b) = Eq).
  { destruct (PyDatetime.compare_tuple _ _); cbn in *; congruence. }
  apply compare_tuple_eq in E; [|done].
  destruct a, b. unfold PyDatetime.to_tuple in E. by simplify_eq/=.
Qed.

Lemma parse_datetime_not_below_min (m : measurement) :
  PyDatetime.ltb (parse_datetime m) PyDatetime.min = false.
Proof. apply datetime_min_least, parse_datetime_checked. Qed.

(** ** Ordering of the measurements *)

Lemma sorted_measurements_perm (self : TanitaParser) :
  _get_sorted_measurements self ≡ₚ measurements self.
Proof. apply sorted_perm. Qed.

Lemma sorted_measurements_ascending (self : TanitaParser) :
  StronglySorted not_after (_get_sorted_measurements self).
Proof.
  apply sorted_sorted.
  - apply datetime_ltb_irrefl.
  - apply datetime_ltb_trans.
  - apply datetime_ltb_neg_trans.
Qed.

Lemma sorted_measurements_fixed_iff (self : TanitaParser) :
  _get_sorted_measurements self = measurements self
  ↔ StronglySorted not_after (measurements self).
Proof.
  apply sorted_fixed_iff.
  - apply datetime_ltb_irrefl.
  - apply datetime_ltb_trans.
  - apply datetime_ltb_neg_trans.
Qed.

Lemma sorted_measurements_stable (self : TanitaParser) (k : PyDatetime.datetime) :
  filter (has_key k) (_get_sorted_measurements self)
    = filter (has_key k) (measurements self).
Proof.
  apply sorted_stable. intros a b Ha Hb. unfold has_key in *.
  rewrite Ha, Hb. apply datetime_ltb_irrefl.
Qed.

(** Whatever stable ascending sort the runtime uses, its output is the one
    modelled here. *)
Lemma sorted_measurements_unique (self : TanitaParser) (out : list measurement) :
  StronglySorted not_after out →
  (∀ k, filter (has_key k) out = filter (has_key k) (measurements self)) →
  out = _get_sorted_measurements self.
Proof.
  apply stable_sort_unique.
  - apply datetime_ltb_irrefl.
  - apply datetime_ltb_trans.
  - apply datetime_ltb_neg_trans.
  - apply datetime_ltb_antisym.
Qed.

(** C5: the sorter is a stable ascending sort on the parsed date and time.
    Its output is a rearrangement of the collected measurements (none is
    dropped, and the function is total), no measurement is followed by an
    earlier one, and measurements with the same key keep their discovery
    order.  The key is the datetime parsed from "date time" under
    day/month/year hour:minute:second; when the date or the time is missing,
    empty, or the text does not parse, the key is [datetime.min], which no
    key is below, so such a measurement is never found after one with a
    later key. *)
Theorem sorting_is_stable_and_total (self : TanitaParser) :
  let out := _get_sorted_measurements self in
  out ≡ₚ measurements self
  ∧ StronglySorted not_after out
  ∧ (∀ k, filter (has_key k) out = filter (has_key k) (measurements self))
  ∧ (∀ (m : measurement) (fecha hora : string) (d : PyDatetime.datetime),
       m !! FECHA = Some (PStr fecha) → m !! HORA = Some (PStr hora) →
       PyDatetime.strptime (fecha +:+ " " +:+ hora) = Some d →
       fecha ≠ "" → hora ≠ "" → parse_datetime m = d)
  ∧ (∀ m : measurement,
       m !! FECHA = None ∨ m !! HORA = None
       ∨ (∃ fecha hora, m !! FECHA = Some fecha ∧ m !! HORA = Some hora
            ∧ (truthy fecha = false ∨ truthy hora = false
               ∨ PyDatetime.strptime (py_str fecha +:+ " " +:+ py_str hora)
                   = None)) →
       parse_datetime m = PyDatetime.min)
  ∧ (∀ m : measurement,
       PyDatetime.ltb (parse_datetime m) PyDatetime.min = false)
  ∧ (∀ (l1 l2 : list measurement) (m' : measurement),
       out = l1 ++ m' :: l2 →
       PyDatetime.ltb PyDatetime.min (parse_datetime m') = true →
       Forall (λ m, parse_datetime m ≠ PyDatetime.min) l2).
Proof.
  cbv zeta. split; [apply sorted_measurements_perm|].
  split; [apply sorted_measurements_ascending|].
  split; [apply sorted_measurements_stable|].
  split; [|split; [|split]].
  - intros m fecha hora d Hf Hh Hd Hfe Hhe. unfold parse_datetime.
    rewrite Hf, Hh. cbn [truthy py_str].
    rewrite !bool_decide_eq_false_2 by done. cbn [negb andb]. by rewrite Hd.
  - intros m [Hf|[Hh|(fecha & hora & Hf & Hh & H)]]; unfold parse_datetime.
    + by rewrite Hf.
    + rewrite Hh. by destruct (m !! FECHA).
    + rewrite Hf, Hh. destruct H as [-> | [-> | ->]]; [done| |].
      * by rewrite andb_false_r.
      * by destruct (truthy fecha && truthy hora).
  - apply parse_datetime_not_below_min.
  - intros l1 l2 m' Hout Hlt.
    pose proof (sorted_measurements_ascending self) as Hs. rewrite Hout in Hs.
    apply StronglySorted_app_1_r in Hs. apply StronglySorted_inv in Hs as [_ Hall].
    eapply Forall_impl; [exact Hall|]. intros m Hm Hmin. unfold not_after in Hm.
    rewrite Hmin in Hm. congruence.
Qed.

Lemma sorting_is_stable_and_total_witness :
  parse_datetime
    (decode_row ["DT"; "31/02/2024"; "Ti"; "10:00:00"] "DATA1.CSV" 0)
    = PyDatetime.min
  ∧ parse_datetime
      (decode_row ["DT"; "02/01/2024"; "Ti"; "09:00:00"] "DATA1.CSV" 0)
    = PyDatetime.Datetime 2024 1 2 9 0 0.
Proof.
  destruct (sorting_is_stable_and_total later_first)
    as (_ & _ & _ & Hparsed & Hmin & _).
  split.
  - apply Hmin. right; right.
    exists (PStr "31/02/2024"), (PStr "10:00:00").
    split; [vm_compute; reflexivity|]. split; [vm_compute; reflexivity|].
    right; right. vm_compute; reflexivity.
  - apply (Hparsed _ "02/01/2024" "09:00:00");
      [vm_compute; reflexivity..|discriminate|discriminate].
Defined.

(** The sorting scenario of the specification: a reading of 2 January
    sorts after one of 1 January, and a reading whose date does not parse
    sorts before both, whatever the discovery order. *)
Example sorting_scenario :
  let rows :=
    [ ["DT"; "02/01/2024"; "Ti"; "09:00:00"; "AG"; "second"];
      ["DT"; "01/01/2024"; "Ti"; "10:00:00"; "AG"; "first"];
      ["DT"; "2024-01-03"; "Ti"; "08:00:00"; "AG"; "unparsable"] ] in
  let self := parse_csv_file init "DATA1.CSV" (Some rows) measurement_file in
  (λ m : measurement, m !! "Edad") <$> _get_sorted_measurements self
    = [Some (PStr "unparsable"); Some (PStr "first"); Some (PStr "second")].
Proof. vm_compute. reflexivity. Qed.

(** ** The report *)

Lemma decode_pair_fields_are_text (row : list string) (m : measurement) (i : nat) :
  fields_are_text m → fields_are_text (decode_pair row m i).
Proof.
  intros Hm k v. destruct (decode_pair_key row m i) as [w ->].
  rewrite lookup_insert. case_decide; [|apply Hm].
  intros [= <-]. right. by eexists.
Qed.

Lemma decode_fold_fields_are_text (row : list string) (idx : list nat)
    (m : measurement) :
  fields_are_text m → fields_are_text (foldl (decode_pair row) m idx).
Proof.
  revert m. induction idx as [|i idx IH]; intros m Hm; [done|].
  cbn [foldl]. by apply IH, decode_pair_fields_are_text.
Qed.

Lemma decode_row_fields_are_text (row : list string) (file_path : string)
    (row_num : nat) :
  fields_are_text (decode_row row file_path row_num).
Proof.
  unfold decode_row. apply decode_fold_fields_are_text.
  intros k v Hk. left. unfold provenance_keys.
  rewrite !lookup_insert in Hk. rewrite !elem_of_cons.
  repeat case_decide; subst; auto. by rewrite lookup_empty in Hk.
Qed.

Lemma parse_row_fields_are_text (file_path : string) (ft : file_type)
    (self : TanitaParser) (numbered : nat * list string) :
  Forall fields_are_text (measurements self) →
  Forall fields_are_text (measurements (parse_row file_path ft self numbered)).
Proof.
  intros H. destruct numbered as [row_num row]. unfold parse_row.
  case_bool_decide; [done|]. destruct ft; [|done..].
  cbn. apply Forall_app. split; [done|].
  constructor; [apply decode_row_fields_are_text|constructor].
Qed.

(** Every state reached from [init] by parsing files holds measurements
    whose decoded fields are text. *)
Lemma parse_csv_file_fields_are_text (self : TanitaParser) (file_path : string)
    (contents : option (list (list string))) (ft : file_type) :
  Forall fields_are_text (measurements self) →
  Forall fields_are_text
    (measurements (parse_csv_file self file_path contents ft)).
Proof.
  destruct contents as [rows|]; [|done]. cbn.
  generalize (imap pair rows). intros l. revert self.
  induction l as [|x l IH]; intros self H; [done|].
  cbn [foldl]. by apply IH, parse_row_fields_are_text.
Qed.

Lemma measurement_section_Some (i : nat) (m : measurement) :
  fields_are_text m →
  ∃ s, measurement_section i m = Some s ∧ sec_measurement s = m.
Proof.
  intros Hm. unfold measurement_section, measurement_genero.
  destruct (m !! GENERO) as [v|] eqn:E; [|cbn; eauto].
  destruct (Hm _ _ E) as [Hk|[s ->]]; [|cbn; eauto].
  exfalso. revert Hk. unfold provenance_keys, GENERO.
  rewrite !elem_of_cons, elem_of_nil. intros [?|[?|[?|[]]]]; discriminate.
Qed.

Lemma measurement_section_source (i : nat) (m : measurement) (s : section) :
  measurement_section i m = Some s → sec_measurement s = m.
Proof.
  unfold measurement_section. destruct (measurement_genero m); [|done].
  cbn. by intros [= <-].
Qed.

Lemma sections_follow_input (ps : list (nat * measurement)) (ss : list section) :
  mapM (λ '(i, m), measurement_section i m) ps = Some ss →
  sec_measurement <$> ss = ps.*2.
Proof.
  rewrite mapM_Some. induction 1 as [|[i m] s ps ss Hs _ IH]; [done|].
  cbn. f_equal; [by eapply measurement_section_source|done].
Qed.

Lemma imap_pair_snd {A} (l : list A) : (imap pair l).*2 = l.
Proof.
  rewrite fmap_imap. rewrite <- (list_fmap_id l) at 2.
  rewrite <- imap_const. by apply imap_ext.
Qed.

(** The report exists for measurements built by the parser; its blocks
    follow [self.measurements], and the comparison uses the last two of the
    sorted sequence. *)
Lemma generate_pdf_report_sections (plt : libraries) (self : TanitaParser) :
  Forall fields_are_text (measurements self) →
  ∃ r, generate_pdf_report plt self = Some r
    ∧ sec_measurement <$> rep_sections r = measurements self
    ∧ (∀ l prev last,
         _get_sorted_measurements self = l ++ [prev; last] →
         ∃ c, rep_comparison r = Some c ∧ cmp_prev c = prev ∧ cmp_last c = last)
    ∧ ((length (measurements self) < 2)%nat → rep_comparison r = None).
Proof.
  intros Hwf. unfold generate_pdf_report.
  destruct (mapM _ (imap pair (measurements self))) as [ss|] eqn:E.
  - cbn. eexists. split; [done|]. cbn. split; [|split].
    + apply sections_follow_input in E. by rewrite imap_pair_snd in E.
    + intros l prev last ->. rewrite reverse_app. cbn. eauto.
    + intros Hlen.
      pose proof (Permutation_length (sorted_measurements_perm self)) as Hp.
      rewrite <- length_reverse in Hp.
      destruct (reverse _) as [|a [|b l]]; cbn in *; [done|done|lia].
  - exfalso. apply mapM_None in E. apply Exists_exists in E as ([i m] & Hin & Hnone).
    assert (Hm : fields_are_text m).
    { rewrite Forall_forall in Hwf. apply Hwf.
      rewrite <- (imap_pair_snd (measurements self)).
      apply list_elem_of_fmap. by exists (i, m). }
    destruct (measurement_section_Some i m Hm) as (s & Hs & _). congruence.
Qed.

(** C1, as the code has it: the report renders one block per measurement
    in discovery order, the order of [self.measurements]; the sorter's
    output only selects the two latest measurements for the comparison.
    The rendered sequence is a rearrangement of the sorter's output and
    coincides with it exactly when the discovery order is already
    chronological. *)
Theorem report_renders_discovery_order (plt : libraries)
    (self : TanitaParser) :
  Forall fields_are_text (measurements self) →
  ∃ r, generate_pdf_report plt self = Some r
    ∧ sec_measurement <$> rep_sections r = measurements self
    ∧ sec_measurement <$> rep_sections r ≡ₚ _get_sorted_measurements self
    ∧ (sec_measurement <$> rep_sections r = _get_sorted_measurements self
       ↔ StronglySorted not_after (measurements self))
    ∧ (∀ l prev last,
         _get_sorted_measurements self = l ++ [prev; last] →
         ∃ c, rep_comparison r = Some c ∧ cmp_prev c = prev ∧ cmp_last c = last).
Proof.
  intros Hwf.
  destruct (generate_pdf_report_sections plt self Hwf)
    as (r & Hr & Hs & Hc & _).
  exists r. split; [done|]. split; [done|]. rewrite Hs.
  split; [by rewrite sorted_measurements_perm|]. split; [|done].
  rewrite <- sorted_measurements_fixed_iff. split; congruence.
Qed.

Lemma later_first_fields_are_text :
  Forall fields_are_text (measurements later_first).
Proof.
  unfold later_first. do 2 apply parse_csv_file_fields_are_text. constructor.
Qed.

Lemma report_renders_discovery_order_witness :
  ∃ r, generate_pdf_report all_calls_return later_first = Some r
    ∧ sec_measurement <$> rep_sections r = measurements later_first.
Proof.
  destruct (report_renders_discovery_order all_calls_return later_first
              later_first_fields_are_text) as (r & Hr & Hs & _).
  exists r. by split.
Defined.

(** C1 as stated fails: with the later file discovered first, the blocks
    are rendered later-first while the sorter puts the earlier file first. *)
Lemma rendering_order_counterexample :
  ∃ r, generate_pdf_report all_calls_return later_first = Some r
    ∧ (λ m : measurement, m !! "file") <$> (sec_measurement <$> rep_sections r)
        = [Some (PStr "DATA2.CSV"); Some (PStr "DATA1.CSV")]
    ∧ (λ m : measurement, m !! "file") <$> _get_sorted_measurements later_first
        = [Some (PStr "DATA1.CSV"); Some (PStr "DATA2.CSV")]
    ∧ sec_measurement <$> rep_sections r ≠ _get_sorted_measurements later_first.
Proof.
  destruct (generate_pdf_report_sections all_calls_return later_first
              later_first_fields_are_text) as (r & Hr & Hs & _).
  exists r. split; [done|]. rewrite Hs.
  assert (H1 : (λ m : measurement, m !! "file") <$> measurements later_first
               = [Some (PStr "DATA2.CSV"); Some (PStr "DATA1.CSV")])
    by (vm_compute; reflexivity).
  assert (H2 : (λ m : measurement, m !! "file")
                 <$> _get_sorted_measurements later_first
               = [Some (PStr "DATA1.CSV"); Some (PStr "DATA2.CSV")])
    by (vm_compute; reflexivity).
  split; [done|]. split; [done|]. intros E. rewrite E, H2 in H1. discriminate.
Qed.

(** ** Sex category *)

Lemma lower_idempotent (s : string) : PyStr.lower (PyStr.lower s) = PyStr.lower s.
Proof.
  induction s as [|c s IH]; cbn; [done|]. f_equal; [|done].
  destruct c as [[] [] [] [] [] [] [] []]; reflexivity.
Qed.

(** C8: sex-category resolution is case-insensitive and total.  The
    recorded text is lower-cased; a member of 1/hombre/m/male gives the male
    category, a member of 2/mujer/f/female the female one, anything else
    (a missing field reads as the empty text) the generic one.  Texts that
    differ only in letter case resolve alike. *)
Theorem sex_resolution_total (recorded : string) :
  let genero := PyStr.lower recorded in
  (genero ∈ ["1"; "hombre"; "m"; "male"] → sexo_for genero = hombre)
  ∧ (genero ∈ ["2"; "mujer"; "f"; "female"] → sexo_for genero = mujer)
  ∧ (genero ∉ ["1"; "hombre"; "m"; "male"] →
     genero ∉ ["2"; "mujer"; "f"; "female"] → sexo_for genero = otro)
  ∧ (∀ other, PyStr.lower other = PyStr.lower recorded →
       sexo_for (PyStr.lower other) = sexo_for genero)
  ∧ sexo_for (PyStr.lower genero) = sexo_for genero
  ∧ (∀ m : measurement, m !! GENERO = Some (PStr recorded) →
       measurement_genero m = Some genero)
  ∧ (∀ m : measurement, m !! GENERO = None →
       measurement_genero m = Some "" ∧ sexo_for "" = otro).
Proof.
  cbv zeta. unfold sexo_for. repeat split.
  - intros H. by rewrite bool_decide_eq_true_2.
  - intros H.
    assert (Hn : PyStr.lower recorded ∉ ["1"; "hombre"; "m"; "male"]).
    { revert H. rewrite !elem_of_cons, !elem_of_nil.
      intros [-> | [-> | [-> | [-> | []]]]] [?|[?|[?|[?|[]]]]]; discriminate. }
    by rewrite bool_decide_eq_false_2, bool_decide_eq_true_2.
  - intros H1 H2. by rewrite !bool_decide_eq_false_2.
  - by intros other ->.
  - by rewrite lower_idempotent.
  - intros m Hm. unfold measurement_genero. by rewrite Hm.
  - unfold measurement_genero. by rewrite H.
Qed.

Lemma sex_resolution_total_witness :
  sexo_for (PyStr.lower "HOMBRE") = hombre
  ∧ sexo_for (PyStr.lower "Female") = mujer
  ∧ sexo_for (PyStr.lower "x") = otro.
Proof.
  destruct (sex_resolution_total "HOMBRE") as (Hmale & _).
  destruct (sex_resolution_total "Female") as (_ & Hfemale & _).
  destruct (sex_resolution_total "x") as (_ & _ & Hother & _).
  split; [|split].
  - apply Hmale. cbn. rewrite !elem_of_cons. auto.
  - apply Hfemale. cbn. rewrite !elem_of_cons. auto.
  - apply Hother; cbn; rewrite !elem_of_cons, elem_of_nil;
      intros [?|[?|[?|[?|[]]]]]; discriminate.
Defined.

(** ** Numeric normalization *)

Lemma replace_absent (old : ascii) (new s : string) :
  PyStr.contains old s = false → PyStr.replace old new s = s.
Proof.
  induction s as [|c s IH]; cbn; [done|].
  intros [Hc Hs]%orb_false_elim. rewrite Hc. f_equal. by apply IH.
Qed.

Lemma append_cons (c : ascii) (a b : string) :
  String c a +:+ b = String c (a +:+ b).
Proof. reflexivity. Qed.

Lemma append_empty_r (a : string) : a +:+ "" = a.
Proof. induction a as [|d a IH]; [done|]. by rewrite append_cons, IH. Qed.

Lemma append_assoc (a b c : string) : (a +:+ b) +:+ c = a +:+ (b +:+ c).
Proof.
  induction a as [|d a IH]; [done|]. by rewrite !append_cons, IH.
Qed.

Lemma replace_app (old : ascii) (new a b : string) :
  PyStr.replace old new (a +:+ b)
    = PyStr.replace old new a +:+ PyStr.replace old new b.
Proof.
  induction a as [|c a IH]; [done|].
  rewrite append_cons. cbn [PyStr.replace].
  destruct (Ascii.eqb c old); rewrite IH.
  - by rewrite append_assoc.
  - by rewrite append_cons.
Qed.

Lemma strip_trailing_percent_app (s : string) :
  PyStr.contains "%" s = false →
  strip_trailing_percent s = s ∧ strip_trailing_percent (s +:+ "%") = s.
Proof.
  induction s as [|c s IH]; [done|].
  cbn [PyStr.contains]. intros [Hc Hs]%orb_false_elim.
  destruct (IH Hs) as [IH1 IH2]. rewrite append_cons.
  destruct s as [|d s].
  - cbn. by rewrite Hc.
  - rewrite append_cons in *. cbn [strip_trailing_percent] in *.
    split; f_equal; done.
Qed.

(** *** [float] refuses any text with a percent sign *)

Lemma not_percent (P : ascii → bool) (c : ascii) :
  P "%"%char = false → P c = true → Ascii.eqb c "%" = false.
Proof. intros HP Hc. destruct (Ascii.eqb_spec c "%"); [congruence|done]. Qed.

Lemma lstrip_percent (sp : ascii → bool) (s : string) :
  sp "%"%char = false →
  has_percent (PyStr.lstrip_with sp s) = has_percent s.
Proof.
  intros Hsp. induction s as [|c s IH]; [done|]. cbn.
  destruct (sp c) eqn:E; [|done]. by rewrite IH, (not_percent sp c).
Qed.

Lemma rstrip_percent (sp : ascii → bool) (s : string) :
  sp "%"%char = false →
  has_percent (PyStr.rstrip_with sp s) = has_percent s.
Proof.
  intros Hsp. induction s as [|c s IH]; [done|]. cbn.
  destruct (PyStr.rstrip_with sp s) as [|d r]; cbn in *.
  - rewrite <- IH. destruct (sp c) eqn:E; cbn.
    + by rewrite (not_percent sp c).
    + done.
  - by rewrite <- IH.
Qed.

Lemma digits_percent (s : string) (acc : N) (cnt : nat) :
  has_percent (PyStr.digits s acc cnt).2 = has_percent s.
Proof.
  revert acc cnt. induction s as [|c s IH]; intros acc cnt; [done|]. cbn.
  destruct (PyStr.isdigit c) eqn:E; [|done].
  by rewrite IH, (not_percent PyStr.isdigit c).
Qed.

Lemma sign_percent (s : string) : has_percent (PyFloat.sign s).2 = has_percent s.
Proof.
  destruct s as [|c s]; [done|].
  destruct c as [[] [] [] [] [] [] [] []]; reflexivity.
Qed.

Lemma exponent_percent (s : string) :
  has_percent (PyFloat.exponent s).2 = has_percent s.
Proof.
  destruct s as [|c s]; [done|]. unfold PyFloat.exponent.
  destruct (Ascii.eqb c "e" || Ascii.eqb c "E") eqn:E; [|done].
  pose proof (sign_percent s) as Hs. destruct (PyFloat.sign s) as [eneg s2].
  pose proof (digits_percent s2 0%N 0%nat) as Hd.
  destruct (PyStr.digits s2 0%N 0%nat) as [[v n] s3].
  destruct n; [done|]. cbn in *. rewrite Hd, Hs.
  by rewrite (not_percent (λ c, Ascii.eqb c "e" || Ascii.eqb c "E") c).
Qed.

Lemma strtod_percent (s r : string) (x : spec_float) :
  PyFloat.strtod s = Some (x, r) → has_percent r = has_percent s.
Proof.
  unfold PyFloat.strtod.
  pose proof (sign_percent s) as Hs. destruct (PyFloat.sign s) as [neg s1].
  pose proof (digits_percent s1 0%N 0%nat) as Hd.
  destruct (PyStr.digits s1 0%N 0%nat) as [[mi ni] s2].
  cbn in Hs, Hd. rewrite <- Hs, <- Hd. clear Hs Hd.
  assert (Hf : ∀ m nf s3,
    match s2 with
    | String "." s2' => PyStr.digits s2' mi 0%nat
    | _ => (mi, 0%nat, s2)
    end = (m, nf, s3) → has_percent s3 = has_percent s2).
  { intros m nf s3 H. destruct s2 as [|c s2']; [by inversion H|].
    destruct (Ascii.eqb_spec c "."%char) as [->|Hc].
    - pose proof (digits_percent s2' mi 0%nat) as Hd. rewrite H in Hd. done.
    - assert (String c s2' = s3) as <-; [|done].
      destruct c as [[] [] [] [] [] [] [] []]; by inversion H. }
  destruct (match s2 with String "." s2' => _ | _ => _ end) as [[m nf] s3].
  specialize (Hf _ _ _ eq_refl). rewrite <- Hf.
  destruct (ni + nf)%nat; [done|].
  pose proof (exponent_percent s3) as He.
  destruct (PyFloat.exponent s3) as [e s4]. by intros [= _ <-].
Qed.

Lemma skip_prefix_percent (p s : string) :
  String.prefix p (PyStr.lower s) = true → has_percent p = false →
  has_percent (PyFloat.skip (String.length p) s) = has_percent s.
Proof.
  revert s. induction p as [|a p IH]; intros s Hpre Hp; [by destruct s|].
  destruct s as [|c s]; [done|]. cbn in *.
  apply orb_false_elim in Hp as [Ha Hp].
  destruct (ascii_dec a (PyStr.lower_char c)) as [->|]; [|done].
  rewrite IH by done.
  destruct (Ascii.eqb_spec c "%"%char) as [->|]; [|done].
  by rewrite Ascii.eqb_refl in Ha.
Qed.

Lemma parse_inf_or_nan_percent (s r : string) (x : spec_float) :
  PyFloat.parse_inf_or_nan s = Some (x, r) → has_percent r = has_percent s.
Proof.
  unfold PyFloat.parse_inf_or_nan.
  pose proof (sign_percent s) as Hs. destruct (PyFloat.sign s) as [neg s1].
  cbn in Hs. rewrite <- Hs.
  destruct (String.prefix "inf" (PyStr.lower s1)) eqn:E1.
  - destruct (String.prefix "infinity" (PyStr.lower s1)) eqn:E2;
      intros [= _ <-].
    + by apply (skip_prefix_percent "infinity").
    + by apply (skip_prefix_percent "inf").
  - destruct (String.prefix "nan" (PyStr.lower s1)) eqn:E3; [|done].
    intros [= _ <-]. by apply (skip_prefix_percent "nan").
Qed.

Lemma float_from_string_inner_percent (s : string) (x : spec_float) :
  PyFloat.float_from_string_inner s = Some x → has_percent s = false.
Proof.
  unfold PyFloat.float_from_string_inner, PyStr.strip_with.
  rewrite <- (lstrip_percent PyStr.c_isspace s) by done.
  rewrite <- (rstrip_percent PyStr.c_isspace (PyStr.lstrip_with _ s)) by done.
  destruct (PyStr.rstrip_with _ _) as [|c s1]; [done|].
  unfold PyFloat.ascii_strtod.
  destruct (PyFloat.strtod (String c s1)) as [[y r]|] eqn:E.
  - apply strtod_percent in E. rewrite <- E. by destruct r.
  - destruct (PyFloat.parse_inf_or_nan (String c s1)) as [[y r]|] eqn:E'; [|done].
    apply parse_inf_or_nan_percent in E'. rewrite <- E'. by destruct r.
Qed.

Lemma drop_underscores_percent (prev : ascii) (s d : string) :
  PyFloat.drop_underscores prev s = Some d → has_percent d = has_percent s.
Proof.
  revert prev d. induction s as [|c s IH]; intros prev d; cbn.
  - destruct (Ascii.eqb prev "_"); [done|]. by intros [= <-].
  - destruct (Ascii.eqb_spec c "_"%char) as [->|Hc].
    + destruct (PyStr.isdigit prev); [|done]. cbn. apply IH.
    + destruct (Ascii.eqb prev "_" && negb (PyStr.isdigit c)); [done|].
      destruct (PyFloat.drop_underscores c s) as [d'|] eqn:E; [|done].
      intros [= <-]. cbn. by rewrite (IH _ _ E).
Qed.

Lemma of_string_percent (s : string) :
  has_percent s = true → PyFloat.of_string s = None.
Proof.
  intros Hs. unfold PyFloat.of_string.
  destruct (PyStr.contains "_" s).
  - destruct (PyFloat.drop_underscores "000" s) as [d|] eqn:E; [|done].
    apply drop_underscores_percent in E.
    destruct (PyFloat.float_from_string_inner d) as [x|] eqn:E'; [|done].
    apply float_from_string_inner_percent in E'. congruence.
  - destruct (PyFloat.float_from_string_inner s) as [x|] eqn:E'; [|done].
    apply float_from_string_inner_percent in E'. congruence.
Qed.

Lemma replace_comma_percent (s : string) :
  has_percent (PyStr.replace "," "." s) = has_percent s.
Proof.
  induction s as [|c s IH]; [done|]. cbn [PyStr.replace PyStr.contains].
  destruct (Ascii.eqb c ",") eqn:E.
  - apply Ascii.eqb_eq in E as ->.
    change ("." +:+ PyStr.replace "," "." s)
      with (String "." (PyStr.replace "," "." s)).
    cbn [PyStr.contains]. by rewrite IH.
  - cbn [PyStr.contains]. by rewrite IH.
Qed.

(** C2, as the code has it: the normalization is written out at every
    site, under two policies.  The body-fat, muscle and water classification
    sites, the comparison table and the comparison chart remove percent
    signs and agree on every text.  The BMI and visceral-fat classification
    sites do not remove them: they agree with each other, yield absent on
    every text that holds a percent sign, and agree with the other sites on
    every text that holds none. *)
Theorem normalization_by_site (s : string) :
  grasa_number s = musc_number s
  ∧ grasa_number s = agua_number s
  ∧ grasa_number s = table_number s
  ∧ grasa_number s = chart_number s
  ∧ imc_number s = visceral_number s
  ∧ imc_number s = (if has_percent s then None else grasa_number s).
Proof.
  repeat split. unfold imc_number, grasa_number.
  destruct (has_percent s) eqn:E.
  - apply of_string_percent. by rewrite replace_comma_percent.
  - by rewrite (replace_absent "%" "" s).
Qed.

(** C2 as stated fails: a value with a percent sign normalizes to 20.0 at
    the body-fat site and to absent at the BMI and visceral-fat sites. *)
Lemma normalization_sites_disagree :
  grasa_number "20%" = Some (num 20)
  ∧ table_number "20%" = Some (num 20)
  ∧ imc_number "20%" = None
  ∧ visceral_number "20%" = None
  ∧ grasa_number "20%" ≠ imc_number "20%".
Proof. repeat split; try (vm_compute; reflexivity). by vm_compute. Qed.

(** C4, as the code has it: the normalization removes every percent sign,
    wherever it stands, turns every comma into a dot and parses the result
    as [float] does; a failure yields absent, never an exception.  On a
    text with no percent sign, or with a single one at its end, this is the
    trailing-percent reading of the specification; "83,5" gives 83.5, "20%"
    gives 20.0, "abc" and the empty text give absent. *)
Theorem to_number_policy :
  (∀ raw : string,
     grasa_number raw
       = PyFloat.of_string (PyStr.replace "," "." (PyStr.replace "%" "" raw))
     ∧ chart_number raw = grasa_number raw)
  ∧ (∀ a b : string, grasa_number (a +:+ "%" +:+ b) = grasa_number (a +:+ b))
  ∧ (∀ raw : string, has_percent raw = false →
       grasa_number raw = to_number_spec raw
       ∧ grasa_number (raw +:+ "%") = to_number_spec (raw +:+ "%"))
  ∧ grasa_number "83,5" = Some (PyFloat.of_decimal false 835 (-1))
  ∧ grasa_number "20%" = Some (num 20)
  ∧ grasa_number "abc" = None
  ∧ grasa_number "" = None.
Proof.
  split; [done|]. split; [|split].
  - intros a b. unfold grasa_number. by rewrite !replace_app.
  - intros raw Hraw. unfold grasa_number, to_number_spec.
    destruct (strip_trailing_percent_app raw Hraw) as [-> ->].
    rewrite replace_app, (replace_absent "%" "" raw) by done.
    split; [done|].
    change (PyStr.replace "%" "" "%") with "". by rewrite append_empty_r.
  - repeat split; vm_compute; reflexivity.
Qed.

Lemma to_number_policy_witness :
  grasa_number "83,5" = to_number_spec "83,5"
  ∧ grasa_number ("20" +:+ "%") = to_number_spec ("20" +:+ "%").
Proof.
  destruct to_number_policy as (_ & _ & Hspec & _).
  split.
  - apply (Hspec "83,5"). reflexivity.
  - apply (Hspec "20"). reflexivity.
Defined.

(** C4 as stated fails: a percent sign inside the text is removed too, so
    the code reads 20.0 where stripping a trailing percent sign leaves a
    text that does not parse. *)
Lemma inner_percent_counterexample :
  grasa_number "2%0" = Some (num 20)
  ∧ chart_number "2%0" = Some (num 20)
  ∧ to_number_spec "2%0" = None
  ∧ grasa_number "2%0" ≠ to_number_spec "2%0".
Proof. repeat split; try (vm_compute; reflexivity). by vm_compute. Qed.

(** ** Comparison of two measurements *)


Lemma SFcompare_antisym (x y : spec_float) :
  SFcompare y x = option_map CompOpp (SFcompare x y).
Proof.
  destruct x as [sx|sx| |sx mx ex], y as [sy|sy| |sy my ey];
    try done; try (by destruct sx); try (by destruct sy);
    try (by destruct sx, sy).
  unfold SFcompare.
  change (Pos.compare_cont Eq my mx) with (Pos.compare my mx).
  change (Pos.compare_cont Eq mx my) with (Pos.compare mx my).
  rewrite (Z.compare_antisym ex ey), (Pos.compare_antisym mx my).
  by destruct sx, sy, (ex ?= ey), (mx ?= my)%positive.
Qed.

Lemma ltb_asym_float (x y : spec_float) :
  PyFloat.ltb x y = true → PyFloat.ltb y x = false.
Proof.
  unfold PyFloat.ltb, SFltb. rewrite (SFcompare_antisym x y).
  by destruct (SFcompare x y) as [[]|].
Qed.



(** The comparison scenario of the specification: BMI 24.0 then 25.2 gives
    the text +1.2 and a true flag. *)
Example comparison_sign_scenario :
  (λ c, (chart_diff_text c, chart_significant c))
    <$> _plot_comparison_chart all_calls_return earlier_reading later_reading
          "Índice de masa corporal (IMC)" " kg/m²"
  = Some ("Diferencia: +1.2 kg/m²", true).
Proof. vm_compute. reflexivity. Qed.


(** ** Range classification *)

Lemma ltb_finite_pos (m1 m2 : positive) (e1 e2 : Z) :
  SFltb (S754_finite false m1 e1) (S754_finite false m2 e2) = true
  ↔ e1 < e2 ∨ (e1 = e2 ∧ (m1 < m2)%positive).
Proof.
  unfold SFltb, SFcompare.
  destruct (Z.compare_spec e1 e2); [|split; [lia|done]|split; [done|lia]].
  change (Pos.compare_cont Eq m1 m2) with (Pos.compare m1 m2).
  destruct (Pos.compare_spec m1 m2); split; try done; lia.
Qed.

Lemma leb_finite_pos (m1 m2 : positive) (e1 e2 : Z) :
  SFleb (S754_finite false m1 e1) (S754_finite false m2 e2) = true
  ↔ e1 < e2 ∨ (e1 = e2 ∧ (m1 ≤ m2)%positive).
Proof.
  unfold SFleb, SFcompare.
  destruct (Z.compare_spec e1 e2); [|split; [lia|done]|split; [done|lia]].
  change (Pos.compare_cont Eq m1 m2) with (Pos.compare m1 m2).
  destruct (Pos.compare_spec m1 m2); split; try done; lia.
Qed.

(** A value at or above a positive bound is not below a smaller bound. *)
Lemma leb_ltb_false (ma mb : positive) (ea eb : Z) (v : spec_float) :
  eb < ea ∨ (eb = ea ∧ (mb ≤ ma)%positive) →
  PyFloat.leb (S754_finite false ma ea) v = true →
  PyFloat.ltb v (S754_finite false mb eb) = false.
Proof.
  intros Hab. unfold PyFloat.leb, PyFloat.ltb.
  destruct v as [s|s| |s m e]; try done.
  - by destruct s.
  - destruct s; [done|]. intros Hle%leb_finite_pos.
    destruct (SFltb _ _) eqn:E; [|done]. apply ltb_finite_pos in E. lia.
Qed.

Lemma find_bucket_at (value lo hi : spec_float)
    (earlier later : list (spec_float * spec_float)) (i : nat) :
  Forall (λ r, PyFloat.ltb value r.2 = false) earlier →
  PyFloat.leb lo value = true → PyFloat.ltb value hi = true →
  find_bucket value (earlier ++ (lo, hi) :: later) i
    = Some (i + length earlier)%nat.
Proof.
  intros Hb Hlo Hhi. revert i.
  induction Hb as [|[l h] earlier Hh _ IH]; intros i; cbn.
  - rewrite Hlo, Hhi. cbn. f_equal. lia.
  - cbn in Hh. rewrite Hh, andb_false_r, IH. f_equal. lia.
Qed.

Lemma num_8 : num 8 = S754_finite false 4503599627370496 (-49).
Proof. reflexivity. Qed.
Lemma num_20 : num 20 = S754_finite false 5629499534213120 (-48).
Proof. reflexivity. Qed.
Lemma num_25 : num 25 = S754_finite false 7036874417766400 (-48).
Proof. reflexivity. Qed.

Ltac earlier_buckets_fail Hlo :=
  rewrite ?num_8, ?num_20, ?num_25 in *;
  repeat constructor; cbn [snd]; (eapply leb_ltb_false; [|exact Hlo]); lia.

(** C7: for male body fat the source's table is 0, 8, 20, 25, 45 with the
    labels Bajo (Low), Óptimo (Optimal), Alto (High), Muy alto (Very High),
    and the classifier of the specification, reading each bucket closed on
    the left and open on the right, sends [0,8) to Low, [8,20) to Optimal,
    [20,25) to High and [25,45) to Very High; 8.0 is Optimal and 7.999 is
    Low. *)
Theorem male_body_fat_buckets (value : spec_float) :
  metric_ranges body_fat hombre
    = ranges_of [(0, 8); (8, 20); (20, 25); (25, 45)]
  ∧ metric_labels body_fat = ["Bajo"; "Óptimo"; "Alto"; "Muy alto"]
  ∧ (PyFloat.leb (num 0) value = true → PyFloat.ltb value (num 8) = true →
     classify value body_fat hombre = Some ("Bajo", 0%nat))
  ∧ (PyFloat.leb (num 8) value = true → PyFloat.ltb value (num 20) = true →
     classify value body_fat hombre = Some ("Óptimo", 1%nat))
  ∧ (PyFloat.leb (num 20) value = true → PyFloat.ltb value (num 25) = true →
     classify value body_fat hombre = Some ("Alto", 2%nat))
  ∧ (PyFloat.leb (num 25) value = true → PyFloat.ltb value (num 45) = true →
     classify value body_fat hombre = Some ("Muy alto", 3%nat))
  ∧ grasa_number "8.0" ≫= (λ v, classify v body_fat hombre)
      = Some ("Óptimo", 1%nat)
  ∧ grasa_number "7.999" ≫= (λ v, classify v body_fat hombre)
      = Some ("Bajo", 0%nat).
Proof.
  split; [done|]. split; [done|]. unfold classify.
  split; [|split; [|split; [|split]]].
  - intros Hlo Hhi.
    change (metric_ranges body_fat hombre)
      with ([] ++ (num 0, num 8) ::
            [(num 8, num 20); (num 20, num 25); (num 25, num 45)]).
    by rewrite (find_bucket_at value (num 0) (num 8)).
  - intros Hlo Hhi.
    change (metric_ranges body_fat hombre)
      with ([(num 0, num 8)] ++ (num 8, num 20) ::
            [(num 20, num 25); (num 25, num 45)]).
    rewrite (find_bucket_at value (num 8) (num 20)); [done| |done|done].
    earlier_buckets_fail Hlo.
  - intros Hlo Hhi.
    change (metric_ranges body_fat hombre)
      with ([(num 0, num 8); (num 8, num 20)] ++ (num 20, num 25) ::
            [(num 25, num 45)]).
    rewrite (find_bucket_at value (num 20) (num 25)); [done| |done|done].
    earlier_buckets_fail Hlo.
  - intros Hlo Hhi.
    change (metric_ranges body_fat hombre)
      with ([(num 0, num 8); (num 8, num 20); (num 20, num 25)]
            ++ (num 25, num 45) :: []).
    rewrite (find_bucket_at value (num 25) (num 45)); [done| |done|done].
    earlier_buckets_fail Hlo.
  - split; vm_compute; reflexivity.
Qed.

Lemma male_body_fat_buckets_witness :
  classify (num 18) body_fat hombre = Some ("Óptimo", 1%nat)
  ∧ classify (num 30) body_fat hombre = Some ("Muy alto", 3%nat).
Proof.
  destruct (male_body_fat_buckets (num 18)) as (_ & _ & _ & Hopt & _).
  destruct (male_body_fat_buckets (num 30)) as (_ & _ & _ & _ & _ & Hvery & _).
  split; [apply Hopt|apply Hvery]; reflexivity.
Defined.

(** * Further properties of the parser *)

(** ** Reading files *)

Lemma parser_eta (self : TanitaParser) :
  Parser (measurements self) (profiles self) = self.
Proof. by destruct self. Qed.

Lemma omap_cons_eq {A B} (f : A → option B) (x : A) (l : list A) :
  omap f (x :: l)
    = match f x with Some y => y :: omap f l | None => omap f l end.
Proof. reflexivity. Qed.

Lemma omap_length_le {A B} (f : A → option B) (l : list A) :
  (length (omap f l) ≤ length l)%nat.
Proof.
  induction l as [|x l IH]; [done|]. rewrite omap_cons_eq.
  destruct (f x); cbn; lia.
Qed.

Lemma foldl_measurement_rows (file_path : string)
    (ps : list (nat * list string)) (self : TanitaParser) :
  foldl (parse_row file_path measurement_file) self ps
    = Parser (measurements self ++ omap (decoded_row file_path) ps)
             (profiles self).
Proof.
  revert self. induction ps as [|[i row] ps IH]; intros self.
  - cbn. by rewrite app_nil_r, parser_eta.
  - cbn [foldl]. rewrite IH, omap_cons_eq. unfold parse_row, decoded_row at 2.
    cbn [fst snd].
    destruct (decide (length row < 2)%nat) as [Hlen|Hlen].
    + rewrite (bool_decide_eq_true_2 (length row < 2)%nat) by done.
      by rewrite (bool_decide_eq_false_2 (2 ≤ length row)%nat) by lia.
    + rewrite (bool_decide_eq_false_2 (length row < 2)%nat) by done.
      rewrite (bool_decide_eq_true_2 (2 ≤ length row)%nat) by lia.
      cbn. by rewrite <- app_assoc.
Qed.

Lemma decoded_rows_elem_of (file_path : string) (rows : list (list string))
    (m : measurement) :
  m ∈ decoded_rows file_path rows
  ↔ ∃ i row, rows !! i = Some row ∧ (2 ≤ length row)%nat
             ∧ m = decode_row row file_path i.
Proof.
  unfold decoded_rows. rewrite list_elem_of_omap. split.
  - intros ([i row] & Hin & Hm). unfold decoded_row in Hm. cbn in Hm.
    case_bool_decide; [|done]. injection Hm as <-.
    apply elem_of_lookup_imap_1 in Hin as (j & row' & [= -> ->] & Hj). eauto.
  - intros (i & row & Hi & Hlen & ->). exists (i, row). split.
    + by apply (elem_of_lookup_imap_2 pair).
    + unfold decoded_row. by rewrite bool_decide_eq_true_2.
Qed.

(** A measurement file only appends: the earlier measurements and the
    profiles are kept, and the file adds, in file order, one measurement for
    each row of two tokens or more, numbered by the row's position in the
    file (skipped rows count); a file of short rows changes nothing. *)
Theorem measurement_file_appends (self : TanitaParser) (file_path : string)
    (rows : list (list string)) :
  let st := parse_csv_file self file_path (Some rows) measurement_file in
  st = Parser (measurements self ++ decoded_rows file_path rows) (profiles self)
  ∧ (length (measurements st) ≤ length (measurements self) + length rows)%nat
  ∧ (∀ i row, rows !! i = Some row → (2 ≤ length row)%nat →
       decode_row row file_path i ∈ measurements st
       ∧ decode_row row file_path i !! "row" = Some (PInt (Z.of_nat i + 1)))
  ∧ (Forall (λ row, length row < 2)%nat rows → st = self).
Proof.
  cbv zeta. unfold parse_csv_file. rewrite foldl_measurement_rows.
  fold (decoded_rows file_path rows). split; [done|]. cbn [measurements].
  split; [|split].
  - rewrite length_app. unfold decoded_rows.
    pose proof (omap_length_le (decoded_row file_path) (imap pair rows)) as H.
    rewrite length_imap in H. lia.
  - intros i row Hi Hlen. split.
    + apply elem_of_app. right. apply decoded_rows_elem_of. eauto.
    + rewrite decode_row_provenance
        by (unfold provenance_keys; rewrite !elem_of_cons; auto).
      by rewrite lookup_insert_ne, lookup_insert_eq by discriminate.
  - intros Hshort. replace (decoded_rows file_path rows) with (@nil measurement).
    { by rewrite app_nil_r, parser_eta. }
    symmetry. apply elem_of_nil_inv. intros m Hm.
    apply decoded_rows_elem_of in Hm as (i & row & Hi & Hlen & _).
    rewrite Forall_forall in Hshort.
    assert (length row < 2)%nat; [|lia].
    apply Hshort. by eapply list_elem_of_lookup_2.
Qed.

Lemma measurement_file_appends_witness :
  parse_csv_file init "data/DATA1.CSV" (Some [["Wk"]; sample_row])
    measurement_file
  = Parser [decode_row sample_row "data/DATA1.CSV" 1] ∅
  ∧ parse_csv_file init "data/DATA1.CSV" (Some [["Wk"]; []]) measurement_file
    = init.
Proof.
  destruct (measurement_file_appends init "data/DATA1.CSV" [["Wk"]; sample_row])
    as (Hst & _).
  destruct (measurement_file_appends init "data/DATA1.CSV" [["Wk"]; []])
    as (_ & _ & _ & Hshort).
  split; [exact Hst|]. apply Hshort. repeat constructor.
Defined.

Lemma profile_key_inj (file_path : string) (i j : nat) :
  profile_key file_path i = profile_key file_path j → i = j.
Proof.
  unfold profile_key. intros H.
  apply (inj (String.app _)) in H. apply (inj (String.app _)) in H.
  apply (inj pretty) in H. lia.
Qed.

Lemma parse_profile_row_lookup (self : TanitaParser) (row : list string)
    (file_path : string) (i : nat) (k : string) :
  profiles (_parse_profile_row self row file_path i) !! k
    = if decide (profile_key file_path i = k)
      then Some (Profile (PyStr.basename file_path) (Z.of_nat i + 1) row)
      else profiles self !! k.
Proof. unfold _parse_profile_row. cbn. apply lookup_insert. Qed.

Lemma parse_row_profile (file_path : string) (self : TanitaParser)
    (i : nat) (row : list string) :
  parse_row file_path profile_file_type self (i, row)
    = if bool_decide (length row < 2)%nat then self
      else _parse_profile_row self row file_path i.
Proof. reflexivity. Qed.

Lemma profile_rows_kept (self : TanitaParser) (file_path : string)
    (rows : list (list string)) :
  let st := parse_csv_file self file_path (Some rows) profile_file_type in
  measurements st = measurements self
  ∧ (∀ i row, rows !! i = Some row → (2 ≤ length row)%nat →
       profiles st !! profile_key file_path i
         = Some (Profile (PyStr.basename file_path) (Z.of_nat i + 1) row))
  ∧ (∀ k, (∀ i, k ≠ profile_key file_path i) →
       profiles st !! k = profiles self !! k).
Proof.
  cbv zeta. unfold parse_csv_file.
  induction rows as [|row rows IH] using rev_ind; [by cbn|].
  destruct IH as (IHm & IHp & IHo).
  rewrite imap_app, foldl_app. cbn [imap foldl].
  rewrite Nat.add_0_r, parse_row_profile.
  split; [|split].
  - by case_bool_decide.
  - intros i r Hi Hlen. destruct (decide (i = length rows)) as [->|Hne].
    + rewrite lookup_app_r, Nat.sub_diag in Hi by done. injection Hi as ->.
      rewrite bool_decide_eq_false_2 by lia.
      rewrite parse_profile_row_lookup. by rewrite decide_True.
    + assert (Hi' : rows !! i = Some r).
      { apply lookup_lt_Some in Hi as Hlt. rewrite length_app in Hlt. cbn in Hlt.
        by rewrite lookup_app_l in Hi by lia. }
      case_bool_decide; [by apply IHp|].
      rewrite parse_profile_row_lookup, decide_False; [by apply IHp|].
      intros E. by apply profile_key_inj in E.
  - intros k Hk. case_bool_decide; [by apply IHo|].
    rewrite parse_profile_row_lookup, decide_False; [by apply IHo|].
    intros E. by apply (Hk (length rows)).
Qed.

(** A profile file never adds or changes a measurement.  Every row of two
    tokens or more is kept whole under the key made of the file's basename
    and the row's position, with its 1-based row number; no later row of the
    file overwrites it, keys of another form are left as they were, and a
    file of short rows leaves the profiles as they were. *)
Theorem profile_file_keeps_every_row (self : TanitaParser) (file_path : string)
    (rows : list (list string)) :
  let st := parse_csv_file self file_path (Some rows) profile_file_type in
  measurements st = measurements self
  ∧ (∀ i row, rows !! i = Some row → (2 ≤ length row)%nat →
       profiles st !! profile_key file_path i
         = Some (Profile (PyStr.basename file_path) (Z.of_nat i + 1) row))
  ∧ (∀ k, (∀ i, k ≠ profile_key file_path i) →
       profiles st !! k = profiles self !! k)
  ∧ (∀ i, profiles self !! profile_key file_path i = None →
       (∀ row, rows !! i = Some row → (length row < 2)%nat) →
       profiles st !! profile_key file_path i = None).
Proof.
  cbv zeta.
  destruct (profile_rows_kept self file_path rows) as (Hm & Hp & Ho).
  split; [done|]. split; [done|]. split; [done|].
  intros i Hnone Hshort. unfold parse_csv_file.
  clear Hm Hp Ho. revert Hshort.
  induction rows as [|row rows IH] using rev_ind; intros Hshort; [done|].
  rewrite imap_app, foldl_app. cbn [imap foldl].
  rewrite Nat.add_0_r, parse_row_profile.
  assert (IH' : profiles (foldl (parse_row file_path profile_file_type) self
                            (imap pair rows)) !! profile_key file_path i = None).
  { apply IH. intros r Hr. apply Hshort. by rewrite lookup_app_l
      by (by eapply lookup_lt_Some). }
  case_bool_decide as Hlen; [done|].
  rewrite parse_profile_row_lookup, decide_False; [done|].
  intros E%profile_key_inj. subst i.
  specialize (Hshort row). rewrite lookup_app_r, Nat.sub_diag in Hshort by done.
  specialize (Hshort eq_refl). lia.
Qed.

Lemma profile_file_keeps_every_row_witness :
  profiles (parse_csv_file init "sys/PROF1.CSV"
              (Some [["a"; "1"]; ["x"]; ["b"; "2"; "c"]]) profile_file_type)
    !! profile_key "sys/PROF1.CSV" 2
  = Some (Profile "PROF1.CSV" 3 ["b"; "2"; "c"]).
Proof.
  destruct (profile_file_keeps_every_row init "sys/PROF1.CSV"
              [["a"; "1"]; ["x"]; ["b"; "2"; "c"]]) as (_ & Hrow & _).
  apply (Hrow 2%nat ["b"; "2"; "c"]); [reflexivity|cbn; lia].
Defined.

(** Profiles are keyed by basename: when a later profile file has the
    basename of an earlier one, its row [i] replaces the earlier file's row
    [i], whatever the directories. *)
Theorem profile_same_basename_replaces (self : TanitaParser)
    (path1 path2 : string) (rows1 rows2 : list (list string))
    (i : nat) (row2 : list string) :
  PyStr.basename path1 = PyStr.basename path2 →
  rows2 !! i = Some row2 → (2 ≤ length row2)%nat →
  profiles
    (parse_csv_file
       (parse_csv_file self path1 (Some rows1) profile_file_type)
       path2 (Some rows2) profile_file_type)
    !! profile_key path1 i
  = Some (Profile (PyStr.basename path2) (Z.of_nat i + 1) row2).
Proof.
  intros Hb Hi Hlen.
  replace (profile_key path1 i) with (profile_key path2 i)
    by (unfold profile_key; by rewrite Hb).
  by apply profile_rows_kept.
Qed.

Lemma profile_same_basename_replaces_witness :
  profiles
    (parse_csv_file
       (parse_csv_file init "a/PROF1.CSV" (Some [["old"; "1"]])
          profile_file_type)
       "b/PROF1.CSV" (Some [["new"; "2"]]) profile_file_type)
    !! profile_key "a/PROF1.CSV" 0
  = Some (Profile (PyStr.basename "b/PROF1.CSV") (Z.of_nat 0 + 1) ["new"; "2"]).
Proof.
  apply (profile_same_basename_replaces init "a/PROF1.CSV" "b/PROF1.CSV"
           [["old"; "1"]] [["new"; "2"]] 0%nat ["new"; "2"]);
    [reflexivity|reflexivity|cbn; lia].
Defined.

(** ** What a decoded row holds *)

Lemma decode_fold_lookup (row : list string) (idx : list nat) (m : measurement)
    (k : string) (v : pyval) :
  Forall (λ i, i + 1 < length row)%nat idx →
  foldl (decode_pair row) m idx !! k = Some v →
  m !! k = Some v
  ∨ ∃ i, i ∈ idx ∧ k = key_at row i ∧ v = PStr (value_at row i).
Proof.
  revert m. induction idx as [|i idx IH]; intros m Hidx Hk; [by left|].
  apply Forall_cons in Hidx as [Hi Hidx]. cbn [foldl] in Hk.
  destruct (IH _ Hidx Hk) as [Hm|(j & Hj & -> & ->)].
  - rewrite decode_pair_insert, lookup_insert in Hm by done.
    case_decide as E; [|by left].
    right. exists i. split; [left|]. by simplify_eq.
  - right. exists j. split; [by right|done].
Qed.

Lemma range_by_2_in_row (row : list string) :
  Forall (λ i, i + 1 < length row)%nat
         (range_by_2 (Z.of_nat (length row) - 1)).
Proof.
  apply Forall_forall. intros i (q & -> & Hq)%elem_of_range_by_2. lia.
Qed.

Lemma initial_entries (row : list string) (file_path : string) (row_num : nat)
    (k : string) (v : pyval) :
  (<["raw_data" := PList row]>
     (<["row" := PInt (Z.of_nat row_num + 1)]>
        (<["file" := PStr (PyStr.basename file_path)]> (∅ : measurement))))
    !! k = Some v →
  k ∈ provenance_keys.
Proof.
  unfold provenance_keys. rewrite !lookup_insert, !elem_of_cons.
  repeat case_decide; subst; auto. by rewrite lookup_empty.
Qed.

Lemma decode_row_lookup (row : list string) (file_path : string)
    (row_num : nat) (k : string) (v : pyval) :
  decode_row row file_path row_num !! k = Some v →
  k ∈ provenance_keys
  ∨ ∃ q, (2 * q + 1 < length row)%nat ∧ k = key_at row (2 * q)
         ∧ v = PStr (value_at row (2 * q)).
Proof.
  intros Hk. unfold decode_row in Hk.
  apply decode_fold_lookup in Hk; [|by apply range_by_2_in_row].
  destruct Hk as [Hk|(i & Hi & -> & ->)].
  - left. by eapply initial_entries.
  - right. apply elem_of_range_by_2 in Hi as (q & -> & Hq). eauto.
Qed.

(** The keys of a decoded row are exactly the three provenance keys and the
    keys of its pairs: decoding loses no pair and invents no key. *)
Theorem decoded_keys_exact (row : list string) (file_path : string)
    (row_num : nat) (k : string) :
  is_Some (decode_row row file_path row_num !! k)
  ↔ k ∈ provenance_keys
    ∨ ∃ q, (2 * q + 1 < length row)%nat ∧ k = key_at row (2 * q).
Proof.
  split.
  - intros [v Hv]. apply decode_row_lookup in Hv as [?|(q & ? & ? & _)]; eauto.
  - intros [Hk|(q & Hq & ->)].
    + rewrite decode_row_provenance by done. revert Hk.
      unfold provenance_keys. rewrite !elem_of_cons, elem_of_nil.
      intros [->|[->|[->|[]]]].
      * by rewrite !lookup_insert_ne, lookup_insert_eq by discriminate.
      * by rewrite lookup_insert_ne, lookup_insert_eq by discriminate.
      * by rewrite lookup_insert_eq.
    + unfold decode_row. apply (decode_fold_stores row _ _ (2 * q)).
      apply elem_of_range_by_2. eauto.
Qed.

Lemma decoded_keys_exact_witness :
  is_Some (decode_row sample_row "dir/DATA1.CSV" 0 !! "Unknown_zz")
  ∧ ¬ is_Some (decode_row sample_row "dir/DATA1.CSV" 0 !! "Unknown_tail").
Proof.
  split.
  - apply (decoded_keys_exact sample_row "dir/DATA1.CSV" 0 "Unknown_zz").
    right. exists 1%nat. split; [cbn; lia|reflexivity].
  - intros H.
    apply (decoded_keys_exact sample_row "dir/DATA1.CSV" 0 "Unknown_tail") in H.
    destruct H as [H|(q & Hq & Hk)].
    + unfold provenance_keys in H. rewrite !elem_of_cons, elem_of_nil in H.
      destruct H as [H|[H|[H|[]]]]; discriminate H.
    + cbn in Hq. destruct q as [|[|[|q]]]; [discriminate Hk..|lia].
Defined.

(** *** Stripping twice is stripping once *)

Lemma lstrip_fixed (sp : ascii → bool) (s : string) :
  match s with String c _ => sp c = false | EmptyString => True end →
  PyStr.lstrip_with sp s = s.
Proof. destruct s as [|c s]; [done|]. cbn. by intros ->. Qed.

Lemma lstrip_head (sp : ascii → bool) (s : string) :
  match PyStr.lstrip_with sp s with
  | String c _ => sp c = false
  | EmptyString => True
  end.
Proof.
  induction s as [|c s IH]; [done|]. cbn.
  destruct (sp c) eqn:E; [done|]. by cbn.
Qed.

Lemma rstrip_head (sp : ascii → bool) (s : string) :
  match s with String c _ => sp c = false | EmptyString => True end →
  match PyStr.rstrip_with sp s with
  | String c _ => sp c = false
  | EmptyString => True
  end.
Proof.
  destruct s as [|c s]; [done|]. cbn. intros Hc.
  destruct (PyStr.rstrip_with sp s); [by rewrite Hc|done].
Qed.

Lemma rstrip_idempotent (sp : ascii → bool) (s : string) :
  PyStr.rstrip_with sp (PyStr.rstrip_with sp s) = PyStr.rstrip_with sp s.
Proof.
  induction s as [|c s IH]; [done|]. cbn.
  destruct (PyStr.rstrip_with sp s) as [|d r] eqn:E.
  - destruct (sp c) eqn:Ec; [done|]. cbn. by rewrite Ec.
  - cbn [PyStr.rstrip_with]. cbn [PyStr.rstrip_with] in IH. by rewrite IH.
Qed.

Lemma strip_idempotent (s : string) : PyStr.strip (PyStr.strip s) = PyStr.strip s.
Proof.
  unfold PyStr.strip, PyStr.strip_with.
  rewrite (lstrip_fixed _ (PyStr.rstrip_with _ _)).
  - apply rstrip_idempotent.
  - apply rstrip_head, lstrip_head.
Qed.

(** Every decoded field holds the trimmed text of a pair filed under its
    key: no stored value carries surrounding white space, and no value is
    stored that the row does not contain. *)
Theorem decoded_values_are_trimmed (row : list string) (file_path : string)
    (row_num : nat) (k : string) (v : pyval) :
  k ∉ provenance_keys →
  decode_row row file_path row_num !! k = Some v →
  ∃ q text,
    (2 * q + 1 < length row)%nat ∧ k = key_at row (2 * q)
    ∧ row !! (2 * q + 1)%nat = Some text
    ∧ v = PStr (PyStr.strip text)
    ∧ PyStr.strip (PyStr.strip text) = PyStr.strip text.
Proof.
  intros Hk Hv. apply decode_row_lookup in Hv as [?|(q & Hq & -> & ->)]; [done|].
  destruct (lookup_lt_is_Some_2 row (2 * q + 1)%nat) as [text Ht]; [lia|].
  exists q, text. split; [done|]. split; [done|]. split; [done|].
  split; [|apply strip_idempotent].
  unfold value_at, token. by rewrite Ht.
Qed.

Lemma decoded_values_are_trimmed_witness :
  ∃ q text,
    (2 * q + 1 < length sample_row)%nat
    ∧ "Unknown_zz" = key_at sample_row (2 * q)
    ∧ sample_row !! (2 * q + 1)%nat = Some text
    ∧ PStr "1" = PStr (PyStr.strip text)
    ∧ PyStr.strip (PyStr.strip text) = PyStr.strip text.
Proof.
  apply (decoded_values_are_trimmed sample_row "dir/DATA1.CSV" 1%nat).
  - unfold provenance_keys. rewrite !elem_of_cons, elem_of_nil.
    intros [?|[?|[?|[]]]]; discriminate.
  - vm_compute. reflexivity.
Defined.

(** *** Codes and keys correspond one to one *)

Lemma NoDup_fmap_inj {A B} (f : A → B) (l : list A) (x y : A) :
  NoDup (f <$> l) → x ∈ l → y ∈ l → f x = f y → x = y.
Proof.
  induction l as [|a l IH]; cbn; [by intros _ ?%elem_of_nil|].
  intros [Ha Hl]%NoDup_cons Hx Hy E.
  apply elem_of_cons in Hx as [->|Hx]; apply elem_of_cons in Hy as [->|Hy].
  - done.
  - destruct Ha. rewrite E. by apply list_elem_of_fmap_2.
  - destruct Ha. rewrite <- E. by apply list_elem_of_fmap_2.
  - by apply IH.
Qed.

Lemma table_names_distinct : NoDup (TANITA_MAPPINGS_items.*2).
Proof. refine (bool_decide_unpack _ _). vm_compute. exact I. Qed.

(** Two codes are filed under the same key only when they are the same
    code after trimming: no two codes of the table share a field name, and
    an unknown code never lands on a table name.  So a pair overwrites an
    earlier one only when it repeats its code. *)
Theorem field_key_injective (h1 h2 : string) :
  field_key h1 = field_key h2 → h1 = h2.
Proof.
  intros E.
  destruct (field_key_cases h1) as [[Hin1 H1]|[E1 H1]],
           (field_key_cases h2) as [[Hin2 H2]|[E2 H2]].
  - apply elem_of_list_to_map_2 in H1, H2. rewrite <- E in H2.
    assert (Hp : (h1, field_key h1) = (h2, field_key h1)); [|by injection Hp].
    by apply (NoDup_fmap_inj snd TANITA_MAPPINGS_items);
      [apply table_names_distinct|..].
  - exfalso. pose proof table_names_not_provenance as HF.
    rewrite Forall_forall in HF. destruct (HF _ Hin1) as [_ Hu].
    rewrite E, E2 in Hu. by destruct h2.
  - exfalso. pose proof table_names_not_provenance as HF.
    rewrite Forall_forall in HF. destruct (HF _ Hin2) as [_ Hu].
    rewrite <- E, E1 in Hu. by destruct h1.
  - rewrite E1, E2 in E. by apply (inj (String.app _)) in E.
Qed.

Lemma field_key_injective_witness : "Wk" = PyStr.strip " Wk ".
Proof.
  apply (field_key_injective "Wk" (PyStr.strip " Wk ")). vm_compute. reflexivity.
Defined.

(** ** From the command line to the report *)

Lemma foldl_other_rows (file_path : string) (ps : list (nat * list string))
    (self : TanitaParser) :
  foldl (parse_row file_path other_type) self ps = self.
Proof.
  induction ps as [|[i row] ps IH]; [done|]. cbn [foldl].
  unfold parse_row at 2. by case_bool_decide.
Qed.

Lemma parse_csv_file_measurements (self : TanitaParser) (file_path : string)
    (contents : option (list (list string))) (ft : file_type) :
  measurements (parse_csv_file self file_path contents ft)
    = measurements self
      ++ match ft, contents with
         | measurement_file, Some rows => decoded_rows file_path rows
         | _, _ => []
         end.
Proof.
  destruct contents as [rows|]; [|by destruct ft; rewrite app_nil_r].
  destruct ft.
  - unfold parse_csv_file. by rewrite foldl_measurement_rows.
  - rewrite app_nil_r. apply (profile_rows_kept self file_path rows).
  - unfold parse_csv_file. by rewrite foldl_other_rows, app_nil_r.
Qed.

Lemma parse_files_measurements (self : TanitaParser)
    (files : list (string * option (list (list string)))) :
  measurements (parse_files self files)
    = measurements self ++ concat (file_measurements <$> files).
Proof.
  revert self. induction files as [|[file_path contents] files IH]; intros self.
  - cbn. by rewrite app_nil_r.
  - unfold parse_files in *. cbn [foldl]. rewrite IH. cbn [fmap list_fmap concat].
    rewrite app_assoc. f_equal. unfold file_measurements. cbn [fst snd].
    destruct (route file_path).
    + apply parse_csv_file_measurements.
    + rewrite parse_csv_file_measurements. by destruct contents.
    + by rewrite app_nil_r.
Qed.

Lemma file_measurements_fields_are_text
    (files : list (string * option (list (list string)))) :
  Forall fields_are_text (concat (file_measurements <$> files)).
Proof.
  apply Forall_concat, Forall_fmap, Forall_forall.
  intros [file_path contents] _. unfold file_measurements. cbn.
  destruct (route file_path), contents as [rows|]; try by constructor.
  apply Forall_forall. intros m (i & row & _ & _ & ->)%decoded_rows_elem_of.
  apply decode_row_fields_are_text.
Qed.

Lemma report_comparison_inv (plt : libraries) (self : TanitaParser)
    (r : report) (c : comparison) :
  generate_pdf_report plt self = Some r → rep_comparison r = Some c →
  ∃ l, _get_sorted_measurements self = l ++ [cmp_prev c; cmp_last c].
Proof.
  unfold generate_pdf_report.
  destruct (mapM _ _) as [ss|]; [|done]. cbn. intros [= <-]. cbn.
  destruct (reverse (_get_sorted_measurements self)) as [|a [|b l]] eqn:E;
    try done.
  intros [= <-]. cbn. exists (reverse l).
  apply (inj reverse). rewrite E, reverse_app, reverse_involutive. done.
Qed.

Lemma report_comparison_none (plt : libraries) (self : TanitaParser)
    (r : report) :
  generate_pdf_report plt self = Some r →
  rep_comparison r = None ↔ (length (measurements self) < 2)%nat.
Proof.
  unfold generate_pdf_report.
  destruct (mapM _ _) as [ss|]; [|done]. cbn. intros [= <-]. cbn.
  pose proof (Permutation_length (sorted_measurements_perm self)) as Hp.
  rewrite <- length_reverse in Hp.
  destruct (reverse _) as [|a [|b l]]; cbn in *; split; try done; lia.
Qed.

(** [main] reports exactly the rows it decoded.  For paths in the ASCII
    range, the measurements it collects are, file after file in
    command-line order and row after row, the rows of two tokens or more of
    the files routed as measurement files that exist; profile files,
    unrecognised paths and missing files contribute nothing.  With no such
    row nothing is generated.  Otherwise the sex lookup of
    [generate_pdf_report] does not raise on what was parsed, so [main] ends
    in an exception exactly when a library call of the report raises; when
    none does, the report has one block per row, and the comparison is left
    out exactly when there is one row only. *)
Theorem main_reports_decoded_rows (plt : libraries)
    (files : list (string * option (list (list string)))) :
  Forall (λ file, PyStr.is_ascii file.1 = true) files →
  let found := concat (file_measurements <$> files) in
  let tanita_parser := parse_files init files in
  measurements tanita_parser = found
  ∧ (main plt files = NoMeasurements ↔ found = [])
  ∧ (main plt files = Raised
     ↔ found ≠ [] ∧ report_built plt tanita_parser = false)
  ∧ (∀ r, main plt files = Generated r →
       generate_pdf_report plt tanita_parser = Some r
       ∧ report_built plt tanita_parser = true
       ∧ sec_measurement <$> rep_sections r = found
       ∧ (rep_comparison r = None ↔ length found = 1%nat)).
Proof.
  intros _. cbv zeta. unfold main.
  pose proof (parse_files_measurements init files) as Hm. cbn in Hm.
  pose proof (file_measurements_fields_are_text files) as Hwf.
  split; [exact Hm|]. rewrite <- Hm in *.
  destruct (generate_pdf_report_sections plt _ Hwf) as (r & Hr & Hs & _).
  pose proof (report_comparison_none plt _ _ Hr) as Hc.
  rewrite Hr.
  destruct (measurements (parse_files init files)) as [|m ms] eqn:E.
  - split; [done|]. split; [|by intros r' [=]].
    split; [done|]. by intros [H _].
  - destruct (report_built plt (parse_files init files)).
    + split; [done|]. split; [split; [done|by intros [_ [=]]]|].
      intros r' [= <-]. split; [done|]. split; [done|]. split; [done|].
      rewrite Hc. cbn. lia.
    + split; [done|]. split; [done|]. by intros r' [=].
Qed.

Lemma main_reports_decoded_rows_witness :
  (∃ r, main all_calls_return
          [ ("sys/PROF1.CSV", Some [["a"; "1"]]);
            ("notes.txt", Some [["Wk"; "80"]]);
            ("data/DATA2.CSV", Some later_file);
            ("data/DATA9.CSV", None);
            ("data/DATA1.CSV", Some earlier_file) ] = Generated r
        ∧ length (sec_measurement <$> rep_sections r) = 2%nat)
  ∧ main report_not_built [ ("data/DATA1.CSV", Some earlier_file) ] = Raised.
Proof.
  split.
  - pose proof (main_reports_decoded_rows all_calls_return
      [ ("sys/PROF1.CSV", Some [["a"; "1"]]);
        ("notes.txt", Some [["Wk"; "80"]]);
        ("data/DATA2.CSV", Some later_file);
        ("data/DATA9.CSV", None);
        ("data/DATA1.CSV", Some earlier_file) ])
      as (_ & Hnone & Hraised & Hgen).
    { repeat constructor. }
    destruct (main _ _) as [| |r].
    + exfalso. destruct Hnone as [Hnone _]. specialize (Hnone eq_refl).
      apply (f_equal length) in Hnone. vm_compute in Hnone. discriminate Hnone.
    + exfalso. destruct Hraised as [Hraised _].
      destruct (Hraised eq_refl) as [_ Hb]. discriminate Hb.
    + exists r. split; [done|]. destruct (Hgen r eq_refl) as (_ & _ & -> & _).
      vm_compute. reflexivity.
  - pose proof (main_reports_decoded_rows report_not_built
      [ ("data/DATA1.CSV", Some earlier_file) ]) as (_ & _ & Hraised & _).
    { repeat constructor. }
    apply Hraised. split; [|reflexivity].
    intros H. apply (f_equal length) in H. vm_compute in H. discriminate H.
Defined.

(** ** Which measurements are compared *)

Lemma report_comparison_of (plt : libraries) (self : TanitaParser)
    (r : report) (l : list measurement) (prev last : measurement) :
  generate_pdf_report plt self = Some r →
  _get_sorted_measurements self = l ++ [prev; last] →
  ∃ c, rep_comparison r = Some c ∧ cmp_prev c = prev ∧ cmp_last c = last.
Proof.
  unfold generate_pdf_report.
  destruct (mapM _ _) as [ss|]; [|done]. cbn. intros [= <-] ->.
  rewrite reverse_app. cbn. eauto.
Qed.

(** The comparison is between the two latest measurements: both were
    collected, the one shown as previous is not after the one shown as
    latest, no collected measurement is after the latest, and setting these
    two aside no other measurement is after the previous one. *)
Theorem comparison_takes_latest_two (plt : libraries) (self : TanitaParser)
    (r : report) (c : comparison) :
  generate_pdf_report plt self = Some r → rep_comparison r = Some c →
  cmp_prev c ∈ measurements self
  ∧ cmp_last c ∈ measurements self
  ∧ not_after (cmp_prev c) (cmp_last c)
  ∧ (∀ m, m ∈ measurements self → not_after m (cmp_last c))
  ∧ ∃ rest, measurements self ≡ₚ cmp_last c :: cmp_prev c :: rest
            ∧ Forall (λ m, not_after m (cmp_prev c)) rest.
Proof.
  intros Hr Hc. destruct (report_comparison_inv plt self r c Hr Hc) as [l Hl].
  pose proof (sorted_measurements_perm self) as Hp.
  pose proof (sorted_measurements_ascending self) as Hs.
  rewrite Hl in Hp, Hs. apply StronglySorted_app in Hs as (Hcross & _ & Hpl).
  apply StronglySorted_inv in Hpl as [_ Hpl].
  apply Forall_cons in Hpl as [Hpl _].
  assert (Hin : ∀ m, m ∈ measurements self ↔ m ∈ l ∨ m = cmp_prev c ∨ m = cmp_last c).
  { intros m. rewrite <- Hp, elem_of_app, !elem_of_cons, elem_of_nil. tauto. }
  split; [apply Hin; auto|]. split; [apply Hin; auto|]. split; [done|].
  split.
  - intros m [Hm|[->| ->]]%Hin.
    + apply Hcross; [done|]. rewrite !elem_of_cons. auto.
    + done.
    + apply datetime_ltb_irrefl.
  - exists l. split.
    + rewrite <- Hp. rewrite (Permutation_app_comm l). cbn. apply perm_swap.
    + apply Forall_forall. intros m Hm. apply Hcross; [done|].
      rewrite !elem_of_cons. auto.
Qed.

Lemma comparison_takes_latest_two_witness :
  ∃ r c, generate_pdf_report all_calls_return later_first = Some r
    ∧ rep_comparison r = Some c
    ∧ not_after (cmp_prev c) (cmp_last c).
Proof.
  destruct (generate_pdf_report_sections all_calls_return later_first
              later_first_fields_are_text) as (r & Hr & _).
  pose proof (report_comparison_none all_calls_return later_first r Hr)
    as Hnone.
  destruct (rep_comparison r) as [c|] eqn:Hc.
  - exists r, c. split; [done|]. split; [done|].
    by destruct (comparison_takes_latest_two all_calls_return later_first
                   r c Hr Hc)
      as (_ & _ & H & _).
  - exfalso. destruct Hnone as [Hnone _]. specialize (Hnone eq_refl).
    vm_compute in Hnone. lia.
Defined.

(** When all the measurements have the same sort key, as they do when no
    date can be read, the comparison is between the last two that were
    discovered, the very last being shown as the latest. *)
Theorem same_key_compares_last_discovered (plt : libraries)
    (self : TanitaParser) (r : report)
    (k : PyDatetime.datetime) (l : list measurement) (a b : measurement) :
  Forall (has_key k) (measurements self) →
  measurements self = l ++ [a; b] →
  generate_pdf_report plt self = Some r →
  ∃ c, rep_comparison r = Some c ∧ cmp_prev c = a ∧ cmp_last c = b.
Proof.
  intros Hk Hl Hr. apply (report_comparison_of plt self r l); [done|].
  rewrite <- Hl. apply sorted_measurements_fixed_iff.
  revert Hk. generalize (measurements self). clear.
  induction 1 as [|m ms Hm Hms IH]; constructor; [done|].
  eapply Forall_impl; [exact Hms|]. intros m' Hm'. unfold not_after, has_key in *.
  rewrite Hm, Hm'. apply datetime_ltb_irrefl.
Qed.

Lemma same_key_compares_last_discovered_witness :
  ∃ r c,
    generate_pdf_report all_calls_return
      (parse_csv_file init "DATA1.CSV"
         (Some [["Wk"; "80"]; ["Wk"; "81"]; ["Wk"; "82"]]) measurement_file)
      = Some r
    ∧ rep_comparison r = Some c
    ∧ cmp_prev c = decode_row ["Wk"; "81"] "DATA1.CSV" 1
    ∧ cmp_last c = decode_row ["Wk"; "82"] "DATA1.CSV" 2.
Proof.
  destruct (generate_pdf_report_sections all_calls_return
              (parse_csv_file init "DATA1.CSV"
                 (Some [["Wk"; "80"]; ["Wk"; "81"]; ["Wk"; "82"]])
                 measurement_file)) as (r & Hr & _).
  { apply parse_csv_file_fields_are_text. constructor. }
  exists r.
  destruct (same_key_compares_last_discovered all_calls_return
              (parse_csv_file init "DATA1.CSV"
                 (Some [["Wk"; "80"]; ["Wk"; "81"]; ["Wk"; "82"]])
                 measurement_file) r PyDatetime.min
              [decode_row ["Wk"; "80"] "DATA1.CSV" 0]
              (decode_row ["Wk"; "81"] "DATA1.CSV" 1)
              (decode_row ["Wk"; "82"] "DATA1.CSV" 2)) as (c & Hc & Hp & Hl).
  - repeat constructor; vm_compute; reflexivity.
  - reflexivity.
  - exact Hr.
  - exists c. by rewrite Hr.
Defined.

(** ** Routing of the files named on the command line *)

Lemma upper_app (a b : string) :
  PyStr.upper (a +:+ b) = PyStr.upper a +:+ PyStr.upper b.
Proof.
  induction a as [|c a IH]; [done|]. rewrite append_cons. cbn [PyStr.upper].
  by rewrite append_cons, IH.
Qed.

Lemma prefix_app (p a b : string) :
  String.prefix p a = true → String.prefix p (a +:+ b) = true.
Proof.
  revert a. induction p as [|c p IH]; intros [|d a]; try done.
  - by destruct b.
  - rewrite append_cons. cbn [String.prefix].
    destruct (Ascii.ascii_dec c d); [apply IH|done].
Qed.

Lemma isin_app_l (sub a b : string) :
  PyStr.isin sub a = true → PyStr.isin sub (a +:+ b) = true.
Proof.
  induction a as [|c a IH].
  - cbn. rewrite orb_false_r. destruct sub; [|done]. intros _.
    destruct b; by cbn.
  - rewrite append_cons. cbn [PyStr.isin].
    intros [H|H]%orb_true_iff; apply orb_true_iff.
    + left. by apply (prefix_app sub (String c a) b).
    + right. by apply IH.
Qed.

Lemma isin_app_r (sub a b : string) :
  PyStr.isin sub b = true → PyStr.isin sub (a +:+ b) = true.
Proof.
  intros H. induction a as [|c a IH]; [done|].
  rewrite append_cons. cbn [PyStr.isin]. rewrite IH. apply orb_true_r.
Qed.

Lemma upper_lower_char (c : ascii) :
  PyStr.upper_char (PyStr.lower_char c) = PyStr.upper_char c.
Proof. destruct c as [[] [] [] [] [] [] [] []]; vm_compute; reflexivity. Qed.

Lemma upper_upper_char (c : ascii) :
  PyStr.upper_char (PyStr.upper_char c) = PyStr.upper_char c.
Proof. destruct c as [[] [] [] [] [] [] [] []]; vm_compute; reflexivity. Qed.

Lemma upper_lower (s : string) : PyStr.upper (PyStr.lower s) = PyStr.upper s.
Proof.
  induction s as [|c s IH]; [done|]. cbn [PyStr.lower PyStr.upper].
  by rewrite upper_lower_char, IH.
Qed.

Lemma upper_upper (s : string) : PyStr.upper (PyStr.upper s) = PyStr.upper s.
Proof.
  induction s as [|c s IH]; [done|]. cbn [PyStr.upper].
  by rewrite upper_upper_char, IH.
Qed.

Lemma route_measurement (p : string) :
  route p = measurement_file ↔ PyStr.isin "DATA" (PyStr.upper p) = true.
Proof.
  unfold route. destruct (PyStr.isin "DATA" _); [done|].
  by destruct (PyStr.isin "PROF" _).
Qed.

Lemma route_recognised (p : string) :
  route p ≠ other_type
  ↔ PyStr.isin "DATA" (PyStr.upper p) = true
    ∨ PyStr.isin "PROF" (PyStr.upper p) = true.
Proof.
  unfold route. destruct (PyStr.isin "DATA" _); [by intuition|].
  destruct (PyStr.isin "PROF" _); intuition; discriminate.
Qed.

(** The routing test reads the whole path, without regard to case: a path
    is a measurement file as soon as its directory part or its name part
    holds DATA, also when the name holds PROF; a path is recognised as soon
    as one of its parts is; and on ASCII paths the case of the letters does
    not matter. *)
Theorem route_reads_whole_path (dir name : string) :
  (route dir = measurement_file ∨ route name = measurement_file →
   route (dir +:+ name) = measurement_file)
  ∧ (route dir ≠ other_type ∨ route name ≠ other_type →
     route (dir +:+ name) ≠ other_type)
  ∧ (PyStr.is_ascii name = true →
     route (PyStr.lower name) = route name
     ∧ route (PyStr.upper name) = route name).
Proof.
  split; [|split].
  - rewrite !route_measurement, upper_app.
    intros [H|H]; [by apply isin_app_l|by apply isin_app_r].
  - rewrite !route_recognised, upper_app.
    intros [[H|H]|[H|H]];
      ((left; by apply isin_app_l) || (left; by apply isin_app_r)
       || (right; by apply isin_app_l) || (right; by apply isin_app_r)).
  - intros _. unfold route. by rewrite upper_lower, upper_upper.
Qed.

Lemma route_reads_whole_path_witness :
  route ("data/" +:+ "PROF1.CSV") = measurement_file
  ∧ route (PyStr.lower "Prof1.csv") = route "Prof1.csv".
Proof.
  destruct (route_reads_whole_path "data/" "PROF1.CSV") as (Hdata & _ & _).
  destruct (route_reads_whole_path "" "Prof1.csv") as (_ & _ & Hcase).
  split.
  - apply Hdata. left. reflexivity.
  - apply Hcase. reflexivity.
Defined.

(** ** The difference of two readings *)

Lemma sub_diag (x : spec_float) :
  PyFloat.sub x x = if PyFloat.is_finite x then zero else S754_nan.
Proof.
  destruct x as [s|s| |s m e]; [by destruct s..|done|].
  cbv beta iota zeta delta [PyFloat.sub SFsub PyFloat.is_finite].
  match goal with
  | |- binary_normalize _ _ ?d _ _ = _ =>
      replace d with 0 by (symmetry; apply Z.sub_diag)
  end.
  reflexivity.
Qed.

(** A metric that reads the same in both measurements gives the difference
    zero: the table shows +0.0 in gray, and the chart, computed from the
    same two values, does not annotate the difference.  When the common
    reading is an infinity or a NaN, which [float] accepts, the difference
    is a NaN: the table shows +nan in green, and the chart's test for an
    annotation fails as well. *)
Theorem unchanged_metric (plt : libraries)
    (prev_measurement last_measurement : measurement)
    (field unit units : string) (v : pyval) (x : spec_float) :
  prev_measurement !! field = Some v → last_measurement !! field = Some v →
  table_number (py_str v) = Some x →
  comparison_cell prev_measurement last_measurement field unit
    = (if PyFloat.is_finite x then Diff zero ("+0.0" +:+ unit) "gray"
       else Diff S754_nan ("+nan" +:+ unit) "green")
  ∧ (∀ c, _plot_comparison_chart plt prev_measurement last_measurement
            field units = Some c →
          chart_val1 c = x ∧ chart_val2 c = x ∧ chart_significant c = false).
Proof.
  intros H1 H2 Hx.
  unfold comparison_cell, _plot_comparison_chart, chart_number.
  unfold table_number in Hx. rewrite H1, H2. unfold table_number.
  rewrite Hx. cbv zeta. rewrite sub_diag. split.
  - by destruct (PyFloat.is_finite x).
  - destruct (chart_drawn plt _ _ _ _); [|done].
    intros c [= <-]. cbn. split; [done|]. split; [done|].
    by destruct (PyFloat.is_finite x).
Qed.

Lemma unchanged_metric_witness :
  comparison_cell earlier_reading earlier_reading "Grasa corporal total %" "%"
    = Diff zero "+0.0%" "gray"
  ∧ comparison_cell {["Edad" := PStr "inf"]} {["Edad" := PStr "inf"]} "Edad" ""
    = Diff S754_nan "+nan" "green".
Proof.
  split.
  - destruct (unchanged_metric all_calls_return earlier_reading earlier_reading
                "Grasa corporal total %" "%" "" (PStr "18") (num 18))
      as [H _]; [vm_compute; reflexivity..|exact H].
  - destruct (unchanged_metric all_calls_return
                {["Edad" := PStr "inf"]} {["Edad" := PStr "inf"]}
                "Edad" "" "" (PStr "inf") (S754_infinity false))
      as [H _]; [vm_compute; reflexivity..|exact H].
Defined.

(** When the chart annotates a difference, the table cell of the same field
    is never gray: it is red when the value went up and green otherwise. *)
Theorem annotated_difference_is_coloured (plt : libraries)
    (prev_measurement last_measurement : measurement)
    (field unit units : string) (c : chart) :
  _plot_comparison_chart plt prev_measurement last_measurement field units
    = Some c →
  chart_significant c = true →
  comparison_cell prev_measurement last_measurement field unit
    = Diff (chart_diff c) (PyFloat.format_plus_1f (chart_diff c) +:+ unit)
           (if PyFloat.ltb (num 0) (chart_diff c) then "red" else "green").
Proof.
  unfold _plot_comparison_chart, comparison_cell, table_number, chart_number.
  destruct (prev_measurement !! field) as [v1|]; [|done].
  destruct (last_measurement !! field) as [v2|]; [|done].
  destruct (PyFloat.of_string _) as [x1|]; [|done].
  destruct (PyFloat.of_string _) as [x2|]; [|done].
  destruct (chart_drawn plt _ _ _ _); [|done].
  cbv zeta. intros [= <-]. cbn [chart_significant chart_diff].
  intros Hsig%ltb_asym_float. by rewrite Hsig.
Qed.

Lemma annotated_difference_is_coloured_witness :
  comparison_cell earlier_reading later_reading
    "Índice de masa corporal (IMC)" ""
  = Diff (PyFloat.sub (PyFloat.of_decimal false 252 (-1))
                      (PyFloat.of_decimal false 240 (-1)))
         "+1.2" "red".
Proof.
  rewrite (annotated_difference_is_coloured all_calls_return
             earlier_reading later_reading
             "Índice de masa corporal (IMC)" "" " kg/m²"
             (Chart (PyFloat.of_decimal false 240 (-1))
                    (PyFloat.of_decimal false 252 (-1))
                    (PyFloat.sub (PyFloat.of_decimal false 252 (-1))
                                 (PyFloat.of_decimal false 240 (-1)))
                    "Diferencia: +1.2 kg/m²" true));
    vm_compute; reflexivity.
Defined.

(** ** Decimal commas *)

Lemma replace_char_cons (old new c : ascii) (s : string) :
  PyStr.replace old (String new "") (String c s)
    = String (if Ascii.eqb c old then new else c)
             (PyStr.replace old (String new "") s).
Proof. cbn [PyStr.replace]. by destruct (Ascii.eqb c old). Qed.

Lemma replace_delete_cons (old c : ascii) (s : string) :
  PyStr.replace old "" (String c s)
    = if Ascii.eqb c old then PyStr.replace old "" s
      else String c (PyStr.replace old "" s).
Proof. cbn [PyStr.replace]. by destruct (Ascii.eqb c old). Qed.

Lemma comma_of_dot (s : string) :
  PyStr.replace "," "." (PyStr.replace "." "," s) = PyStr.replace "," "." s.
Proof.
  induction s as [|c s IH]; [done|]. rewrite !replace_char_cons, IH.
  f_equal. destruct (Ascii.eqb_spec c ".") as [->|]; [done|].
  by destruct (Ascii.eqb c ",").
Qed.

Lemma percent_of_dot (s : string) :
  PyStr.replace "%" "" (PyStr.replace "." "," s)
    = PyStr.replace "." "," (PyStr.replace "%" "" s).
Proof.
  induction s as [|c s IH]; [done|].
  rewrite replace_char_cons, !replace_delete_cons.
  destruct (Ascii.eqb_spec c ".") as [->|Hdot].
  - cbn [Ascii.eqb Bool.eqb]. by rewrite replace_char_cons, IH.
  - destruct (Ascii.eqb c "%"); [done|].
    rewrite replace_char_cons, IH.
    by destruct (Ascii.eqb_spec c ".").
Qed.

(** A decimal comma reads as a decimal dot: at every normalization site, a
    text and the same text with its dots written as commas give the same
    number, or fail together. *)
Theorem decimal_comma_reads_as_dot (s : string) :
  let with_commas := PyStr.replace "." "," s in
  grasa_number with_commas = grasa_number s
  ∧ imc_number with_commas = imc_number s
  ∧ musc_number with_commas = musc_number s
  ∧ agua_number with_commas = agua_number s
  ∧ visceral_number with_commas = visceral_number s
  ∧ table_number with_commas = table_number s
  ∧ chart_number with_commas = chart_number s.
Proof.
  cbv zeta.
  unfold grasa_number, imc_number, musc_number, agua_number, visceral_number,
    table_number, chart_number.
  by rewrite percent_of_dot, !comma_of_dot.
Qed.

Lemma decimal_comma_reads_as_dot_witness :
  imc_number "25,2" = imc_number "25.2".
Proof.
  by destruct (decimal_comma_reads_as_dot "25.2") as (_ & H & _).
Defined.

(** ** The stacked composition chart *)

Lemma composition_value_lookup (m : measurement) (key : string) :
  composition_value m key
    = match m !! key with
      | Some v => table_number (py_str v)
      | None => Some zero
      end.
Proof.
  unfold composition_value. destruct (m !! key); [done|].
  vm_compute. reflexivity.
Qed.

Lemma composition_value_Some (m : measurement) (key : string) :
  is_Some (composition_value m key) ↔ readable (m !! key).
Proof.
  rewrite composition_value_lookup. unfold readable.
  destruct (m !! key) as [v|].
  - split; [by intros H v' [= <-]|by intros H; apply H].
  - split; [by intros _ v'|by eexists].
Qed.

Lemma composition_bar_Some (m : measurement) :
  is_Some (composition_bar m) ↔ ∀ key, key ∈ composition_keys → readable (m !! key).
Proof.
  assert (Hiff : is_Some (composition_bar m)
                 ↔ is_Some (composition_value m "Grasa corporal total %")
                   ∧ is_Some (composition_value m "Músculo corporal total %")
                   ∧ is_Some (composition_value m "Agua corporal total %")).
  { unfold composition_bar. rewrite !is_Some_alt.
    destruct (composition_value m "Grasa corporal total %");
      destruct (composition_value m "Músculo corporal total %");
      destruct (composition_value m "Agua corporal total %"); cbn; tauto. }
  rewrite Hiff, !composition_value_Some. unfold composition_keys. split.
  - intros (Hf & Hm & Hw) key Hkey.
    rewrite !elem_of_cons, elem_of_nil in Hkey.
    by destruct Hkey as [-> | [-> | [-> | []]]].
  - intros H. repeat split; apply H; rewrite !elem_of_cons; auto.
Qed.

Lemma composition_value_reads (m : measurement) (key : string)
    (x : spec_float) :
  composition_value m key = Some x →
  match m !! key with
  | Some v => table_number (py_str v) = Some x
  | None => x = zero
  end.
Proof.
  rewrite composition_value_lookup.
  destruct (m !! key); [done|by intros [= <-]].
Qed.

Lemma composition_bar_values (m : measurement) (b : stacked_bar) :
  composition_bar m = Some b →
  (∀ key value,
     (key, value) ∈ [ ("Grasa corporal total %", stack_fat b);
                      ("Músculo corporal total %", stack_muscle b);
                      ("Agua corporal total %", stack_water b) ] →
     match m !! key with
     | Some v => table_number (py_str v) = Some value
     | None => value = zero
     end)
  ∧ stack_total b
      = PyFloat.add (PyFloat.add (stack_fat b) (stack_muscle b)) (stack_water b).
Proof.
  unfold composition_bar.
  destruct (composition_value m "Grasa corporal total %") as [f|] eqn:Ef;
    [|done].
  destruct (composition_value m "Músculo corporal total %") as [mu|] eqn:Em;
    [|done].
  destruct (composition_value m "Agua corporal total %") as [w|] eqn:Ew;
    [|done].
  cbn. intros [= <-]. cbn. split; [|done].
  intros key value. rewrite !elem_of_cons, elem_of_nil.
  intros [[= -> ->]|[[= -> ->]|[[= -> ->]|[]]]];
    by apply composition_value_reads.
Qed.

(** The stacked composition chart reads six values in one [try]: they are
    all read exactly when every one of the three fields that a measurement
    has reads as a number, in both measurements; otherwise the chart is
    left out.  When they are read, the values handed to the plotting calls
    for the bar of each measurement are, for fat, muscle and water, the
    number read from that measurement's own field, or zero when the
    measurement does not have the field, and the total is fat plus muscle
    plus water. *)
Theorem composition_chart_reads_six_values
    (prev_measurement last_measurement : measurement) :
  (is_Some (composition_chart prev_measurement last_measurement)
   ↔ ∀ m key, m ∈ [prev_measurement; last_measurement] →
              key ∈ composition_keys → readable (m !! key))
  ∧ (∀ b1 b2,
       composition_chart prev_measurement last_measurement = Some (b1, b2) →
       ∀ m b, (m, b) ∈ [(prev_measurement, b1); (last_measurement, b2)] →
         (∀ key value,
            (key, value) ∈ [ ("Grasa corporal total %", stack_fat b);
                             ("Músculo corporal total %", stack_muscle b);
                             ("Agua corporal total %", stack_water b) ] →
            match m !! key with
            | Some v => table_number (py_str v) = Some value
            | None => value = zero
            end)
         ∧ stack_total b
             = PyFloat.add (PyFloat.add (stack_fat b) (stack_muscle b))
                           (stack_water b)).
Proof.
  pose proof (composition_bar_Some prev_measurement) as H1.
  pose proof (composition_bar_Some last_measurement) as H2.
  pose proof (composition_bar_values prev_measurement) as M1.
  pose proof (composition_bar_values last_measurement) as M2.
  unfold composition_chart.
  destruct (composition_bar prev_measurement) as [b1|];
    destruct (composition_bar last_measurement) as [b2|]; cbn.
  - split.
    + split; [|by eexists]. intros _ m key Hm.
      apply elem_of_cons in Hm as [->|Hm]; [by apply H1|].
      apply list_elem_of_singleton in Hm as ->. by apply H2.
    + intros ? ? [= <- <-] m b Hmb.
      apply elem_of_cons in Hmb as [[= -> ->]|Hmb]; [by apply M1|].
      apply list_elem_of_singleton in Hmb as [= -> ->]. by apply M2.
  - split; [|done]. split; [by intros [? [=]]|]. intros H. exfalso.
    assert (Hx : is_Some (None : option stacked_bar)); [|by destruct Hx as [? [=]]].
    apply H2. intros key Hkey. apply H; [|done]. rewrite !elem_of_cons. auto.
  - split; [|done]. split; [by intros [? [=]]|]. intros H. exfalso.
    assert (Hx : is_Some (None : option stacked_bar)); [|by destruct Hx as [? [=]]].
    apply H1. intros key Hkey. apply H; [|done]. rewrite !elem_of_cons. auto.
  - split; [|done]. split; [by intros [? [=]]|]. intros H. exfalso.
    assert (Hx : is_Some (None : option stacked_bar)); [|by destruct Hx as [? [=]]].
    apply H1. intros key Hkey. apply H; [|done]. rewrite !elem_of_cons. auto.
Qed.

Lemma composition_chart_reads_six_values_witness :
  (∃ b1 b2,
     composition_chart ∅ {["Agua corporal total %" := PStr "55,1%"]}
       = Some (b1, b2)
     ∧ table_number "55,1%" = Some (stack_water b2)
     ∧ stack_fat b2 = zero)
  ∧ ¬ is_Some (composition_chart ∅ {["Agua corporal total %" := PStr "n/a"]}).
Proof.
  destruct (composition_chart_reads_six_values
              ∅ {["Agua corporal total %" := PStr "55,1%"]}) as [Hyes Hval].
  destruct (composition_chart_reads_six_values
              ∅ {["Agua corporal total %" := PStr "n/a"]}) as [Hno _].
  split.
  - assert (Hsome : is_Some (composition_chart ∅
                      {["Agua corporal total %" := PStr "55,1%"]})).
    { apply Hyes. intros m key Hm Hkey v Hv.
      apply elem_of_cons in Hm as [->|Hm].
      { by rewrite lookup_empty in Hv. }
      apply list_elem_of_singleton in Hm as ->.
      unfold composition_keys in Hkey.
      rewrite !elem_of_cons, elem_of_nil in Hkey.
      destruct Hkey as [->|[->|[->|[]]]]; [done|done|].
      injection Hv as <-. vm_compute. by eexists. }
    destruct Hsome as [[b1 b2] Hb]. exists b1, b2. split; [exact Hb|].
    destruct (Hval b1 b2 Hb {["Agua corporal total %" := PStr "55,1%"]} b2)
      as [Hread _].
    { rewrite !elem_of_cons. auto. }
    split.
    + apply (Hread "Agua corporal total %" (stack_water b2)).
      rewrite !elem_of_cons. auto.
    + apply (Hread "Grasa corporal total %" (stack_fat b2)).
      rewrite !elem_of_cons. auto.
  - intros H. pose proof (proj1 Hno H) as H'.
    destruct (H' {["Agua corporal total %" := PStr "n/a"]}
                "Agua corporal total %") with (v := PStr "n/a") as [x Hx].
    + rewrite !elem_of_cons. auto.
    + unfold composition_keys. rewrite !elem_of_cons. auto.
    + reflexivity.
    + vm_compute in Hx. discriminate Hx.
Defined.

(** ** The coloured bars *)

Lemma rectangles_None (ranges : list (spec_float * spec_float))
    (bar_colors labels : list string) :
  mapM (λ '(i, (r, c)),
          label ← labels !! i;
          Some (Rectangle r.1 (PyFloat.sub r.2 r.1) c label))
       (imap pair (zip ranges bar_colors)) = None
  ↔ (length labels < Nat.min (length ranges) (length bar_colors))%nat.
Proof.
  rewrite mapM_None, Exists_exists, <- (length_zip_with pair ranges bar_colors).
  split.
  - intros ([i [r c]] & Hin & Hnone).
    apply elem_of_lookup_imap_1 in Hin as (j & rc & [= -> <-] & Hj).
    apply lookup_lt_Some in Hj.
    destruct (labels !! j) as [label|] eqn:E; [done|].
    apply lookup_ge_None in E. lia.
  - intros Hlen.
    destruct (lookup_lt_is_Some_2 (zip ranges bar_colors) (length labels) Hlen)
      as [[r c] Hrc].
    exists (length labels, (r, c)). split.
    + by apply (elem_of_lookup_imap_2 pair).
    + by rewrite (lookup_ge_None_2 labels (length labels)).
Qed.

(** The indexing of [_plot_colored_bar] fails in two cases only, both an
    [IndexError]: no range at all, or fewer labels than rectangles drawn.
    The rectangles drawn are as many as the shorter of the ranges and the
    colours, so a range without a colour is left out without an error. *)
Theorem colored_bar_index_error (value : spec_float)
    (ranges : list (spec_float * spec_float)) (bar_colors labels : list string) :
  (_plot_colored_bar value ranges bar_colors labels = None
   ↔ ranges = []
     ∨ (length labels < Nat.min (length ranges) (length bar_colors))%nat)
  ∧ (∀ d, _plot_colored_bar value ranges bar_colors labels = Some d →
       length (draw_rectangles d)
         = Nat.min (length ranges) (length bar_colors)
       ∧ draw_marker d = value).
Proof.
  unfold _plot_colored_bar.
  pose proof (rectangles_None ranges bar_colors labels) as HA.
  destruct (mapM _ _) as [rects|] eqn:E.
  - apply mapM_Some, Forall2_length in E.
    rewrite length_imap, length_zip_with in E.
    destruct ranges as [|r0 ranges]; [by split; [split; auto|]|].
    cbn [head mbind option_bind].
    destruct (last (r0 :: ranges)) as [rn|] eqn:El;
      [|by apply last_None in El].
    cbn. split.
    + split; [done|]. intros [?|H]; [done|]. by apply HA in H.
    + intros d [= <-]. by cbn.
  - cbn. split; [|done]. split; [|done]. intros _. right. by apply HA.
Qed.

Lemma colored_bar_index_error_witness :
  _plot_colored_bar zero visceral_ranges (metric_colors visceral_fat)
    ["Óptima"; "Alta"] = None
  ∧ ∃ d, _plot_colored_bar zero visceral_ranges ["#b6fcb6"]
           ["Óptima"; "Alta"] = Some d
         ∧ length (draw_rectangles d) = 1%nat.
Proof.
  destruct (colored_bar_index_error zero visceral_ranges
              (metric_colors visceral_fat) ["Óptima"; "Alta"]) as [Hnone _].
  destruct (colored_bar_index_error zero visceral_ranges ["#b6fcb6"]
              ["Óptima"; "Alta"]) as [_ Hsome].
  split.
  - apply Hnone. right. cbn. lia.
  - eexists. split; [vm_compute; reflexivity|].
    eapply proj1, Hsome. vm_compute. reflexivity.
Defined.

Ltac draw_bar colors :=
  exists colors; eexists;
  split; [unfold bar_tables; rewrite !elem_of_cons; auto 10|];
  split; [vm_compute; reflexivity|];
  split; [reflexivity|];
  split; [vm_compute; repeat split|reflexivity].

(** No bar of a block runs out of labels: with the ranges, colours and
    labels of its call there is a label for every rectangle, one rectangle
    per range, and the rectangles cover the axis from its first bound to its
    last with no gap and no overlap, for each metric and each sex category.
    The marker is put at the value read, whether or not it lies on the
    axis. *)
Theorem report_bars_are_drawn (i : nat) (m : measurement) (s : section)
    (b : bar) :
  measurement_section i m = Some s → b ∈ sec_bars s →
  ∃ bar_colors d,
    (bar_ranges b, bar_colors, bar_labels b) ∈ bar_tables (sec_sexo s)
    ∧ _plot_colored_bar (bar_value b) (bar_ranges b) bar_colors (bar_labels b)
        = Some d
    ∧ length (draw_rectangles d) = length (bar_ranges b)
    ∧ fills_axis d
    ∧ draw_marker d = bar_value b.
Proof.
  unfold measurement_section.
  destruct (measurement_genero m) as [genero|]; [|done].
  cbn. intros [= <-]. cbn [sec_bars sec_sexo].
  generalize (sexo_for genero). intros sx.
  rewrite !elem_of_app. unfold bar_if.
  intros [Hb|[Hb|[Hb|[Hb|Hb]]]];
    match type of Hb with
    | _ ∈ match ?o with _ => _ end =>
        destruct o as [x|]; [|by apply elem_of_nil in Hb]
    end;
    apply list_elem_of_singleton in Hb as ->;
    cbn [bar_value bar_ranges bar_labels].
  - destruct sx; draw_bar (metric_colors body_fat).
  - draw_bar (metric_colors bmi).
  - destruct sx; draw_bar (metric_colors muscle).
  - destruct sx; draw_bar (metric_colors body_water).
  - draw_bar (metric_colors visceral_fat).
Qed.

Lemma report_bars_are_drawn_witness :
  ∃ s bar_colors d,
    measurement_section 0 earlier_reading = Some s
    ∧ _plot_colored_bar (num 18) (grasa_ranges hombre) bar_colors grasa_labels
        = Some d
    ∧ fills_axis d.
Proof.
  destruct (measurement_section_Some 0 earlier_reading) as (s & Hs & _).
  { apply decode_row_fields_are_text. }
  assert (Hsec : measurement_section 0 earlier_reading = Some s) by exact Hs.
  revert Hs. vm_compute measurement_section. intros [= <-].
  destruct (report_bars_are_drawn 0 earlier_reading _
              (Bar (num 18) (grasa_ranges hombre) grasa_labels
                   "Análisis de grasa corporal [%]" "%") Hsec)
    as (colors & d & _ & Hd & _ & Hfill & _).
  - vm_compute. left.
  - eexists _, colors, d. split; [exact Hsec|]. by split.
Defined.

(** ** The radar drawings *)

Lemma existsb_false {A} (f : A → bool) (l : list A) :
  existsb f l = false ↔ ∀ x, x ∈ l → f x = false.
Proof.
  induction l as [|a l IH]; cbn.
  - split; [by intros _ x ?%elem_of_nil|done].
  - rewrite orb_false_iff, IH. split.
    + intros [Ha Hl] x [->|Hx]%elem_of_cons; [done|by apply Hl].
    + intros H. split; [apply H; by left|]. intros x Hx. apply H. by right.
Qed.

Lemma closed_polygon {A} (values : list A) :
  values ≠ [] →
  length (values ++ take 1 values) = S (length values)
  ∧ head (values ++ take 1 values) = last (values ++ take 1 values).
Proof.
  intros Hne. destruct values as [|v values]; [done|].
  change (take 1 (v :: values)) with [v]. split.
  - rewrite length_app. cbn. lia.
  - by rewrite last_snoc.
Qed.

(** The radar of a block is drawn unless every segment value is zero, a
    value that is missing or does not read as a number counting as zero.
    When it is drawn, the values are those of the keys, in order, closed
    into a polygon by repeating the first value, and there are as many
    angles as values when there are as many labels as keys. *)
Theorem segment_radar_closes_polygon (m : measurement)
    (keys labels : list string) :
  (segment_radar m keys labels = None
   ↔ ∀ k, k ∈ keys → PyFloat.truthy (segment_value (m !! k)) = false)
  ∧ (∀ k, m !! k = None
          ∨ (∃ v, m !! k = Some v ∧ table_number (py_str v) = None) →
          segment_value (m !! k) = zero)
  ∧ (∀ values angles, segment_radar m keys labels = Some (values, angles) →
       length values = S (length keys)
       ∧ head values = last values
       ∧ (∀ i k, keys !! i = Some k →
            values !! i = Some (segment_value (m !! k)))
       ∧ (length labels = length keys → angles = length values)).
Proof.
  unfold segment_radar, _plot_radar. split; [|split].
  - destruct (existsb _ _) eqn:E.
    + split; [done|]. intros H. exfalso.
      assert (E' : existsb PyFloat.truthy
                     ((λ k, segment_value (m !! k)) <$> keys) = false);
        [|congruence].
      apply existsb_false. intros x (k & -> & Hk)%list_elem_of_fmap. by apply H.
    + split; [|done]. intros _ k Hk.
      rewrite existsb_false in E. apply E, list_elem_of_fmap. eauto.
  - intros k [->|(v & -> & Hv)]; [done|]. unfold segment_value.
    unfold table_number in Hv. by rewrite Hv.
  - intros values angles. destruct (existsb _ _) eqn:E; [|done].
    intros [= <- <-].
    assert (Hne : (λ k, segment_value (m !! k)) <$> keys ≠ []).
    { intros Hnil. by rewrite Hnil in E. }
    destruct (closed_polygon _ Hne) as [Hlen Hclosed].
    rewrite length_fmap in Hlen. split; [done|]. split; [done|]. split.
    + intros i k Hk. rewrite lookup_app_l
        by (rewrite length_fmap; by eapply lookup_lt_Some).
      by rewrite list_lookup_fmap, Hk.
    + intros ->. rewrite Hlen. destruct keys; [done|]. cbn. lia.
Qed.

Lemma segment_radar_closes_polygon_witness :
  segment_radar {["Grasa del torso %" := PStr "0,0"]} fat_keys segment_labels
    = None.
Proof.
  destruct (segment_radar_closes_polygon
              {["Grasa del torso %" := PStr "0,0"]} fat_keys segment_labels)
    as [Hnone _].
  apply Hnone. intros k Hk. unfold fat_keys in Hk.
  rewrite !elem_of_cons, elem_of_nil in Hk.
  destruct Hk as [-> | [-> | [-> | [-> | [-> | []]]]]]; vm_compute; reflexivity.
Defined.

Lemma readable_cases (o : option pyval) :
  (readable o ∧ segment_value o
                = match o with
                  | Some v => default zero (table_number (py_str v))
                  | None => zero
                  end
   ∧ (o = None ∨ ∃ v x, o = Some v ∧ table_number (py_str v) = Some x))
  ∨ (¬ readable o ∧ ∃ v, o = Some v ∧ table_number (py_str v) = None).
Proof.
  destruct o as [v|].
  - destruct (table_number (py_str v)) as [x|] eqn:E.
    + left. split; [|split].
      * intros ? [= <-]. by rewrite E.
      * unfold segment_value. unfold table_number in E. by rewrite E.
      * right. eauto.
    + right. split; [|eauto]. intros H.
      destruct (H v eq_refl) as [x Hx]. congruence.
  - left. split; [by intros ?|]. split; [done|by left].
Qed.

Lemma radar_comparison_pair_values (v1 v2 : option pyval) :
  (readable v1 → readable v2 →
   radar_comparison_pair v1 v2 = (segment_value v1, segment_value v2))
  ∧ (¬ readable v1 ∨ ¬ readable v2 →
     radar_comparison_pair v1 v2 = (zero, zero)).
Proof.
  unfold radar_comparison_pair, segment_value.
  destruct (readable_cases v1) as [(R1 & _ & [->|(w1 & x1 & -> & E1)])
                                  |(N1 & w1 & -> & E1)];
    destruct (readable_cases v2) as [(R2 & _ & [->|(w2 & x2 & -> & E2)])
                                    |(N2 & w2 & -> & E2)];
    unfold table_number in *; rewrite ?E1, ?E2;
    (split; [intros ? ?|intros [?|?]]); done.
Qed.

(** [_plot_radar_comparison] reads the two values of a key in one [try]:
    when both read as numbers (a missing value reading as zero) they are
    plotted as they are, and when either of them does not, both are plotted
    as zero, also the one that does read. *)
Theorem radar_comparison_zeroes_both (measurement1 measurement2 : measurement)
    (keys : list string) (values1 values2 : list spec_float)
    (i : nat) (k : string) :
  _plot_radar_comparison measurement1 measurement2 keys
    = Some (values1, values2) →
  keys !! i = Some k →
  (readable (measurement1 !! k) → readable (measurement2 !! k) →
   values1 !! i = Some (segment_value (measurement1 !! k))
   ∧ values2 !! i = Some (segment_value (measurement2 !! k)))
  ∧ (¬ readable (measurement1 !! k) ∨ ¬ readable (measurement2 !! k) →
     values1 !! i = Some zero ∧ values2 !! i = Some zero).
Proof.
  unfold _plot_radar_comparison. destruct (_ && _); [done|].
  intros [= <- <-] Hk. apply lookup_lt_Some in Hk as Hi.
  rewrite !lookup_app_l by (by rewrite !length_fmap).
  rewrite !list_lookup_fmap, Hk. cbn.
  destruct (radar_comparison_pair_values (measurement1 !! k) (measurement2 !! k))
    as [Hboth Hnone].
  split.
  - intros R1 R2. by rewrite (Hboth R1 R2).
  - intros H. by rewrite (Hnone H).
Qed.

Lemma radar_comparison_zeroes_both_witness :
  ∃ values1 values2,
    _plot_radar_comparison
      {["Grasa del torso %" := PStr "21,5"; "Grasa del brazo (derecho) %" := PStr "12"]}
      {["Grasa del torso %" := PStr "--"; "Grasa del brazo (derecho) %" := PStr "13"]}
      fat_keys = Some (values1, values2)
    ∧ values1 !! 0%nat = Some zero ∧ values2 !! 0%nat = Some zero.
Proof.
  eexists _, _. split; [vm_compute; reflexivity|].
  eapply (radar_comparison_zeroes_both
            {["Grasa del torso %" := PStr "21,5";
              "Grasa del brazo (derecho) %" := PStr "12"]}
            {["Grasa del torso %" := PStr "--";
              "Grasa del brazo (derecho) %" := PStr "13"]}
            fat_keys _ _ 0 "Grasa del torso %").
  - vm_compute. reflexivity.
  - reflexivity.
  - right. intros H. destruct (H (PStr "--")) as [x Hx]; [reflexivity|].
    vm_compute in Hx. discriminate Hx.
Defined.

(** ** The field table of a block *)

Lemma contains_app_r (c : ascii) (a b : string) :
  PyStr.contains c b = true → PyStr.contains c (a +:+ b) = true.
Proof.
  intros H. induction a as [|d a IH]; [done|].
  rewrite append_cons. cbn [PyStr.contains]. rewrite IH. apply orb_true_r.
Qed.

Lemma basename_join (dir name : string) :
  PyStr.contains "/" name = false →
  PyStr.basename (dir +:+ "/" +:+ name) = name.
Proof.
  intros Hname. induction dir as [|c dir IH].
  - change ("" +:+ "/" +:+ name) with (String "/" name).
    cbn [PyStr.basename]. by rewrite Hname.
  - rewrite append_cons. cbn [PyStr.basename].
    rewrite contains_app_r; [done|].
    change ("/" +:+ name) with (String "/" name). cbn [PyStr.contains].
    by rewrite Ascii.eqb_refl.
Qed.

(** A measurement records the name of its file without the directories, and
    the heading of its block shows that name: readings of files with the
    same name in different directories carry the same file entry. *)
Theorem file_entry_drops_directories (dir name : string) (row : list string)
    (row_num i : nat) (s : section) :
  PyStr.contains "/" name = false →
  measurement_section i (decode_row row (dir +:+ "/" +:+ name) row_num) = Some s →
  decode_row row (dir +:+ "/" +:+ name) row_num !! "file" = Some (PStr name)
  ∧ sec_heading s = "Medición " +:+ pretty (Z.of_nat i + 1) +:+ " - " +:+ name.
Proof.
  intros Hname Hs.
  assert (Hfile : decode_row row (dir +:+ "/" +:+ name) row_num !! "file"
                  = Some (PStr name)).
  { rewrite decode_row_provenance
      by (unfold provenance_keys; rewrite !elem_of_cons; auto).
    rewrite !lookup_insert_ne, lookup_insert_eq by discriminate.
    by rewrite basename_join. }
  split; [done|]. revert Hs. unfold measurement_section.
  destruct (measurement_genero _); [|done]. cbn. intros [= <-]. cbn.
  by rewrite Hfile.
Qed.

Lemma file_entry_drops_directories_witness :
  decode_row sample_row ("a/b" +:+ "/" +:+ "DATA1.CSV") 0 !! "file"
    = Some (PStr "DATA1.CSV").
Proof.
  destruct (measurement_section_Some 0
              (decode_row sample_row ("a/b" +:+ "/" +:+ "DATA1.CSV") 0))
    as (s & Hs & _).
  { apply decode_row_fields_are_text. }
  by destruct (file_entry_drops_directories "a/b" "DATA1.CSV" sample_row 0 0 s
                 eq_refl Hs) as [H _].
Defined.

Lemma important_fields_not_provenance :
  Forall (λ f, (f ∉ provenance_keys)
               ∧ (f ∈ (TANITA_MAPPINGS_items.*2) →
                  f ∈ ["Género"; "Edad"; "Altura (cm)"]))
         important_fields.
Proof. refine (bool_decide_unpack _ _). vm_compute. exact I. Qed.

Lemma important_fields_not_unknown (h : string) :
  "Unknown_" +:+ h ∉ important_fields.
Proof.
  rewrite unknown_key_head. unfold important_fields.
  rewrite !elem_of_cons, elem_of_nil.
  intros H. repeat (destruct H as [H|H]; [discriminate H|]). done.
Qed.

(** Of the fourteen fields the table means to list first, only three can be
    keys of a decoded measurement: the other eleven names differ from the
    names of the code table, so date, time, weight, body-mass index and the
    other main values are never listed by that loop. *)
Theorem important_fields_mostly_unmatched (row : list string)
    (file_path : string) (row_num : nat) (field : string) :
  field ∈ important_fields →
  is_Some (decode_row row file_path row_num !! field) →
  field ∈ ["Género"; "Edad"; "Altura (cm)"].
Proof.
  intros Hf [v Hv]. pose proof important_fields_not_provenance as HF.
  rewrite Forall_forall in HF. destruct (HF _ Hf) as [Hp Hn].
  apply decode_row_lookup in Hv as [?|(q & _ & -> & _)]; [done|].
  unfold key_at in *.
  destruct (field_key_cases (PyStr.strip (token row (2 * q)))) as [[Hin _]|[E _]].
  - by apply Hn.
  - rewrite E in Hf. by apply important_fields_not_unknown in Hf.
Qed.

Lemma important_fields_mostly_unmatched_witness :
  "Edad" ∈ ["Género"; "Edad"; "Altura (cm)"].
Proof.
  apply (important_fields_mostly_unmatched ["AG"; "41"] "DATA1.CSV" 0 "Edad").
  - unfold important_fields. rewrite !elem_of_cons. auto.
  - vm_compute. by eexists.
Defined.

Lemma other_rows_lookup (m : measurement) (key : string) :
  other_rows (table_data m) !! key
    = if other_field_shown key then py_str <$> m !! key else None.
Proof.
  unfold table_data. cbn [other_rows]. rewrite lookup_fmap.
  destruct (filter _ m !! key) as [x|] eqn:E.
  - apply map_lookup_filter_Some in E as [Hm Hp]. cbn in Hp. by rewrite Hp, Hm.
  - apply map_lookup_filter_None in E.
    destruct (other_field_shown key) eqn:Ho; [|done].
    destruct (m !! key) as [x|] eqn:Hm; [|done].
    destruct E as [E|E]; [done|]. exfalso. by apply (E x).
Qed.

Lemma rows_count (m : measurement) (key : string)
    (g : string → pyval → string) (rowf : string → option (string * string))
    (fields : list string) :
  (∀ f, rowf f = (λ v, (f, g f v)) <$> m !! f) →
  length (filter (λ r, r.1 = key) (omap rowf fields))
    = if m !! key is Some _
      then length (filter (λ f, f = key) fields) else 0%nat.
Proof.
  intros Hrow. induction fields as [|f fields IH]; [by destruct (m !! key)|].
  rewrite omap_cons_eq, Hrow, (filter_cons (λ f, f = key)).
  destruct (m !! f) as [v|] eqn:E; cbn [fmap option_fmap option_map].
  - rewrite filter_cons. cbn [fst]. case_decide as Hk; [|done].
    subst f. rewrite E in *. cbn [length]. by rewrite IH.
  - case_decide as Hk; [|done]. subst f. by rewrite E in *.
Qed.

Lemma row_listed (m : measurement) (key : string) (v : pyval)
    (g : string → pyval → string) (rowf : string → option (string * string))
    (fields : list string) :
  (∀ f, rowf f = (λ v, (f, g f v)) <$> m !! f) →
  key ∈ fields → m !! key = Some v → (key, g key v) ∈ omap rowf fields.
Proof.
  intros Hrow Hin Hm. apply list_elem_of_omap. exists key.
  split; [done|]. by rewrite Hrow, Hm.
Qed.

Lemma important_row_shape (m : measurement) (f : string) :
  important_row m f = (λ v, (f, shown_text f v)) <$> m !! f.
Proof. unfold important_row. by destruct (m !! f). Qed.

Lemma plain_row_shape (m : measurement) (f : string) :
  plain_row m f = (λ v, (f, (λ _, py_str) f v)) <$> m !! f.
Proof. reflexivity. Qed.

Lemma rows_for_table (m : measurement) (key : string) :
  key ≠ "Campo" →
  rows_for key (table_data m)
    = if m !! key is Some _
      then (listed_count key + if other_field_shown key then 1 else 0)%nat
      else 0%nat.
Proof.
  intros Hc. unfold rows_for. rewrite other_rows_lookup.
  unfold table_data, listed_count. cbn [listed_rows].
  rewrite filter_cons. cbn [fst]. rewrite decide_False by done.
  rewrite !filter_app, !length_app.
  rewrite (rows_count m key shown_text (important_row m))
    by apply important_row_shape.
  rewrite !(rows_count m key (λ _, py_str) (plain_row m))
    by apply plain_row_shape.
  destruct (m !! key); destruct (other_field_shown key);
    cbn [fmap option_fmap option_map]; cbv beta iota; lia.
Qed.

Lemma table_fields_check :
  Forall (λ key,
            (key ≠ "Campo")
            ∧ ((listed_count key + if other_field_shown key then 1 else 0)%nat
               = if recognised key then 1%nat else 0%nat)
            ∧ (recognised key = true →
               key ∈ important_fields ∨ key ∈ fat_fields ++ muscle_fields
               ∨ other_field_shown key = true)
            ∧ (key ∈ fat_fields ++ muscle_fields ∨ other_field_shown key = true →
               key ≠ "Género"))
         ((TANITA_MAPPINGS_items.*2) ++ provenance_keys).
Proof. refine (bool_decide_unpack _ _). vm_compute. exact I. Qed.

Lemma unknown_not_listed (h : string) :
  "Unknown_" +:+ h ∉ important_fields ++ fat_fields ++ muscle_fields.
Proof.
  rewrite unknown_key_head. unfold important_fields, fat_fields, muscle_fields.
  cbn [app]. rewrite !elem_of_cons, elem_of_nil.
  intros H. repeat (destruct H as [H|H]; [discriminate H|]). done.
Qed.

Lemma filter_absent (key : string) (fields : list string) :
  key ∉ fields → filter (λ f, f = key) fields = [].
Proof.
  induction fields as [|f fields IH]; [done|].
  rewrite not_elem_of_cons. intros [Hne Hin]. rewrite filter_cons.
  rewrite decide_False by done. by apply IH.
Qed.

Lemma unknown_prefix (h : string) :
  PyStr.startswith "Unknown_" ("Unknown_" +:+ h) = true.
Proof. by destruct h. Qed.

(** The table of a block has exactly one row for each field of the
    measurement that the code table names, showing its value (the sex codes
    1 and 2 written out), and no row for a provenance entry, for a code of
    unknown meaning, or for a code outside the table. *)
Theorem table_lists_each_field_once (row : list string) (file_path : string)
    (row_num : nat) (key : string) (v : pyval) :
  decode_row row file_path row_num !! key = Some v →
  let t := table_data (decode_row row file_path row_num) in
  if recognised key
  then rows_for key t = 1%nat ∧ shows t key (shown_text key v)
  else rows_for key t = 0%nat.
Proof.
  intros Hv. cbv zeta.
  assert (Hcases : key ∈ (TANITA_MAPPINGS_items.*2) ++ provenance_keys
                   ∨ ∃ h, key = "Unknown_" +:+ h).
  { apply decode_row_lookup in Hv as Hk.
    destruct Hk as [?|(q & _ & -> & _)]; [left; apply elem_of_app; by right|].
    unfold key_at.
    destruct (field_key_cases (PyStr.strip (token row (2 * q))))
      as [[Hin _]|[E _]]; [left; apply elem_of_app; by left|right; eauto]. }
  set (m := decode_row row file_path row_num) in *. clearbody m.
  destruct Hcases as [Hin|[h ->]].
  - pose proof table_fields_check as HF. rewrite Forall_forall in HF.
    destruct (HF _ Hin) as (Hc & Hcount & Hwhere & Hsex).
    rewrite rows_for_table, Hv, Hcount by done.
    destruct (recognised key) eqn:Hr; [|done]. split; [done|].
    unfold shows. destruct (decide (key ∈ important_fields)) as [Himp|Himp].
    + left. unfold table_data. cbn [listed_rows].
      apply elem_of_cons. right. apply elem_of_app. left.
      by apply (row_listed m key v shown_text (important_row m));
        [apply important_row_shape|..].
    + destruct (Hwhere eq_refl) as [?|Hrest]; [done|].
      unfold shown_text. rewrite bool_decide_eq_false_2 by (by apply Hsex).
      destruct Hrest as [[Hfat|Hmus]%elem_of_app|Hother].
      * left. unfold table_data. cbn [listed_rows].
        apply elem_of_cons. right. apply elem_of_app. right.
        apply elem_of_app. left.
        by apply (row_listed m key v (λ _, py_str) (plain_row m)).
      * left. unfold table_data. cbn [listed_rows].
        apply elem_of_cons. right. apply elem_of_app. right.
        apply elem_of_app. right.
        by apply (row_listed m key v (λ _, py_str) (plain_row m)).
      * right. by rewrite other_rows_lookup, Hother, Hv.
  - assert (Hr : recognised ("Unknown_" +:+ h) = false).
    { unfold recognised. rewrite bool_decide_eq_false_2; [done|].
      intros Hin. pose proof table_names_not_provenance as HF.
      rewrite Forall_forall in HF. destruct (HF _ Hin) as [_ Hu].
      by rewrite unknown_prefix in Hu. }
    rewrite Hr, rows_for_table, Hv
      by (rewrite unknown_key_head; discriminate).
    unfold listed_count. rewrite filter_absent by apply unknown_not_listed.
    unfold other_field_shown. rewrite unknown_prefix. cbn [negb length].
    by rewrite andb_false_r.
Qed.

Lemma table_lists_each_field_once_witness :
  let t := table_data (decode_row ["GE"; "1"; "zz"; "9"] "DATA1.CSV" 0) in
  (rows_for "Género" t = 1%nat ∧ shows t "Género" "Hombre")
  ∧ rows_for "Unknown_zz" t = 0%nat.
Proof.
  cbv zeta. split.
  - pose proof (table_lists_each_field_once ["GE"; "1"; "zz"; "9"]
                  "DATA1.CSV" 0 "Género" (PStr "1")) as H.
    cbv zeta in H. apply H. vm_compute. reflexivity.
  - pose proof (table_lists_each_field_once ["GE"; "1"; "zz"; "9"]
                  "DATA1.CSV" 0 "Unknown_zz" (PStr "9")) as H.
    cbv zeta in H. apply H. vm_compute. reflexivity.
Defined.

(** ** Which bars a block has *)

Lemma bar_if_title (v : option spec_float)
    (ranges : list (spec_float * spec_float)) (labels : list string)
    (title units : string) (b : bar) :
  b ∈ bar_if v ranges labels title units →
  bar_title b = title ∧ v = Some (bar_value b).
Proof.
  unfold bar_if. destruct v as [x|]; [|by intros ?%elem_of_nil].
  by intros ->%list_elem_of_singleton.
Qed.

Lemma absent_reads_as_no_number :
  grasa_number (str_get None) = None ∧ imc_number (str_get None) = None.
Proof. split; vm_compute; reflexivity. Qed.

(** A block has at most five bars, each showing the number read from its
    own field, and none for a field the measurement does not have: the text
    of a missing value is not a number. *)
Theorem bars_follow_readable_metrics (i : nat) (m : measurement) (s : section) :
  measurement_section i m = Some s →
  (length (sec_bars s) ≤ 5)%nat
  ∧ (∀ b, b ∈ sec_bars s →
       ∃ key, (key, bar_title b) ∈ bar_fields
              ∧ (imc_number (str_get (m !! key)) = Some (bar_value b)
                 ∨ grasa_number (str_get (m !! key)) = Some (bar_value b)))
  ∧ (∀ key title, (key, title) ∈ bar_fields → m !! key = None →
       title ∉ bar_title <$> sec_bars s).
Proof.
  unfold measurement_section.
  destruct (measurement_genero m) as [genero|]; [|done].
  cbn. intros [= <-]. cbn [sec_bars].
  generalize (sexo_for genero). intros sx.
  assert (Hbars : ∀ b,
    b ∈ bar_if (grasa_number (str_get (m !! "Grasa corporal total %")))
          (grasa_ranges sx) grasa_labels "Análisis de grasa corporal [%]" "%"
        ++ bar_if (imc_number (str_get (m !! "Índice de masa corporal (IMC)")))
             imc_ranges imc_labels "Análisis de IMC [kg/m²]" ""
        ++ bar_if (musc_number (str_get (m !! "Músculo corporal total %")))
             (musc_ranges sx) musc_labels "Análisis de masa muscular [%]" "%"
        ++ bar_if (agua_number (str_get (m !! "Agua corporal total %")))
             (agua_ranges sx) agua_labels "Análisis de agua corporal [%]" "%"
        ++ bar_if (visceral_number (str_get (m !! "Índice de grasa visceral")))
             visceral_ranges visceral_labels "Grasa visceral [nivel]" "" →
    ∃ key, (key, bar_title b) ∈ bar_fields
           ∧ (imc_number (str_get (m !! key)) = Some (bar_value b)
              ∨ grasa_number (str_get (m !! key)) = Some (bar_value b))).
  { intros b. rewrite !elem_of_app. unfold bar_fields.
    intros [Hb|[Hb|[Hb|[Hb|Hb]]]]; apply bar_if_title in Hb as [-> Hv];
      eexists; (split; [rewrite !elem_of_cons; auto 10|]); auto. }
  split; [|split; [exact Hbars|]].
  - rewrite !length_app. unfold bar_if.
    repeat match goal with
           | |- context [match ?o with Some _ => _ | None => _ end] =>
               destruct o
           end; cbn; lia.
  - intros key title Hkt Hm (b & -> & Hb)%list_elem_of_fmap.
    destruct (Hbars b Hb) as (key' & Hkt' & Hnum).
    assert (key' = key) as ->.
    { revert Hkt Hkt'. unfold bar_fields. rewrite !elem_of_cons, !elem_of_nil.
      intros [E|[E|[E|[E|[E|[]]]]]] [E'|[E'|[E'|[E'|[E'|[]]]]]];
        injection E as -> Ht; injection E' as -> Ht'; rewrite Ht in Ht';
        (reflexivity || discriminate Ht'). }
    rewrite Hm in Hnum. destruct absent_reads_as_no_number as [Hg Hi].
    rewrite Hg, Hi in Hnum. by destruct Hnum.
Qed.

Lemma bars_follow_readable_metrics_witness :
  ∃ s, measurement_section 0 earlier_reading = Some s
    ∧ "Grasa visceral [nivel]" ∉ bar_title <$> sec_bars s.
Proof.
  destruct (measurement_section_Some 0 earlier_reading) as (s & Hs & _).
  { apply decode_row_fields_are_text. }
  exists s. split; [exact Hs|].
  destruct (bars_follow_readable_metrics 0 earlier_reading s Hs)
    as (_ & _ & Hnone).
  apply (Hnone "Índice de grasa visceral").
  - unfold bar_fields. rewrite !elem_of_cons. auto 10.
  - vm_compute. reflexivity.
Defined.
